(** * ServiceNow monthly PDF generator: a shallow embedding of the pipeline

    The development follows the Python sources:
    - [src/files.py]          sanitize_filename, download_asset, dedupe_assets
    - [src/convert.py]        to_pdf
    - [src/monday_client.py]  MondayClient.graphql and its retry decorator
    - [src/filters.py]        get_month_range, get_status_index
    - [src/main.py]           verify_all_tickets_found, main

    Python [str] values are sequences of Unicode code points, modelled as
    [list N].  Effects (file system, HTTP, external converters, stdout) are
    threaded through an explicit world by a small state-and-exception monad. *)

From Stdlib Require Import String Ascii.
From Stdlib Require Import List ZArith NArith Bool Lia Permutation.
Import ListNotations.


(* ------------------------------------------------------------------ *)
(** * Python strings *)

Definition pystr := list N.

Definition py (s : string) : pystr :=
  map N_of_ascii (list_ascii_of_string s).

Definition pystr_eq_dec : forall a b : pystr, {a = b} + {a <> b} :=
  list_eq_dec N.eq_dec.

Definition str_eqb (a b : pystr) : bool :=
  if pystr_eq_dec a b then true else false.

(** Truthiness of a [str] and of an optional [str] ([None] and [""] are
    falsy). *)
Definition truthy (s : pystr) : bool :=
  match s with [] => false | _ :: _ => true end.

Definition truthy_opt (s : option pystr) : bool :=
  match s with Some (_ :: _) => true | _ => false end.

(** What the interpreter's Unicode database and [int()] decide; the ASCII
    range is modelled below, the rest is left to the runtime. *)
Class PyRuntime := {
  unicode_isalnum : N -> bool;       (* c.isalnum() for c >= U+0080 *)
  str_lower : pystr -> pystr;        (* s.lower() *)
  py_int : pystr -> option Z         (* int(s); None when it raises ValueError *)
}.

Definition is_ascii_alnum (c : N) : bool :=
  ((48 <=? c) && (c <=? 57) || (65 <=? c) && (c <=? 90)
   || (97 <=? c) && (c <=? 122))%N.

Definition isalnum `{PyRuntime} (c : N) : bool :=
  if (c <? 128)%N then is_ascii_alnum c else unicode_isalnum c.

Definition DASH : N := 45.
Definition DOT : N := 46.
Definition SEP : N := 47.
Definition UNDERSCORE : N := 95.

(** [c in "-_"] for a one-character [c]. *)
Definition in_dash_underscore (c : N) : bool :=
  ((c =? DASH) || (c =? UNDERSCORE))%N.

(** [s.lstrip(c)] for a single stripped character. *)
Fixpoint lstrip (c : N) (s : pystr) : pystr :=
  match s with
  | x :: t => if (x =? c)%N then lstrip c t else s
  | [] => []
  end.

Fixpoint startswith (p s : pystr) : bool :=
  match p, s with
  | [], _ => true
  | a :: p', b :: s' => (a =? b)%N && startswith p' s'
  | _ :: _, [] => false
  end.

(** [sub in s] *)
Fixpoint contains (s sub : pystr) : bool :=
  startswith sub s ||
  match s with
  | [] => false
  | _ :: s' => contains s' sub
  end.

(** [s.split(c)]: always at least one part. *)
Fixpoint split (c : N) (s : pystr) : list pystr :=
  match s with
  | [] => [[]]
  | x :: t =>
      if (x =? c)%N then [] :: split c t
      else match split c t with
           | p :: ps => (x :: p) :: ps
           | [] => [[x]]
           end
  end.

(** [sep.join(parts)] *)
Fixpoint join_with (sep : pystr) (parts : list pystr) : pystr :=
  match parts with
  | [] => []
  | [p] => p
  | p :: ps => p ++ sep ++ join_with sep ps
  end.

(** [s.rfind(c)], -1 when absent. *)
Fixpoint rfind_from (c : N) (s : pystr) (i : Z) (found : Z) : Z :=
  match s with
  | [] => found
  | x :: t => rfind_from c t (i + 1) (if (x =? c)%N then i else found)
  end.

Definition rfind (c : N) (s : pystr) : Z := rfind_from c s 0 (-1).

Definition slice_to (s : pystr) (i : Z) : pystr := firstn (Z.to_nat i) s.
Definition slice_from (s : pystr) (i : Z) : pystr := skipn (Z.to_nat i) s.

(* ------------------------------------------------------------------ *)
(** * posixpath and pathlib *)

Definition starts_with_sep (s : pystr) : bool :=
  match s with x :: _ => (x =? SEP)%N | [] => false end.

Definition ends_with_sep (s : pystr) : bool :=
  match rev s with x :: _ => (x =? SEP)%N | [] => false end.

(** [os.path.join(a, b)] *)
Definition os_path_join (a b : pystr) : pystr :=
  if starts_with_sep b then b
  else if negb (truthy a) || ends_with_sep a then a ++ b
  else a ++ [SEP] ++ b.

(** [os.path.basename(p)]: [p[p.rfind('/') + 1:]] *)
Definition os_path_basename (p : pystr) : pystr :=
  slice_from p (rfind SEP p + 1).

(** [os.path.splitext(p)] *)
Definition os_path_splitext (p : pystr) : pystr * pystr :=
  let sepIndex := rfind SEP p in
  let dotIndex := rfind DOT p in
  if (sepIndex <? dotIndex)%Z then
    (* skip all leading dots of the last component *)
    let between := slice_to (slice_from p (sepIndex + 1)) (dotIndex - (sepIndex + 1)) in
    if existsb (fun c => negb (c =? DOT)%N) between
    then (slice_to p dotIndex, slice_from p dotIndex)
    else (p, [])
  else (p, []).

(** [str(Path(out_dir) / filename)]: the segments are joined, the root is
    kept, empty and ["."] components are dropped. *)
Definition pathlib_join (out_dir filename : pystr) : pystr :=
  let raw := os_path_join out_dir filename in
  let '(root, rel) :=
    match raw with
    | 47%N :: 47%N :: 47%N :: _ => ([SEP], tl raw)
    | 47%N :: 47%N :: rest => ([SEP; SEP], rest)
    | 47%N :: rest => ([SEP], rest)
    | _ => ([], raw)
    end in
  let tail := filter (fun x => truthy x && negb (str_eqb x [DOT])) (split SEP rel) in
  match root ++ join_with [SEP] tail with
  | [] => [DOT]
  | s => s
  end.

(* ------------------------------------------------------------------ *)
(** * Data model ([src/models.py] and the item dictionaries of the API) *)

Module Asset.
Record t := mk {
  id : pystr;
  name : pystr;
  file_extension : pystr;
  public_url : option pystr;
  url : option pystr;
  size : option Z
}.
End Asset.

Module TicketRow.
Record t := mk {
  item_id : pystr;
  item_name : pystr;
  open_date : pystr;
  close_date : option pystr;
  attachments : list Asset.t
}.
End TicketRow.

(** One entry of an item's ['column_values']: its ['id'] and its ['text']
    (which the API may give as [null]). *)
Module ColumnValue.
Record t := mk { id : pystr; text : option pystr }.
End ColumnValue.

(** An item as the API returns it (a dictionary in the Python code). *)
Module Item.
Record t := mk {
  id : pystr;
  name : pystr;
  assets : list Asset.t;
  column_values : list ColumnValue.t
}.
End Item.

(* ------------------------------------------------------------------ *)
(** * [src/files.py]: sanitize_filename *)

Definition sanitize_char `{PyRuntime} (c : N) : N :=
  if isalnum c || in_dash_underscore c then c else UNDERSCORE.

Definition sanitize_filename `{PyRuntime} (name : pystr) : pystr :=
  map sanitize_char name.

(** [f"{asset.id}-{sanitize_filename(asset.name)}.{asset.file_extension}"] *)
Definition download_filename `{PyRuntime} (asset : Asset.t) : pystr :=
  Asset.id asset ++ [DASH] ++ sanitize_filename (Asset.name asset)
    ++ [DOT] ++ Asset.file_extension asset.

(** A concrete runtime for evaluation: ASCII lowering, nothing beyond
    U+007F is alphanumeric, decimal digits only for [int]. *)
Definition ascii_lower_char (c : N) : N :=
  if ((65 <=? c) && (c <=? 90))%N then (c + 32)%N else c.

Fixpoint digits_value (s : pystr) (acc : Z) : option Z :=
  match s with
  | [] => Some acc
  | c :: t =>
      if ((48 <=? c) && (c <=? 57))%N
      then digits_value t (10 * acc + Z.of_N (c - 48))
      else None
  end.

Definition ascii_int (s : pystr) : option Z :=
  match s with
  | [] => None
  | _ => digits_value s 0
  end.

Definition ascii_runtime : PyRuntime :=
  {| unicode_isalnum := fun _ => false;
     str_lower := map ascii_lower_char;
     py_int := ascii_int |}.

(* ------------------------------------------------------------------ *)
(** * The world the program runs in *)

Inductive exn :=
| HTTPStatusError (code : N)        (* resp.raise_for_status() *)
| TransportError                    (* httpx could not get a response *)
| JSONDecodeError
| GenericException (msg : pystr)    (* raise Exception(data['errors']) *)
| RetryError                        (* tenacity, attempts exhausted *)
| KeyError
| IndexError
| TypeError
| ValueError
| OSError
| FileNotFoundError
| CalledProcessError
| TimeoutExpired
| ImageError
| PdfReadError                      (* pypdf: also PdfStreamError, EmptyFileError *)
| IsADirectoryError.

Inductive result (A : Type) :=
| Ok (a : A)
| Raise (e : exn)
| OutOfFuel.

Arguments Ok {A} a.
Arguments Raise {A} e.
Arguments OutOfFuel {A}.

Inductive PlaceholderReason := UnsupportedType | ConversionFailed.

Inductive Tool := Soffice | Wkhtmltopdf | Img2pdf.

Inductive FileContent :=
| RawBytes (content : list N)
| ConvertedPdf (tool : Tool) (source : pystr)
| PlaceholderPdf (file_name : pystr) (reason : PlaceholderReason)
| SummaryPdf (tickets : list TicketRow.t)
| MergedPdf (parts : list pystr)
| Workbook (tickets : list TicketRow.t).

(** The three queries of [src/queries.py] with their variables. *)
Inductive Request :=
| GET_STATUS_COLUMN (boardId : pystr)
| GET_ITEMS_PAGE (boardId : pystr) (limit : Z)
| NEXT_ITEMS_PAGE (cursor : pystr) (limit : Z).

(** The ['data'] member of a reply, by shape.  [settings] is the
    ['labels'] object of the column's [settings_str], [None] when
    [settings_str] is not JSON. *)
Inductive ApiData :=
| StatusColumnData (settings : option (list (pystr * pystr)))
| ItemsPageData (items : list Item.t) (cursor : option pystr)
| NextItemsPageData (items : list Item.t) (cursor : option pystr)
| OtherData.

Inductive HttpReply :=
| ReplyNoResponse
| ReplyStatusError (code : N)
| ReplyNotJson
| ReplyJson (errors : option pystr) (data : option ApiData).

Inductive GetReply :=
| GetNoResponse
| GetStatusError (code : N)
| GetOk (content : list N).

Inductive ProcOutcome :=
| Exited0 (wrote_output : bool)
| ExitedNonZero
| ProcTimeout
| ToolMissing.

(** The [warning] of a log line: [str(e)] or a fixed text. *)
Inductive Warning :=
| WarnExn (e : exn)
| WarnText (text : pystr).

(** Lines printed on stdout, one constructor per [print] of the program;
    [LogEvent] is [log_event] without its timestamp. *)
Inductive Output :=
| LogEvent (item_id asset_id : option pystr) (action status : pystr)
           (warning : option Warning)
| DebugFound (name date month : pystr) (attachments : nat)
| DebugSkipping (name : pystr)
| FoundTickets (n : nat) (month : pystr)
| FoundUnique (n : nat)
| SharedHeader
| SharedLine (count : nat) (name : pystr)
| TicketLine (name : pystr) (attachments : list pystr)
| Processing (unique total : nat)
| SummaryPath (p : pystr)
| ItemPdfs (l : list pystr)
| ItemPdfLine (p : pystr) (there : bool)
| PdfGenerated (p : pystr)
| ExcelGenerated (p : pystr)
| ExcelWarning (e : exn)
| VerifyHeader (month : pystr)
| VerifyTotal (n : nat)
| VerifyFoundProcessing (n : nat)
| VerifyFoundVerification (n : nat)
| VerifyMissing (ids : list pystr)
| VerifyMissingLine (name date status : pystr) (attachments : nat)
| VerifyAllFound.

(** What the environment answers; fixed during a run. *)
Record Env := {
  api : nat -> Request -> HttpReply;     (* reply to the n-th POST of the run *)
  url_content : pystr -> GetReply;       (* reply to a download request *)
  can_write : pystr -> bool;             (* opening the path for writing works *)
  can_mkdir : pystr -> bool;
  subprocess_run : Tool -> pystr -> ProcOutcome;
  img2pdf_convert : pystr -> bool;       (* img2pdf accepts the file *)
  pypdf_reads : list N -> bool           (* pypdf can parse these bytes as a PDF *)
}.

(** What a run changes. *)
Record World := {
  files : list (pystr * FileContent);
  dirs : list pystr;
  http_posts : nat;
  http_gets : list pystr;
  tool_runs : list (Tool * pystr);
  sleeps : list N;
  stdout : list Output
}.

Definition set_files (f : list (pystr * FileContent)) (w : World) : World :=
  {| files := f; dirs := dirs w; http_posts := http_posts w;
     http_gets := http_gets w; tool_runs := tool_runs w;
     sleeps := sleeps w; stdout := stdout w |}.

Definition set_dirs (d : list pystr) (w : World) : World :=
  {| files := files w; dirs := d; http_posts := http_posts w;
     http_gets := http_gets w; tool_runs := tool_runs w;
     sleeps := sleeps w; stdout := stdout w |}.

Definition set_http_posts (n : nat) (w : World) : World :=
  {| files := files w; dirs := dirs w; http_posts := n;
     http_gets := http_gets w; tool_runs := tool_runs w;
     sleeps := sleeps w; stdout := stdout w |}.

Definition set_http_gets (g : list pystr) (w : World) : World :=
  {| files := files w; dirs := dirs w; http_posts := http_posts w;
     http_gets := g; tool_runs := tool_runs w;
     sleeps := sleeps w; stdout := stdout w |}.

Definition set_tool_runs (t : list (Tool * pystr)) (w : World) : World :=
  {| files := files w; dirs := dirs w; http_posts := http_posts w;
     http_gets := http_gets w; tool_runs := t;
     sleeps := sleeps w; stdout := stdout w |}.

Definition set_sleeps (s : list N) (w : World) : World :=
  {| files := files w; dirs := dirs w; http_posts := http_posts w;
     http_gets := http_gets w; tool_runs := tool_runs w;
     sleeps := s; stdout := stdout w |}.

Definition set_stdout (o : list Output) (w : World) : World :=
  {| files := files w; dirs := dirs w; http_posts := http_posts w;
     http_gets := http_gets w; tool_runs := tool_runs w;
     sleeps := sleeps w; stdout := o |}.

Definition empty_world : World :=
  {| files := []; dirs := []; http_posts := 0; http_gets := [];
     tool_runs := []; sleeps := []; stdout := [] |}.

(* ------------------------------------------------------------------ *)
(** * State and exceptions *)

Definition M (A : Type) : Type := Env -> World -> result A * World.

Definition ret {A} (a : A) : M A := fun _ w => (Ok a, w).

Definition raise {A} (e : exn) : M A := fun _ w => (Raise e, w).

Definition bind {A B} (m : M A) (k : A -> M B) : M B :=
  fun env w =>
    match m env w with
    | (Ok a, w') => k a env w'
    | (Raise e, w') => (Raise e, w')
    | (OutOfFuel, w') => (OutOfFuel, w')
    end.

(** [try: body except Exception as e: handler(e)]; what [body] did before
    raising stays done. *)
Definition try_except {A} (body : M A) (handler : exn -> M A) : M A :=
  fun env w =>
    match body env w with
    | (Raise e, w') => handler e env w'
    | r => r
    end.

Declare Scope py_scope.
Delimit Scope py_scope with py.
Notation "x <- m ;; k" := (bind m (fun x => k))
  (at level 61, m at next level, right associativity) : py_scope.
Notation "m ;; k" := (bind m (fun _ => k))
  (at level 61, right associativity) : py_scope.
Open Scope py_scope.

Fixpoint lookup {V} (k : pystr) (l : list (pystr * V)) : option V :=
  match l with
  | [] => None
  | (k', v) :: t => if str_eqb k k' then Some v else lookup k t
  end.

Definition mem (k : pystr) (l : list pystr) : bool :=
  existsb (str_eqb k) l.

Definition print (o : Output) : M unit :=
  fun _ w => (Ok tt, set_stdout (stdout w ++ [o]) w).

Definition log_event (item_id asset_id : option pystr) (action status : pystr)
    (warning : option Warning) : M unit :=
  print (LogEvent item_id asset_id action status warning).

(** [os.path.exists(p)] / [Path.exists()] *)
Definition exists_in (w : World) (p : pystr) : bool :=
  match lookup p (files w) with
  | Some _ => true
  | None => mem p (dirs w)
  end.

Definition path_exists (p : pystr) : M bool :=
  fun _ w => (Ok (exists_in w p), w).

(** Opening [p] for writing and writing [c] to it. *)
Definition write_file (p : pystr) (c : FileContent) : M unit :=
  fun env w =>
    if can_write env p then (Ok tt, set_files ((p, c) :: files w) w)
    else (Raise OSError, w).

Definition read_file (p : pystr) : M FileContent :=
  fun _ w =>
    match lookup p (files w) with
    | Some c => (Ok c, w)
    | None => (Raise FileNotFoundError, w)
    end.

(** [os.makedirs(p, exist_ok=True)]; whether a missing directory can be
    made is the environment's answer. *)
Definition makedirs (p : pystr) : M unit :=
  fun env w =>
    if mem p (dirs w) then (Ok tt, w)
    else if can_mkdir env p then (Ok tt, set_dirs (p :: dirs w) w)
    else (Raise OSError, w).

(** [httpx.get(url, timeout=60)] followed by [resp.raise_for_status()] *)
Definition httpx_get (u : option pystr) : M (list N) :=
  fun env w =>
    match u with
    | None => (Raise TypeError, w)
    | Some u' =>
        let w' := set_http_gets (http_gets w ++ [u']) w in
        match url_content env u' with
        | GetNoResponse => (Raise TransportError, w')
        | GetStatusError c => (Raise (HTTPStatusError c), w')
        | GetOk content => (Ok content, w')
        end
    end.

(** [httpx.post(api_url, ...)]: the next reply of the service. *)
Definition httpx_post (req : Request) : M HttpReply :=
  fun env w => (Ok (api env (http_posts w) req), set_http_posts (S (http_posts w)) w).

Definition sleep (seconds : N) : M unit :=
  fun _ w => (Ok tt, set_sleeps (sleeps w ++ [seconds]) w).

(** [subprocess.run([...], check=True, timeout=60)]; a run that exits with
    status 0 leaves [out] behind when the tool wrote it. *)
Definition subprocess (tool : Tool) (path_in out : pystr) : M unit :=
  fun env w =>
    let w' := set_tool_runs (tool_runs w ++ [(tool, path_in)]) w in
    match subprocess_run env tool path_in with
    | Exited0 true => (Ok tt, set_files ((out, ConvertedPdf tool path_in) :: files w') w')
    | Exited0 false => (Ok tt, w')
    | ExitedNonZero => (Raise CalledProcessError, w')
    | ProcTimeout => (Raise TimeoutExpired, w')
    | ToolMissing => (Raise FileNotFoundError, w')
    end.

(** [img2pdf.convert(path_in)] *)
Definition img2pdf (path_in : pystr) : M FileContent :=
  fun env w =>
    let w' := set_tool_runs (tool_runs w ++ [(Img2pdf, path_in)]) w in
    match lookup path_in (files w) with
    | None => (Raise FileNotFoundError, w')
    | Some _ =>
        if img2pdf_convert env path_in then (Ok (ConvertedPdf Img2pdf path_in), w')
        else (Raise ImageError, w')
    end.

(* ------------------------------------------------------------------ *)
(** * [src/files.py]: download_asset, dedupe_assets *)

Definition download_path `{PyRuntime} (asset : Asset.t) (out_dir : pystr) : pystr :=
  pathlib_join out_dir (download_filename asset).

Definition download_asset `{PyRuntime} (asset : Asset.t) (out_dir : pystr)
  : M (option pystr) :=
  let path := download_path asset out_dir in
  there <- path_exists path ;;
  if there then ret (Some path)
  else
    try_except
      (content <- httpx_get (Asset.public_url asset) ;;
       write_file path (RawBytes content) ;;
       log_event None (Some (Asset.id asset)) (py "download") (py "success") None ;;
       ret (Some path))
      (fun e =>
         log_event None (Some (Asset.id asset)) (py "download") (py "fail")
                   (Some (WarnExn e)) ;;
         ret None).

Definition asset_key (a : Asset.t) : pystr * pystr :=
  (Asset.id a, Asset.name a).

Definition key_eqb (k1 k2 : pystr * pystr) : bool :=
  str_eqb (fst k1) (fst k2) && str_eqb (snd k1) (snd k2).

Fixpoint dedupe_loop (assets : list Asset.t) (seen : list (pystr * pystr))
    (unique : list Asset.t) : list Asset.t :=
  match assets with
  | [] => unique
  | asset :: rest =>
      let key := asset_key asset in
      if existsb (key_eqb key) seen then dedupe_loop rest seen unique
      else dedupe_loop rest (key :: seen) (unique ++ [asset])
  end.

Definition dedupe_assets (assets : list Asset.t) : list Asset.t :=
  dedupe_loop assets [] [].

(* ------------------------------------------------------------------ *)
(** * [src/convert.py]: to_pdf *)

(** [shutil.copy(src, dst)] *)
Definition shutil_copy (src dst : pystr) : M unit :=
  if str_eqb src dst then raise OSError
  else (c <- read_file src ;; write_file dst c).

(** [c = canvas.Canvas(path_pdf); c.drawString(...); c.save()] *)
Definition placeholder (path_pdf file_name : pystr) (reason : PlaceholderReason)
  : M unit :=
  write_file path_pdf (PlaceholderPdf file_name reason).

(** The body of the [try] up to the conversion itself. *)
Definition convert_strategy (path_in ext out_dir path_pdf : pystr)
    (prefer_libreoffice html_enabled : bool) : M unit :=
  if str_eqb ext (py "pdf") then shutil_copy path_in path_pdf
  else if mem ext [py "docx"; py "xlsx"; py "pptx"; py "csv"; py "txt"]
          && prefer_libreoffice
  then subprocess Soffice path_in path_pdf
  else if mem ext [py "png"; py "jpg"; py "jpeg"; py "webp"]
  then (write_file path_pdf (RawBytes []) ;;
        c <- img2pdf path_in ;;
        write_file path_pdf c)
  else if str_eqb ext (py "html") && html_enabled
  then subprocess Wkhtmltopdf path_in path_pdf
  else placeholder path_pdf (os_path_basename path_in) UnsupportedType.

Definition pdf_path_for (path_in out_dir : pystr) : pystr :=
  os_path_join out_dir (fst (os_path_splitext (os_path_basename path_in)) ++ py ".pdf").

Definition to_pdf_with `{PyRuntime} (path_in : option pystr) (ext out_dir : pystr)
    (prefer_libreoffice html_enabled : bool) : M (option pystr) :=
  match path_in with
  | Some ((_ :: _) as path_in) =>
      there <- path_exists path_in ;;
      if negb there then
        log_event None None (py "convert") (py "fail")
                  (Some (WarnText (py "Input file missing or None"))) ;;
        ret None
      else
        let ext := lstrip DOT (str_lower ext) in
        let path_pdf := pdf_path_for path_in out_dir in
        try_except
          (convert_strategy path_in ext out_dir path_pdf
                            prefer_libreoffice html_enabled ;;
           log_event None (Some (os_path_basename path_in))
                     (py "convert") (py "success") None ;;
           ret (Some path_pdf))
          (fun e =>
             log_event None (Some (os_path_basename path_in))
                       (py "convert") (py "fail") (Some (WarnExn e)) ;;
             placeholder path_pdf (os_path_basename path_in) ConversionFailed ;;
             ret (Some path_pdf))
  | _ =>
      log_event None None (py "convert") (py "fail")
                (Some (WarnText (py "Input file missing or None"))) ;;
      ret None
  end.

(** [to_pdf(path_in, ext, out_dir)] with its defaults
    [prefer_libreoffice=True, html_enabled=False]. *)
Definition to_pdf `{PyRuntime} (path_in : option pystr) (ext out_dir : pystr)
  : M (option pystr) :=
  to_pdf_with path_in ext out_dir true false.

(* ------------------------------------------------------------------ *)
(** * [src/monday_client.py]: graphql under tenacity's retry *)

(** The undecorated body of [graphql]. *)
Definition graphql_body (req : Request) : M ApiData :=
  reply <- httpx_post req ;;
  match reply with
  | ReplyNoResponse => raise TransportError
  | ReplyStatusError code => raise (HTTPStatusError code)
  | ReplyNotJson => raise JSONDecodeError
  | ReplyJson (Some errors) _ => raise (GenericException errors)
  | ReplyJson None None => raise KeyError
  | ReplyJson None (Some data) => ret data
  end.

(** [retry_if_exception_type(httpx.HTTPStatusError)] *)
Definition retry_if (e : exn) : bool :=
  match e with HTTPStatusError _ => true | _ => false end.

(** [wait_exponential()]: [2 ** (attempt_number - 1)] seconds. *)
Definition wait_exponential (attempt_number : nat) : N :=
  (2 ^ N.of_nat (attempt_number - 1))%N.

(** [tenacity.retry]: [remaining] attempts are left after the one numbered
    [attempt_number]; with [stop_after_attempt(n)] the first call has
    [remaining = n - 1]. *)
Fixpoint retrying {A} (remaining attempt_number : nat) (call : M A) : M A :=
  fun env w =>
    match call env w with
    | (Raise e, w') =>
        if retry_if e then
          match remaining with
          | 0 => (Raise RetryError, w')
          | S remaining' =>
              (sleep (wait_exponential attempt_number) ;;
               retrying remaining' (S attempt_number) call) env w'
          end
        else (Raise e, w')
    | r => r
    end.

Definition stop_after_attempt : nat := 5.

Definition graphql (req : Request) : M ApiData :=
  retrying (stop_after_attempt - 1) 1 (graphql_body req).

Definition get_status_column (board_id : pystr) : M ApiData :=
  graphql (GET_STATUS_COLUMN board_id).

(** [from_date], [to_date] and [status_idx] are accepted and not sent. *)
Definition get_items_page (board_id : pystr) (limit : Z) : M ApiData :=
  graphql (GET_ITEMS_PAGE board_id limit).

Definition next_items_page (cursor : pystr) (limit : Z) : M ApiData :=
  graphql (NEXT_ITEMS_PAGE cursor limit).

(* ------------------------------------------------------------------ *)
(** * [src/filters.py] *)

Definition isleap (year : Z) : bool :=
  ((year mod 4 =? 0) && (negb (year mod 100 =? 0) || (year mod 400 =? 0)))%Z.

Definition mdays (mon : Z) : Z :=
  (if mon =? 2 then 28
   else if (mon =? 4) || (mon =? 6) || (mon =? 9) || (mon =? 11) then 30
   else 31)%Z.

(** [get_month_range]: the two dates as (year, month, day); the formatted
    strings are not used by the queries. *)
Definition get_month_range `{PyRuntime} (month : pystr)
  : result ((Z * Z * Z) * (Z * Z * Z)) :=
  match map py_int (split DASH month) with
  | [Some year; Some mon] =>
      if ((1 <=? mon) && (mon <=? 12))%Z then
        let ndays := (mdays mon + (if (mon =? 2)%Z && isleap year then 1 else 0))%Z in
        Ok ((year, mon, 1%Z), (year, mon, ndays))
      else Raise ValueError
  | _ => Raise ValueError
  end.

Fixpoint get_status_index_loop `{PyRuntime} (labels : list (pystr * pystr))
    (required_label : pystr) : result Z :=
  match labels with
  | [] => Raise ValueError
  | (idx, label) :: rest =>
      if str_eqb (str_lower label) (str_lower required_label) then
        match py_int idx with
        | Some i => Ok i
        | None => Raise ValueError
        end
      else get_status_index_loop rest required_label
  end.

Definition get_status_index `{PyRuntime} (settings : option (list (pystr * pystr)))
    (required_label : pystr) : result Z :=
  match settings with
  | None => Raise JSONDecodeError
  | Some labels => get_status_index_loop labels required_label
  end.

(* ------------------------------------------------------------------ *)
(** * [src/main.py] *)

Module Config.
Record t := mk {
  board_id : pystr;                    (* config['board']['id'] *)
  status : pystr;                      (* config['board']['columns']['status'] *)
  date_filter : pystr;
  close_date : pystr;
  status_label_required : pystr;
  max_items : option Z                 (* config.get('run', {}).get('max_items') *)
}.
End Config.

Module Args.
Record t := mk {
  month : pystr;
  out : pystr;
  downloads : pystr;
  dry_run : bool
}.
End Args.

Definition lift {A} (r : result A) : M A := fun _ w => (r, w).

Fixpoint for_each {A S} (body : S -> A -> M S) (l : list A) (s : S) : M S :=
  match l with
  | [] => ret s
  | a :: rest => s' <- body s a ;; for_each body rest s'
  end.

Definition print_all (l : list Output) : M unit :=
  for_each (fun _ o => print o) l tt.

(** The scan of an item's column values: the text of the last value whose
    id is [id1], and of the last whose id is [id2]. *)
Definition scan_columns (id1 id2 : pystr) (cvs : list ColumnValue.t)
  : option pystr * option pystr :=
  fold_left
    (fun acc cv =>
       (if str_eqb (ColumnValue.id cv) id1 then ColumnValue.text cv else fst acc,
        if str_eqb (ColumnValue.id cv) id2 then ColumnValue.text cv else snd acc))
    cvs (None, None).

(** [status_label and status_label.lower() == required.lower()] *)
Definition label_matches `{PyRuntime} (status_label : option pystr)
    (required : pystr) : bool :=
  match status_label with
  | Some ((_ :: _) as l) => str_eqb (str_lower l) (str_lower required)
  | _ => false
  end.

(** [open_date_str and month in open_date_str] *)
Definition date_matches (open_date_str : option pystr) (month : pystr) : bool :=
  match open_date_str with
  | Some ((_ :: _) as d) => contains d month
  | _ => false
  end.

Definition or_empty (s : option pystr) : pystr :=
  match s with Some s' => s' | None => [] end.

(** [max_items and len(filtered_items) >= max_items] *)
Definition limit_reached (max_items : option Z) (n : nat) : bool :=
  match max_items with
  | Some m => negb (m =? 0)%Z && (m <=? Z.of_nat n)%Z
  | None => false
  end.

(** Lines 100-124: the client-side filter, with the lines it prints. *)
Fixpoint filter_loop `{PyRuntime} (args : Args.t) (config : Config.t)
    (all_items filtered_items : list Item.t) (printed : list Output)
  : list Item.t * list Output :=
  match all_items with
  | [] => (filtered_items, printed)
  | item :: rest =>
      let '(status_label, open_date_str) :=
        scan_columns (Config.status config) (Config.date_filter config)
                     (Item.column_values item) in
      if label_matches status_label (Config.status_label_required config) then
        if date_matches open_date_str (Args.month args) then
          let assets := Item.assets item in
          let '(filtered_items', printed') :=
            if 0 <? length assets
            then (filtered_items ++ [item],
                  printed ++ [DebugFound (Item.name item) (or_empty open_date_str)
                                         (Args.month args) (length assets)])
            else (filtered_items, printed ++ [DebugSkipping (Item.name item)]) in
          if Args.dry_run args
             && limit_reached (Config.max_items config) (length filtered_items')
          then (filtered_items', printed')
          else filter_loop args config rest filtered_items' printed'
        else filter_loop args config rest filtered_items printed
      else filter_loop args config rest filtered_items printed
  end.

Definition filter_items `{PyRuntime} (args : Args.t) (config : Config.t)
    (all_items : list Item.t) : list Item.t :=
  fst (filter_loop args config all_items [] []).

(** [attachment_map]: a dictionary in insertion order,
    filename -> (asset, [ticket names]). *)
Definition AttachmentMap := list (pystr * (Asset.t * list pystr)).

Definition dict_contains (k : pystr) (m : AttachmentMap) : bool :=
  existsb (fun e => str_eqb k (fst e)) m.

(** [attachment_map[filename][1].append(item_name)] *)
Definition append_ticket (filename item_name : pystr) (m : AttachmentMap)
  : AttachmentMap :=
  map (fun e =>
         if str_eqb filename (fst e)
         then (fst e, (fst (snd e), snd (snd e) ++ [item_name]))
         else e) m.

(** Lines 141-145, one asset. *)
Definition track (item_name : pystr) (attachment_map : AttachmentMap)
    (asset : Asset.t) : AttachmentMap :=
  let filename := Asset.name asset in
  let attachment_map' :=
    if dict_contains filename attachment_map then attachment_map
    else attachment_map ++ [(filename, (asset, []))] in
  append_ticket filename item_name attachment_map'.

(** Lines 129-153, one item. *)
Definition build_step (config : Config.t)
    (acc : list TicketRow.t * AttachmentMap) (item : Item.t)
  : list TicketRow.t * AttachmentMap :=
  let assets := dedupe_assets (Item.assets item) in
  let '(open_date, close_date) :=
    scan_columns (Config.date_filter config) (Config.close_date config)
                 (Item.column_values item) in
  let attachment_map := fold_left (track (Item.name item)) assets (snd acc) in
  (fst acc ++ [TicketRow.mk (Item.id item) (Item.name item)
                            (match open_date with
                             | Some ((_ :: _) as d) => d
                             | _ => []
                             end)
                            close_date assets],
   attachment_map).

(** Lines 126-153. *)
Definition build_index (config : Config.t) (filtered_items : list Item.t)
  : list TicketRow.t * AttachmentMap :=
  fold_left (build_step config) filtered_items ([], []).

(** What [found_tickets] is at the two call sites of
    [verify_all_tickets_found]: item dictionaries, or [TicketRow] objects. *)
Inductive FoundTickets_t :=
| FoundDicts (items : list Item.t)
| FoundRows (rows : list TicketRow.t).

Definition found_len (f : FoundTickets_t) : nat :=
  match f with FoundDicts l => length l | FoundRows l => length l end.

(** [{t['id'] for t in found_tickets}]: subscripting a [TicketRow] raises
    [TypeError]. *)
Definition found_ids_of (f : FoundTickets_t) : result (list pystr) :=
  match f with
  | FoundDicts items => Ok (map Item.id items)
  | FoundRows [] => Ok []
  | FoundRows (_ :: _) => Raise TypeError
  end.

Definition first_page_fields (d : ApiData)
  : result (list Item.t * option pystr) :=
  match d with
  | ItemsPageData items cursor => Ok (items, cursor)
  | _ => Raise KeyError
  end.

Definition next_page_fields (d : ApiData)
  : result (list Item.t * option pystr) :=
  match d with
  | NextItemsPageData items cursor => Ok (items, cursor)
  | _ => Raise KeyError
  end.

Definition settings_field (d : ApiData)
  : result (option (list (pystr * pystr))) :=
  match d with
  | StatusColumnData s => Ok s
  | _ => Raise KeyError
  end.

(** [while cursor: ...] of lines 94-98 and 23-27. *)
Fixpoint fetch_rest (fuel : nat) (cursor : option pystr)
    (all_items : list Item.t) : M (list Item.t) :=
  match cursor with
  | Some ((_ :: _) as c) =>
      match fuel with
      | 0 => fun _ w => (OutOfFuel, w)
      | S fuel' =>
          next_page <- next_items_page c 500 ;;
          fields <- lift (next_page_fields next_page) ;;
          fetch_rest fuel' (snd fields) (all_items ++ fst fields)
      end
  | _ => ret all_items
  end.

Definition fetch_all (fuel : nat) (board_id : pystr) : M (list Item.t) :=
  items_data <- get_items_page board_id 500 ;;
  fields <- lift (first_page_fields items_data) ;;
  fetch_rest fuel (snd fields) (fst fields).

Module Resolved.
Record t := mk {
  id : pystr;
  name : pystr;
  date : pystr;
  status : pystr;
  attachments : nat
}.
End Resolved.

(** Lines 31-52. *)
Definition resolved_for_month `{PyRuntime} (config : Config.t) (month : pystr)
    (all_items : list Item.t) : list Resolved.t :=
  flat_map
    (fun item =>
       let '(status_label, open_date_str) :=
         scan_columns (Config.status config) (Config.date_filter config)
                      (Item.column_values item) in
       if label_matches status_label (Config.status_label_required config)
          && date_matches open_date_str month
          && (0 <? length (Item.assets item))
       then [Resolved.mk (Item.id item) (Item.name item) (or_empty open_date_str)
                         (or_empty status_label) (length (Item.assets item))]
       else [])
    all_items.

Fixpoint dedup (l : list pystr) : list pystr :=
  match l with
  | [] => []
  | x :: t => if mem x t then dedup t else x :: dedup t
  end.

Definition verify_all_tickets_found `{PyRuntime} (fuel : nat) (config : Config.t)
    (month : pystr) (found_tickets : FoundTickets_t) : M bool :=
  print (VerifyHeader month) ;;
  all_items <- fetch_all fuel (Config.board_id config) ;;
  print (VerifyTotal (length all_items)) ;;
  let resolved := resolved_for_month config month all_items in
  found_ids <- lift (found_ids_of found_tickets) ;;
  let all_resolved_ids := dedup (map Resolved.id resolved) in
  print (VerifyFoundProcessing (found_len found_tickets)) ;;
  print (VerifyFoundVerification (length resolved)) ;;
  let missing := filter (fun i => negb (mem i found_ids)) all_resolved_ids in
  (match missing with
   | _ :: _ =>
       print (VerifyMissing missing) ;;
       print_all
         (map (fun t => VerifyMissingLine (Resolved.name t) (Resolved.date t)
                          (Resolved.status t) (Resolved.attachments t))
              (filter (fun t => mem (Resolved.id t) missing) resolved))
   | [] => print VerifyAllFound
   end) ;;
  ret (match missing with [] => true | _ => false end).

(** Entries with more than one referencing ticket (line 160). *)
Definition shared_attachments (attachment_map : AttachmentMap)
  : list (pystr * nat) :=
  flat_map
    (fun e =>
       let '(asset, tickets) := snd e in
       if 1 <? length tickets then [(Asset.name asset, length tickets)] else [])
    attachment_map.

(** Lines 155-171. *)
Definition dry_run_report `{PyRuntime} (fuel : nat) (args : Args.t)
    (config : Config.t) (ticket_rows : list TicketRow.t)
    (attachment_map : AttachmentMap) : M unit :=
  print (FoundTickets (length ticket_rows) (Args.month args)) ;;
  print (FoundUnique (length attachment_map)) ;;
  (match shared_attachments attachment_map with
   | [] => ret tt
   | shared =>
       print SharedHeader ;;
       print_all (map (fun nc => SharedLine (snd nc) (fst nc)) shared)
   end) ;;
  print_all
    (map (fun t => TicketLine (TicketRow.item_name t)
                              (map Asset.name (TicketRow.attachments t)))
         ticket_rows) ;;
  verify_all_tickets_found fuel config (Args.month args) (FoundRows ticket_rows) ;;
  ret tt.

(** Line 181: the first ticket that has an attachment of this name. *)
Definition first_ticket_for (ticket_rows : list TicketRow.t) (asset : Asset.t)
  : result TicketRow.t :=
  match filter
          (fun t => existsb (fun a => str_eqb (Asset.name a) (Asset.name asset))
                            (TicketRow.attachments t))
          ticket_rows with
  | t :: _ => Ok t
  | [] => Raise IndexError
  end.

Definition item_dir_of (args : Args.t) (first_ticket : TicketRow.t) : pystr :=
  os_path_join (os_path_join (Args.downloads args) (Args.month args))
               (TicketRow.item_id first_ticket).

(** Lines 181-185: the ticket whose directory is used, and the two
    directories. *)
Definition prepare_dirs (args : Args.t) (ticket_rows : list TicketRow.t)
    (asset : Asset.t) : M TicketRow.t :=
  first_ticket <- lift (first_ticket_for ticket_rows asset) ;;
  let item_dir := item_dir_of args first_ticket in
  makedirs item_dir ;;
  let converted_dir := os_path_join item_dir (py "converted") in
  makedirs converted_dir ;;
  ret first_ticket.

(** Lines 188-195: what is done with the result of the download. *)
Definition convert_downloaded `{PyRuntime} (args : Args.t)
    (first_ticket : TicketRow.t) (item_pdfs : list pystr) (asset : Asset.t)
    (file_path : option pystr) : M (list pystr) :=
  let converted_dir := os_path_join (item_dir_of args first_ticket) (py "converted") in
  if truthy_opt file_path then
    let ext := Asset.file_extension asset in
    pdf_path <- to_pdf file_path ext converted_dir ;;
    match pdf_path with
    | Some ((_ :: _) as p) =>
        there <- path_exists p ;;
        if there then
          log_event (Some (TicketRow.item_id first_ticket)) (Some (Asset.id asset))
                    (py "pdf_added") (py "success") None ;;
          ret (item_pdfs ++ [p])
        else
          log_event (Some (TicketRow.item_id first_ticket)) (Some (Asset.id asset))
                    (py "pdf_add_failed") (py "fail") None ;;
          ret item_pdfs
    | _ =>
        log_event (Some (TicketRow.item_id first_ticket)) (Some (Asset.id asset))
                  (py "pdf_add_failed") (py "fail") None ;;
        ret item_pdfs
    end
  else ret item_pdfs.

(** Lines 180-195: the body of the loop over the unique attachments. *)
Definition convert_one `{PyRuntime} (args : Args.t)
    (ticket_rows : list TicketRow.t) (item_pdfs : list pystr) (asset : Asset.t)
  : M (list pystr) :=
  first_ticket <- prepare_dirs args ticket_rows asset ;;
  file_path <- download_asset asset (item_dir_of args first_ticket) ;;
  convert_downloaded args first_ticket item_pdfs asset file_path.

(** Line 175. *)
Definition unique_attachments_of (attachment_map : AttachmentMap)
  : list Asset.t :=
  map (fun e => fst (snd e)) attachment_map.

(** Lines 179-195. *)
Definition convert_all `{PyRuntime} (args : Args.t)
    (ticket_rows : list TicketRow.t) (attachment_map : AttachmentMap)
  : M (list pystr) :=
  for_each (convert_one args ticket_rows) (unique_attachments_of attachment_map) [].

(** [src/pdf_utils.py], as far as the files it touches. *)
Definition generate_summary_page (tickets : list TicketRow.t)
    (output_path : pystr) : M pystr :=
  write_file output_path (SummaryPdf tickets) ;;
  log_event None None (py "summary_page") (py "success") None ;;
  ret output_path.

(** Whether pypdf can read a file as a PDF.  What reportlab, pypdf, the
    office converter and img2pdf write is a PDF; of downloaded bytes the
    environment says whether they parse; a workbook does not. *)
Definition pdf_readable (env : Env) (c : FileContent) : bool :=
  match c with
  | RawBytes content => pypdf_reads env content
  | ConvertedPdf _ _ | PlaceholderPdf _ _ | SummaryPdf _ | MergedPdf _ => true
  | Workbook _ => false
  end.

(** [PdfReader(path)]: opens the file and parses it at once. *)
Definition PdfReader (path : pystr) : M FileContent :=
  fun env w =>
    match lookup path (files w) with
    | Some c => if pdf_readable env c then (Ok c, w) else (Raise PdfReadError, w)
    | None => if mem path (dirs w) then (Raise IsADirectoryError, w)
              else (Raise FileNotFoundError, w)
    end.

(** Lines 75-83: every input is opened and parsed, in order, before the
    output is opened. *)
Definition merge_pdfs (summary_pdf : pystr) (item_pdfs : list pystr)
    (output_path : pystr) : M pystr :=
  PdfReader summary_pdf ;;
  for_each (fun _ pdf => PdfReader pdf ;; ret tt) item_pdfs tt ;;
  write_file output_path (MergedPdf (summary_pdf :: item_pdfs)) ;;
  log_event None None (py "merge") (py "success") None ;;
  ret output_path.

(** [src/excel_utils.py], as far as the files it touches. *)
Definition create_monthly_excel_summary (tickets : list TicketRow.t)
    (month output_dir : pystr) : M pystr :=
  let filepath := os_path_join output_dir (month ++ py "-Resolved-Tickets-Summary.xlsx") in
  makedirs output_dir ;;
  write_file filepath (Workbook tickets) ;;
  ret filepath.

Definition total_attachments (ticket_rows : list TicketRow.t) : nat :=
  list_sum (map (fun t => length (TicketRow.attachments t)) ticket_rows).

(** Lines 173-250. *)
Definition generate_report `{PyRuntime} (fuel : nat) (args : Args.t)
    (config : Config.t) (filtered_items : list Item.t)
    (ticket_rows : list TicketRow.t) (attachment_map : AttachmentMap) : M unit :=
  print (Processing (length (unique_attachments_of attachment_map))
                    (total_attachments ticket_rows)) ;;
  item_pdfs <- convert_all args ticket_rows attachment_map ;;
  let summary_pdf := os_path_join (Args.out args) (Args.month args ++ py "-summary.pdf") in
  generate_summary_page ticket_rows summary_pdf ;;
  print (SummaryPath summary_pdf) ;;
  print (ItemPdfs item_pdfs) ;;
  for_each (fun _ pdf => there <- path_exists pdf ;; print (ItemPdfLine pdf there))
           item_pdfs tt ;;
  let output_pdf :=
    os_path_join (Args.out args) (Args.month args ++ py "-Resolved-Tickets.pdf") in
  merge_pdfs summary_pdf item_pdfs output_pdf ;;
  print (PdfGenerated output_pdf) ;;
  try_except
    (excel_path <- create_monthly_excel_summary ticket_rows (Args.month args)
                                                (Args.out args) ;;
     print (ExcelGenerated excel_path))
    (fun e => print (ExcelWarning e)) ;;
  verify_all_tickets_found fuel config (Args.month args) (FoundDicts filtered_items) ;;
  ret tt.

Definition main `{PyRuntime} (fuel : nat) (args : Args.t) (config : Config.t)
  : M unit :=
  lift (get_month_range (Args.month args)) ;;
  status_col <- get_status_column (Config.board_id config) ;;
  settings_str <- lift (settings_field status_col) ;;
  lift (get_status_index settings_str (Config.status_label_required config)) ;;
  all_items <- fetch_all fuel (Config.board_id config) ;;
  let filtered := filter_loop args config all_items [] [] in
  let filtered_items := fst filtered in
  print_all (snd filtered) ;;
  let index := build_index config filtered_items in
  let ticket_rows := fst index in
  let attachment_map := snd index in
  if Args.dry_run args
  then dry_run_report fuel args config ticket_rows attachment_map
  else generate_report fuel args config filtered_items ticket_rows attachment_map.

(* ------------------------------------------------------------------ *)
(** * A small board to run the program on *)

Module Sample.

Definition config : Config.t :=
  Config.mk (py "42") (py "status95") (py "date_mkt2sps1") (py "date_mktr60pn")
            (py "Resolved") None.

Definition args (dry : bool) : Args.t :=
  Args.mk (py "2024-06") (py "out") (py "dl") dry.

Definition asset (id name ext : string) : Asset.t :=
  Asset.mk (py id) (py name) (py ext) (Some (py "https://files/" ++ py id))
           None None.

Definition report_pdf : Asset.t := asset "1" "report.pdf" "pdf".
Definition photo_jpg : Asset.t := asset "2" "photo.jpg" "jpg".
Definition report_pdf' : Asset.t := asset "3" "report.pdf" "pdf".

Definition columns (status date : string) : list ColumnValue.t :=
  [ColumnValue.mk (py "date_mkt2sps1") (Some (py date));
   ColumnValue.mk (py "date_mktr60pn") None;
   ColumnValue.mk (py "status95") (Some (py status))].

Definition item_A : Item.t :=
  Item.mk (py "100") (py "A") [report_pdf] (columns "Resolved" "2024-06-03").
Definition item_B : Item.t :=
  Item.mk (py "101") (py "B") [photo_jpg] (columns "resolved" "2024-06-10").
Definition item_C : Item.t :=
  Item.mk (py "102") (py "C") [report_pdf'] (columns "Resolved" "2024-06-21").
Definition item_open : Item.t :=
  Item.mk (py "103") (py "D") [photo_jpg] (columns "Working on it" "2024-06-22").
Definition item_may : Item.t :=
  Item.mk (py "104") (py "E") [photo_jpg] (columns "Resolved" "2024-05-30").
Definition item_bare : Item.t :=
  Item.mk (py "105") (py "F") [] (columns "Resolved" "2024-06-30").

Definition board : list Item.t :=
  [item_A; item_open; item_B; item_may; item_bare; item_C].

(** One ticket with the same file name attached twice, as two uploads. *)
Definition item_twice : Item.t :=
  Item.mk (py "106") (py "G") [asset "7" "scan.pdf" "pdf"; asset "8" "scan.pdf" "pdf"]
          (columns "Resolved" "2024-06-12").

(** The same configuration with [run: {max_items: 1}]. *)
Definition config_limited : Config.t :=
  Config.mk (py "42") (py "status95") (py "date_mkt2sps1") (py "date_mktr60pn")
            (py "Resolved") (Some 1%Z).

(** The world after an earlier run left the report of ticket A behind. *)
Definition world_with_report : World :=
  set_files [(py "dl/2024-06/100/1-report_pdf.pdf", RawBytes [37; 80; 68; 70]%N)]
            empty_world.

(** A world where a downloaded Word document waits for conversion. *)
Definition notes_docx : pystr := py "dl/2024-06/100/9-notes_docx.docx".

Definition world_with_notes : World :=
  set_files [(notes_docx, RawBytes [80; 75]%N)] empty_world.

(** A service that answers every query at once, the board on one page. *)
Definition service (items : list Item.t) (n : nat) (req : Request) : HttpReply :=
  match req with
  | GET_STATUS_COLUMN _ =>
      ReplyJson None
        (Some (StatusColumnData
                 (Some [(py "0", py "Working on it"); (py "1", py "Resolved")])))
  | GET_ITEMS_PAGE _ _ => ReplyJson None (Some (ItemsPageData items None))
  | NEXT_ITEMS_PAGE _ _ => ReplyJson None (Some (NextItemsPageData [] None))
  end.

(** Every download works, every path can be written, and every converter
    behaves as [proc] and [img] say.  The downloads of the samples are a
    few bytes long, which pypdf does not take for a PDF. *)
Definition env_with (items : list Item.t) (get : pystr -> GetReply)
    (writable : bool) (proc : ProcOutcome) (img : bool) : Env :=
  {| api := service items;
     url_content := get;
     can_write := fun _ => writable;
     can_mkdir := fun _ => true;
     subprocess_run := fun _ _ => proc;
     img2pdf_convert := fun _ => img;
     pypdf_reads := fun _ => false |}.

Definition env : Env :=
  env_with board (fun _ => GetOk [37; 80; 68; 70]%N) true (Exited0 true) true.

(** The same where every converter process times out and img2pdf rejects
    every image. *)
Definition env_timeout : Env :=
  env_with board (fun _ => GetOk [37; 80; 68; 70]%N) true ProcTimeout false.

(** The same where nothing can be written. *)
Definition env_readonly : Env :=
  env_with board (fun _ => GetOk [37; 80; 68; 70]%N) false (Exited0 true) true.

(** The same with the file server down. *)
Definition env_offline : Env :=
  env_with board (fun _ => GetNoResponse) true (Exited0 true) true.

End Sample.

(* ------------------------------------------------------------------ *)
(** * Specification-side notions *)

(** The characters [sanitize_filename] lets through. *)
Definition safe_char `{PyRuntime} (c : N) : bool :=
  isalnum c || in_dash_underscore c.

Definition BACKSLASH : N := 92.

(** The attachment references of the filtered items, each item's list after
    [dedupe_assets] (the [attachments] of its [TicketRow]). *)
Definition references (filtered_items : list Item.t) : list Asset.t :=
  flat_map (fun item => dedupe_assets (Item.assets item)) filtered_items.

Definition names_of (assets : list Asset.t) : list pystr :=
  map Asset.name assets.

Definition distinct_count (names : list pystr) : nat :=
  length (nodup pystr_eq_dec names).

Definition keys (attachment_map : AttachmentMap) : list pystr :=
  map fst attachment_map.

(** [sum(len(tickets) for _, tickets in attachment_map.values())] *)
Definition references_total (attachment_map : AttachmentMap) : nat :=
  list_sum (map (fun e => length (snd (snd e))) attachment_map).

(** The one entry of the index that accounts for an attachment of an item:
    it is filed under the attachment's name, no other entry is, and its
    reference list names the item. *)
Definition accounted_once (attachment_map : AttachmentMap) (item : Item.t)
    (asset : Asset.t) : Prop :=
  exists e,
    In e attachment_map /\ fst e = Asset.name asset /\
    In (Item.name item) (snd (snd e)) /\
    Forall (fun e' => fst e' = Asset.name asset -> e' = e) attachment_map.

(** In the words of the specification: an attachment name repeats across
    items when two different items of the list both have an attachment of
    that name. *)
Definition name_repeats_across_items (items : list Item.t) : Prop :=
  exists i j item_i item_j name,
    i <> j /\
    nth_error items i = Some item_i /\ nth_error items j = Some item_j /\
    In name (names_of (Item.assets item_i)) /\
    In name (names_of (Item.assets item_j)).

(** The references again, each with the name of the item it comes from, in
    the order the index loop meets them. *)
Definition tagged_references (filtered_items : list Item.t)
  : list (pystr * Asset.t) :=
  flat_map (fun item => map (pair (Item.name item)) (dedupe_assets (Item.assets item)))
           filtered_items.

(** What the index loop maintains after it has met the references [seen]. *)
Definition index_inv (m : AttachmentMap) (seen : list (pystr * Asset.t)) : Prop :=
  NoDup (keys m) /\
  (forall k, In k (keys m) <-> In k (names_of (map snd seen))) /\
  references_total m = length seen /\
  (forall n a, In (n, a) seen ->
     exists e, In e m /\ fst e = Asset.name a /\ In n (snd (snd e))).

(** The test the filter loop applies to one item (lines 112-117). *)
Definition qualifies `{PyRuntime} (config : Config.t) (month : pystr)
    (item : Item.t) : bool :=
  label_matches (fst (scan_columns (Config.status config) (Config.date_filter config)
                                   (Item.column_values item)))
                (Config.status_label_required config)
  && date_matches (snd (scan_columns (Config.status config) (Config.date_filter config)
                                     (Item.column_values item)))
                  month
  && (0 <? length (Item.assets item)).

(** In the words of the specification: the status label equals the
    required one up to case, the date field contains the month, and the
    item has an attachment. *)
Definition claimed_keep `{PyRuntime} (config : Config.t) (month : pystr)
    (item : Item.t) : bool :=
  match scan_columns (Config.status config) (Config.date_filter config)
                     (Item.column_values item) with
  | (Some label, Some date) =>
      str_eqb (str_lower label) (str_lower (Config.status_label_required config))
      && contains date month
      && (0 <? length (Item.assets item))
  | _ => false
  end.

(** [args.dry_run and max_items]: the limit of line 123 is in force. *)
Definition limit_in_force (args : Args.t) (config : Config.t) : bool :=
  Args.dry_run args
  && match Config.max_items config with
     | Some m => negb (m =? 0)%Z
     | None => false
     end.

(** A reply that makes [raise_for_status] raise [HTTPStatusError]: the
    transient condition the client retries. *)
Definition is_status_error (r : HttpReply) : bool :=
  match r with ReplyStatusError _ => true | _ => false end.

(** What one attempt of [graphql] makes of a reply. *)
Definition outcome_of (r : HttpReply) : result ApiData :=
  match r with
  | ReplyNoResponse => Raise TransportError
  | ReplyStatusError code => Raise (HTTPStatusError code)
  | ReplyNotJson => Raise JSONDecodeError
  | ReplyJson (Some errors) _ => Raise (GenericException errors)
  | ReplyJson None None => Raise KeyError
  | ReplyJson None (Some data) => Ok data
  end.

(** Files, directories, downloads and converter runs are as before. *)
Definition same_outputs (w w' : World) : Prop :=
  files w' = files w /\ dirs w' = dirs w /\
  http_gets w' = http_gets w /\ tool_runs w' = tool_runs w.

(** A computation whose final world is related to its initial one,
    whatever its result. *)
Definition preserves (R : World -> World -> Prop) {A} (m : M A) : Prop :=
  forall env w, R w (snd (m env w)).

(** A computation that leaves files, directories, downloads and converter
    runs alone. *)
Definition quiet {A} (m : M A) : Prop := preserves same_outputs m.

(** A world with one more line on stdout. *)
Definition logged (o : Output) (w : World) : World :=
  set_stdout (stdout w ++ [o]) w.


(** [path_in] is given and exists: the test of line 25 passes. *)
Definition input_present (w : World) (path_in : option pystr) : bool :=
  match path_in with
  | Some ((_ :: _) as p) => exists_in w p
  | _ => false
  end.

(** The lines that give the verdict of the verification pass. *)
Definition is_verdict (o : Output) : bool :=
  match o with
  | VerifyAllFound | VerifyMissing _ => true
  | _ => false
  end.

(** Every path can be written and every directory can be made. *)
Definition permissive (env : Env) : Prop :=
  (forall p, can_write env p = true) /\ (forall p, can_mkdir env p = true).

(** The file server answers the asset's URL with content. *)
Definition served (env : Env) (asset : Asset.t) : Prop :=
  exists u content,
    Asset.public_url asset = Some u /\ url_content env u = GetOk content.

(** No converter process exits with status 0 without its output. *)
Definition no_silent_exit (env : Env) : Prop :=
  forall tool p, subprocess_run env tool p <> Exited0 false.

(* ------------------------------------------------------------------ *)
(** * Further specification-side notions *)

(** The first asset of every (id, name) key, in order. *)
Fixpoint first_by_key (assets : list Asset.t) : list Asset.t :=
  match assets with
  | [] => []
  | a :: rest =>
      a :: filter (fun b => negb (key_eqb (asset_key b) (asset_key a)))
                  (first_by_key rest)
  end.

(** The first occurrence of every name, in order. *)
Fixpoint first_occurrences (names : list pystr) : list pystr :=
  match names with
  | [] => []
  | n :: rest => n :: filter (fun m => negb (str_eqb m n)) (first_occurrences rest)
  end.

(** The references filed under a name, as (item name, asset) pairs. *)
Definition references_named (k : pystr) (seen : list (pystr * Asset.t))
  : list (pystr * Asset.t) :=
  filter (fun na => str_eqb (Asset.name (snd na)) k) seen.

(** What every entry of the index holds after the references [seen]: the
    first asset of its name, and the items of all references of its name. *)
Definition entries_inv (m : AttachmentMap) (seen : list (pystr * Asset.t)) : Prop :=
  Forall (fun e =>
            find (fun a => str_eqb (Asset.name a) (fst e)) (map snd seen)
              = Some (fst (snd e)) /\
            snd (snd e) = map fst (references_named (fst e) seen))
         m.

(** One turn of the index loop on a reference tagged with its item. *)
Definition track_pair (m : AttachmentMap) (na : pystr * Asset.t) : AttachmentMap :=
  track (fst na) m (snd na).

(** The row the index loop appends for an item (lines 147-153). *)
Definition row_of (config : Config.t) (item : Item.t) : TicketRow.t :=
  TicketRow.mk (Item.id item) (Item.name item)
    (match fst (scan_columns (Config.date_filter config) (Config.close_date config)
                             (Item.column_values item)) with
     | Some ((_ :: _) as d) => d
     | _ => []
     end)
    (snd (scan_columns (Config.date_filter config) (Config.close_date config)
                       (Item.column_values item)))
    (dedupe_assets (Item.assets item)).

(** Sample inputs of the further properties. *)
Module Cases.

(** A PDF that already lies where its conversion would be written. *)
Definition converted_pdf : pystr := py "dl/2024-06/100/converted/1-report_pdf.pdf".

Definition world_converted : World :=
  set_files [(converted_pdf, RawBytes [37; 80; 68; 70]%N)] empty_world.

(** A downloaded web page. *)
Definition page_html : pystr := py "dl/2024-06/100/5-page_html.HTML".

Definition world_page : World :=
  set_files [(page_html, RawBytes [60; 104]%N)] empty_world.

(** A configuration that asks for a label the board does not have. *)
Definition config_closed : Config.t :=
  Config.mk (py "42") (py "status95") (py "date_mkt2sps1") (py "date_mktr60pn")
            (py "Closed") None.

(** Arguments with a month written with a slash. *)
Definition args_slash : Args.t :=
  Args.mk (py "2024/06") (py "out") (py "dl") false.

(** A service that gives the board in two pages; the second page ends the
    paging with an empty cursor. *)
Definition service_paged (n : nat) (req : Request) : HttpReply :=
  match req with
  | GET_STATUS_COLUMN _ =>
      ReplyJson None
        (Some (StatusColumnData
                 (Some [(py "0", py "Working on it"); (py "1", py "Resolved")])))
  | GET_ITEMS_PAGE _ _ =>
      ReplyJson None
        (Some (ItemsPageData [Sample.item_A; Sample.item_open] (Some (py "c1"))))
  | NEXT_ITEMS_PAGE _ _ =>
      ReplyJson None
        (Some (NextItemsPageData [Sample.item_B; Sample.item_C] (Some [])))
  end.

Definition env_paged : Env :=
  {| api := service_paged;
     url_content := fun _ => GetOk [37; 80; 68; 70]%N;
     can_write := fun _ => true;
     can_mkdir := fun _ => true;
     subprocess_run := fun _ _ => Exited0 true;
     img2pdf_convert := fun _ => true;
     pypdf_reads := fun _ => false |}.

(** A ticket row with one attachment, and an index with one entry that is
    not shared. *)
Definition row_A : TicketRow.t :=
  TicketRow.mk (py "100") (py "A") (py "2024-06-03") None [Sample.report_pdf].

Definition index_A : AttachmentMap :=
  [(py "report.pdf", (Sample.report_pdf, [py "A"]))].

End Cases.

(** The service answers the requests for the next pages, from the POST
    numbered [n] on, with [pages], each with the cursor of the one after
    it; the loop is at [cursor], and the last cursor is null or empty. *)
Fixpoint pages_served (env : Env) (n : nat) (cursor : option pystr)
    (pages : list (list Item.t * option pystr)) : Prop :=
  match pages with
  | [] => truthy_opt cursor = false
  | (items, next) :: rest =>
      exists c,
        cursor = Some c /\ c <> [] /\
        api env n (NEXT_ITEMS_PAGE c 500) =
          ReplyJson None (Some (NextItemsPageData items next)) /\
        pages_served env (S n) next rest
  end.

(* ------------------------------------------------------------------ *)
(** * [src/pdf_utils.py]: the layout of the summary *)

(** What a [drawString] of the summary shows; numbers stay numbers. *)
Inductive Content :=
| TitleLine (month : pystr)
| BoardLine (board_id : pystr)
| GeneratedLine (file_name : pystr)
| TotalTicketsLine (n : nat)
| UniqueLine (unique : nat) (saved : Z)
| HeaderCell (text : pystr)
| IndexCell (idx : nat)
| TextCell (text : pystr)
| CountCell (n : nat)
| SharedTitle
| SharedIntro (n : nat)
| FileBullet (filename : pystr)
| TicketBullet (ticket : pystr).

Inductive CanvasOp :=
| SetFont (name : pystr) (size : Z)
| DrawString (x y : Z) (content : Content)
| ShowPage
| Save.

(** The five column headers at height [y] (lines 24-28 and 41-45). *)
Definition header_cells (y : Z) : list CanvasOp :=
  [DrawString 30 y (HeaderCell (py "#"));
   DrawString 60 y (HeaderCell (py "Ticket #"));
   DrawString 200 y (HeaderCell (py "Open Date"));
   DrawString 300 y (HeaderCell (py "Close Date"));
   DrawString 420 y (HeaderCell (py "Attachments"))].

(** Lines 32-36: one row of the table. *)
Definition row_cells (idx : nat) (t : TicketRow.t) (y : Z) : list CanvasOp :=
  [DrawString 30 y (IndexCell idx);
   DrawString 60 y (TextCell (TicketRow.item_name t));
   DrawString 200 y (TextCell (TicketRow.open_date t));
   DrawString 300 y (TextCell (or_empty (TicketRow.close_date t)));
   DrawString 420 y (CountCell (length (TicketRow.attachments t)))].

(** Lines 31-47: the loop over the tickets, from row number [idx] at
    height [y]. *)
Fixpoint table_rows (tickets : list TicketRow.t) (idx : nat) (y : Z)
  : list CanvasOp :=
  match tickets with
  | [] => []
  | t :: rest =>
      row_cells idx t y ++
      (if (y - 18 <? 50)%Z
       then [ShowPage; SetFont (py "Helvetica-Bold") 12] ++ header_cells 780
            ++ [SetFont (py "Helvetica") 11] ++ table_rows rest (S idx) 760
       else table_rows rest (S idx) (y - 18))
  end.

(** Lines 63-65: the tickets of one shared file, from height [y]. *)
Fixpoint ticket_bullets (ticket_list : list pystr) (y : Z) : list CanvasOp * Z :=
  match ticket_list with
  | [] => ([], y)
  | ticket :: rest =>
      let r := ticket_bullets rest (y - 12) in
      (DrawString 70 y (TicketBullet ticket) :: fst r, snd r)
  end.

(** Lines 60-69: the loop over the shared files, from height [y]. *)
Fixpoint shared_files (shared : list (pystr * list pystr)) (y : Z)
  : list CanvasOp :=
  match shared with
  | [] => []
  | (filename, ticket_list) :: rest =>
      let bullets := ticket_bullets ticket_list (y - 15) in
      let y' := (snd bullets - 5)%Z in
      DrawString 50 y (FileBullet filename) :: fst bullets ++
      (if (y' <? 80)%Z then ShowPage :: shared_files rest 780
       else shared_files rest y')
  end.

(** Line 51: the entries with more than one ticket, with their tickets. *)
Definition shared_with_tickets (attachment_map : AttachmentMap)
  : list (pystr * list pystr) :=
  flat_map
    (fun e =>
       if 1 <? length (snd (snd e))
       then [(Asset.name (fst (snd e)), snd (snd e))] else [])
    attachment_map.

(** [if attachment_map:] *)
Definition has_entries (attachment_map : AttachmentMap) : bool :=
  match attachment_map with [] => false | _ => true end.

(** What [generate_summary_page] puts on the canvas, in order. *)
Definition summary_canvas (tickets : list TicketRow.t) (month board_id : pystr)
    (output_path : pystr) (attachment_map : AttachmentMap) : list CanvasOp :=
  let header_y := (if has_entries attachment_map then 710 else 720)%Z in
  [SetFont (py "Helvetica-Bold") 16;
   DrawString 50 800 (TitleLine month);
   SetFont (py "Helvetica") 12;
   DrawString 50 780 (BoardLine board_id);
   DrawString 50 765 (GeneratedLine (os_path_basename output_path));
   DrawString 50 750 (TotalTicketsLine (length tickets))]
  ++ (if has_entries attachment_map
      then [DrawString 50 735
              (UniqueLine (length attachment_map)
                 (Z.of_nat (total_attachments tickets)
                  - Z.of_nat (length attachment_map)))]
      else [])
  ++ [SetFont (py "Helvetica-Bold") 12] ++ header_cells header_y
  ++ [SetFont (py "Helvetica") 11]
  ++ table_rows tickets 1 (header_y - 20)
  ++ (if has_entries attachment_map
      then match shared_with_tickets attachment_map with
           | [] => []
           | shared =>
               [ShowPage; SetFont (py "Helvetica-Bold") 16;
                DrawString 50 800 SharedTitle;
                SetFont (py "Helvetica") 12;
                DrawString 50 780 (SharedIntro (length shared));
                SetFont (py "Helvetica") 11]
               ++ shared_files shared 750
           end
      else [])
  ++ [Save].

(** The pages of a canvas: one more than its page breaks. *)
Definition is_show_page (op : CanvasOp) : bool :=
  match op with ShowPage => true | _ => false end.

Definition page_count (ops : list CanvasOp) : nat :=
  S (length (filter is_show_page ops)).

(** Where a page lets the table and the list of shared files begin a
    line. *)
Definition within_margins (op : CanvasOp) : Prop :=
  match op with
  | DrawString _ y (IndexCell _ | TextCell _ | CountCell _) => (50 <= y <= 760)%Z
  | DrawString _ y (FileBullet _) => (80 <= y <= 780)%Z
  | DrawString _ y _ => (y <= 800)%Z
  | _ => True
  end.

(** The rows that fit on the first page of the table: 36 below the line
    with the unique attachments, 37 without it. *)
Definition first_page_rows (attachment_map : AttachmentMap) : nat :=
  if has_entries attachment_map then 36 else 37.

(* ------------------------------------------------------------------ *)
(** * [src/excel_utils.py]: the figures of the summary sheet *)

(** A ticket dictionary as [main] hands it to the workbook. *)
Module ExcelTicket.
Record t := mk {
  name : pystr;
  id : pystr;
  date_opened : pystr;
  status : pystr;
  summary : pystr;
  attachments : list pystr
}.
End ExcelTicket.

(** Lines 218-229 of [main.py]. *)
Definition excel_tickets_of (ticket_rows : list TicketRow.t) : list ExcelTicket.t :=
  map (fun ticket =>
         ExcelTicket.mk (TicketRow.item_name ticket) (TicketRow.item_id ticket)
                        (TicketRow.open_date ticket) (py "Resolved") []
                        (map Asset.name (TicketRow.attachments ticket)))
      ticket_rows.

(** Lines 232-234 of [main.py]: the entries with more than one ticket. *)
Definition excel_shared_of (attachment_map : AttachmentMap)
  : list (pystr * list pystr) :=
  flat_map
    (fun e => if 1 <? length (snd (snd e)) then [(fst e, snd (snd e))] else [])
    attachment_map.

(** [sum(len(ticket.get('attachments', [])) for ticket in tickets)] *)
Definition excel_total_attachments (tickets : list ExcelTicket.t) : Z :=
  Z.of_nat (list_sum (map (fun t => length (ExcelTicket.attachments t)) tickets)).

(** The [stats] list of [_create_summary_sheet] (lines 94-110). *)
Definition summary_stats (tickets : list ExcelTicket.t)
    (shared_attachments : list (pystr * list pystr))
    (unique_attachments_count : option Z) : list (pystr * Z) :=
  let tickets_with_attachments :=
    Z.of_nat (length (filter (fun t => match ExcelTicket.attachments t with
                                       | [] => false
                                       | _ => true
                                       end) tickets)) in
  [(py "Total Resolved Tickets", Z.of_nat (length tickets));
   (py "Total Attachments", excel_total_attachments tickets)]
  ++ match unique_attachments_count with
     | Some u =>
         [(py "Unique Attachments (After Deduplication)", u);
          (py "Duplicate Attachments Removed", (excel_total_attachments tickets - u)%Z)]
     | None => []
     end
  ++ match shared_attachments with
     | [] => []
     | _ => [(py "Shared Attachment Files", Z.of_nat (length shared_attachments))]
     end
  ++ [(py "Tickets with Attachments", tickets_with_attachments);
      (py "Tickets without Attachments",
       (Z.of_nat (length tickets) - tickets_with_attachments)%Z)].

(** The figures of a run: lines 238-244 of [main.py]. *)
Definition run_stats (ticket_rows : list TicketRow.t)
    (attachment_map : AttachmentMap) : list (pystr * Z) :=
  summary_stats (excel_tickets_of ticket_rows) (excel_shared_of attachment_map)
                (Some (Z.of_nat (length (unique_attachments_of attachment_map)))).

(** Lines 195-197 of [excel_utils.py]: the summary cell of a ticket. *)
Definition truncate_summary (summary : pystr) : pystr :=
  if 100 <? length summary then firstn 97 summary ++ py "..." else summary.

(** A regular file lies at the path. *)
Definition is_file (w : World) (p : pystr) : bool :=
  match lookup p (files w) with Some _ => true | None => false end.

(** A file that [PdfReader] accepts lies at the path. *)
Definition is_readable_pdf (env : Env) (w : World) (p : pystr) : bool :=
  match lookup p (files w) with
  | Some c => pdf_readable env c
  | None => false
  end.

(** The error of [PdfReader] at a path that holds no readable PDF. *)
Definition reader_error (w : World) (pdf : pystr) : exn :=
  if is_file w pdf then PdfReadError
  else if mem pdf (dirs w) then IsADirectoryError
  else FileNotFoundError.

(** What reading the inputs in order raises, if anything: the error of the
    first input that is missing or does not parse. *)
Fixpoint reading_error (env : Env) (w : World) (pdfs : list pystr) : option exn :=
  match pdfs with
  | [] => None
  | pdf :: rest =>
      if is_readable_pdf env w pdf then reading_error env w rest
      else Some (reader_error w pdf)
  end.

(** Line 129 of [excel_utils.py]:
    [status_counts[status] = status_counts.get(status, 0) + 1], on a
    dictionary kept in insertion order: the count of a status already
    present is raised in place, a new status is added at the end. *)
Definition count_status (status_counts : list (pystr * nat)) (status : pystr)
  : list (pystr * nat) :=
  if existsb (fun e => str_eqb status (fst e)) status_counts
  then map (fun e => if str_eqb status (fst e) then (fst e, snd e + 1) else e)
           status_counts
  else status_counts ++ [(status, 0 + 1)].

(** Lines 126-129 of [excel_utils.py]: the status breakdown of the summary
    sheet.  The tickets are the records [main] builds, which always carry a
    status, so the default of [ticket.get('status', 'Unknown')] is not
    taken. *)
Definition status_counts (tickets : list ExcelTicket.t) : list (pystr * nat) :=
  fold_left count_status (map ExcelTicket.status tickets) [].

(* ------------------------------------------------------------------ *)
(** * sanitize_filename *)

Section Sanitize.
Context `{PyRuntime}.

Lemma sanitize_char_safe (c : N) : safe_char (sanitize_char c) = true.
Proof.
  unfold sanitize_char, safe_char.
  destruct (isalnum c || in_dash_underscore c) eqn:E; [exact E|].
  unfold in_dash_underscore. rewrite N.eqb_refl. apply orb_true_r.
Qed.

Lemma safe_char_not_special (c : N) :
  safe_char c = true ->
  c <> SEP /\ c <> BACKSLASH /\ c <> DOT /\ c <> 0%N.
Proof.
  intros Hs.
  assert (Hne : forall d, safe_char d = false -> c <> d) by congruence.
  repeat split; apply Hne; reflexivity.
Qed.

Lemma sanitize_filename_nth (name : pystr) (i : nat) :
  nth_error (sanitize_filename name) i =
  option_map (fun c => if safe_char c then c else UNDERSCORE) (nth_error name i).
Proof.
  unfold sanitize_filename. rewrite nth_error_map. reflexivity.
Qed.

(** C10: [sanitize_filename] keeps the length, replaces exactly the
    characters that are neither alphanumeric nor '-' nor '_' by '_', and
    so returns only such characters; the part of the download filename
    [<id>-<sanitizedName>.<ext>] that comes from the display name holds
    no '/', no backslash, no '.' and no NUL. *)
Theorem sanitize_filename_same_length_safe_chars :
  forall name : pystr,
    length (sanitize_filename name) = length name /\
    (forall i, nth_error (sanitize_filename name) i =
               option_map (fun c => if safe_char c then c else UNDERSCORE)
                          (nth_error name i)) /\
    Forall (fun c => safe_char c = true) (sanitize_filename name) /\
    Forall (fun c => c <> SEP /\ c <> BACKSLASH /\ c <> DOT /\ c <> 0%N)
           (sanitize_filename name) /\
    forall id ext u1 u2 sz,
      download_filename (Asset.mk id name ext u1 u2 sz) =
      id ++ [DASH] ++ sanitize_filename name ++ [DOT] ++ ext.
Proof.
  intros name.
  assert (Hsafe : Forall (fun c => safe_char c = true) (sanitize_filename name)).
  { unfold sanitize_filename. apply Forall_map, Forall_forall.
    intros c _. apply sanitize_char_safe. }
  split; [apply length_map|].
  split; [apply sanitize_filename_nth|].
  split; [exact Hsafe|].
  split; [|reflexivity].
  eapply Forall_impl; [|exact Hsafe].
  intros c; apply safe_char_not_special.
Qed.

End Sanitize.


(* ------------------------------------------------------------------ *)
(** * dedupe_assets and the attachment index *)

Lemma str_eqb_eq (a b : pystr) : str_eqb a b = true <-> a = b.
Proof.
  unfold str_eqb. destruct (pystr_eq_dec a b); split; congruence.
Qed.

Lemma str_eqb_refl (a : pystr) : str_eqb a a = true.
Proof. apply str_eqb_eq; reflexivity. Qed.

Lemma str_eqb_neq (a b : pystr) : str_eqb a b = false <-> a <> b.
Proof.
  unfold str_eqb. destruct (pystr_eq_dec a b); split; congruence.
Qed.

Lemma mem_In (k : pystr) (l : list pystr) : mem k l = true <-> In k l.
Proof.
  unfold mem. rewrite existsb_exists. split.
  - intros (x & Hx & E). apply str_eqb_eq in E. subst. exact Hx.
  - intros Hk. exists k. split; [exact Hk | apply str_eqb_refl].
Qed.

Lemma key_eqb_eq (k1 k2 : pystr * pystr) : key_eqb k1 k2 = true <-> k1 = k2.
Proof.
  destruct k1 as [a b], k2 as [c d]. unfold key_eqb. simpl.
  rewrite andb_true_iff, !str_eqb_eq. split.
  - intros [-> ->]. reflexivity.
  - intros E. inversion E. auto.
Qed.

Lemma seen_In (key : pystr * pystr) (seen : list (pystr * pystr)) :
  existsb (key_eqb key) seen = true <-> In key seen.
Proof.
  rewrite existsb_exists. split.
  - intros (x & Hx & E). apply key_eqb_eq in E. subst. exact Hx.
  - intros Hk. exists key. split; [exact Hk | apply key_eqb_eq; reflexivity].
Qed.

(** The loop of [dedupe_assets] keeps the first asset of every
    (id, name) key and nothing else. *)
Lemma dedupe_loop_spec (assets : list Asset.t) :
  forall seen unique,
    (forall k, In k seen <-> In k (map asset_key unique)) ->
    NoDup (map asset_key unique) ->
    let r := dedupe_loop assets seen unique in
    NoDup (map asset_key r) /\
    (forall a, In a r -> In a unique \/ In a assets) /\
    (forall k, In k (map asset_key unique) \/ In k (map asset_key assets) ->
               In k (map asset_key r)).
Proof.
  induction assets as [|asset rest IH]; intros seen unique Hseen Hnd; simpl.
  - split; [exact Hnd|]. split; [auto|]. intros k [Hk|[]]. exact Hk.
  - destruct (existsb (key_eqb (asset_key asset)) seen) eqn:E.
    + apply seen_In in E.
      destruct (IH seen unique Hseen Hnd) as (H1 & H2 & H3).
      split; [exact H1|]. split.
      * intros a Ha. destruct (H2 a Ha); auto.
      * intros k [Hk|[Hk|Hk]]; apply H3; auto.
        left. subst k. apply Hseen. exact E.
    + assert (Hnot : ~ In (asset_key asset) seen).
      { intros Hin. apply seen_In in Hin. congruence. }
      destruct (IH (asset_key asset :: seen) (unique ++ [asset])) as (H1 & H2 & H3).
      * intros k. rewrite map_app, in_app_iff. simpl. rewrite Hseen. tauto.
      * rewrite map_app. simpl.
        apply NoDup_app; [exact Hnd | repeat constructor; auto |].
        intros k Hk [<-|[]]. apply Hnot, Hseen, Hk.
      * split; [exact H1|]. split.
        -- intros a Ha. destruct (H2 a Ha) as [Hu|Hr]; auto.
           apply in_app_iff in Hu. destruct Hu as [Hu|[<-|[]]]; auto.
        -- intros k Hk. apply H3. rewrite map_app, in_app_iff. simpl. tauto.
Qed.

Lemma dedupe_assets_NoDup (assets : list Asset.t) :
  NoDup (map asset_key (dedupe_assets assets)).
Proof.
  apply (dedupe_loop_spec assets [] []); simpl; [tauto | constructor].
Qed.

Lemma dedupe_assets_incl (assets : list Asset.t) :
  incl (dedupe_assets assets) assets.
Proof.
  intros a Ha.
  destruct (dedupe_loop_spec assets [] []) as (_ & H2 & _); simpl; [tauto | constructor |].
  destruct (H2 a Ha) as [[]|Hin]. exact Hin.
Qed.

Lemma dedupe_assets_keys (assets : list Asset.t) (a : Asset.t) :
  In a assets -> In (asset_key a) (map asset_key (dedupe_assets assets)).
Proof.
  intros Ha.
  destruct (dedupe_loop_spec assets [] []) as (_ & _ & H3); simpl; [tauto | constructor |].
  apply H3. right. apply in_map. exact Ha.
Qed.

Lemma dedupe_assets_names (assets : list Asset.t) (n : pystr) :
  In n (names_of (dedupe_assets assets)) <-> In n (names_of assets).
Proof.
  unfold names_of. rewrite !in_map_iff. split.
  - intros (a & <- & Ha). exists a. split; [reflexivity|].
    apply dedupe_assets_incl. exact Ha.
  - intros (a & <- & Ha).
    apply dedupe_assets_keys, in_map_iff in Ha.
    destruct Ha as (b & Hk & Hb). exists b. split; [|exact Hb].
    unfold asset_key in Hk. congruence.
Qed.

Lemma dict_contains_In (k : pystr) (m : AttachmentMap) :
  dict_contains k m = true <-> In k (keys m).
Proof.
  unfold dict_contains, keys. rewrite existsb_exists, in_map_iff. split.
  - intros (e & He & E). apply str_eqb_eq in E. exists e. auto.
  - intros (e & <- & He). exists e. split; [exact He | apply str_eqb_refl].
Qed.

Lemma append_ticket_keys (k n : pystr) (m : AttachmentMap) :
  keys (append_ticket k n m) = keys m.
Proof.
  unfold keys, append_ticket. rewrite map_map. apply map_ext.
  intros e. destruct (str_eqb k (fst e)); reflexivity.
Qed.

Lemma append_ticket_absent (k n : pystr) (m : AttachmentMap) :
  ~ In k (keys m) -> append_ticket k n m = m.
Proof.
  induction m as [|e m IH]; simpl; intros Hk; [reflexivity|].
  destruct (str_eqb k (fst e)) eqn:E.
  - apply str_eqb_eq in E. exfalso. apply Hk. left. congruence.
  - f_equal. apply IH. intros Hin. apply Hk. right. exact Hin.
Qed.

Lemma append_ticket_total (k n : pystr) (m : AttachmentMap) :
  NoDup (keys m) -> In k (keys m) ->
  references_total (append_ticket k n m) = S (references_total m).
Proof.
  unfold references_total.
  induction m as [|e m IH]; simpl; intros Hnd Hk; [contradiction|].
  inversion Hnd as [|x l Hx Hnd']; subst.
  destruct (str_eqb k (fst e)) eqn:E.
  - apply str_eqb_eq in E. subst k.
    fold (append_ticket (fst e) n m).
    rewrite (append_ticket_absent _ _ _ Hx). simpl.
    rewrite length_app. simpl. lia.
  - apply str_eqb_neq in E. destruct Hk as [Hk|Hk]; [congruence|].
    fold (append_ticket k n m) in *. rewrite (IH Hnd' Hk). lia.
Qed.

Lemma append_ticket_grows (k n : pystr) (m : AttachmentMap) (e : pystr * (Asset.t * list pystr)) :
  In e m ->
  exists e', In e' (append_ticket k n m) /\ fst e' = fst e /\
             incl (snd (snd e)) (snd (snd e')) /\
             (fst e = k -> In n (snd (snd e'))).
Proof.
  intros He. unfold append_ticket.
  destruct (str_eqb k (fst e)) eqn:E.
  - exists (fst e, (fst (snd e), snd (snd e) ++ [n])). simpl.
    split; [|split; [reflexivity|split]].
    + apply in_map_iff. exists e. rewrite E. auto.
    + intros x Hx. apply in_app_iff. auto.
    + intros _. apply in_app_iff. right. left. reflexivity.
  - exists e. split; [|split; [reflexivity|split]].
    + apply in_map_iff. exists e. rewrite E. auto.
    + apply incl_refl.
    + intros Hk. apply str_eqb_neq in E. congruence.
Qed.

Lemma track_keys (n : pystr) (m : AttachmentMap) (a : Asset.t) :
  keys (track n m a) =
  if dict_contains (Asset.name a) m then keys m else keys m ++ [Asset.name a].
Proof.
  unfold track. rewrite append_ticket_keys.
  destruct (dict_contains (Asset.name a) m); [reflexivity|].
  unfold keys. rewrite map_app. reflexivity.
Qed.

Lemma track_inv (n : pystr) (m : AttachmentMap) (a : Asset.t)
    (seen : list (pystr * Asset.t)) :
  index_inv m seen -> index_inv (track n m a) (seen ++ [(n, a)]).
Proof.
  intros (Hnd & Hkeys & Htot & Hacc).
  assert (Hgrow : forall e, In e m ->
            exists e', In e' (track n m a) /\ fst e' = fst e /\
                       incl (snd (snd e)) (snd (snd e')) /\
                       (fst e = Asset.name a -> In n (snd (snd e')))).
  { intros e He. unfold track.
    apply append_ticket_grows.
    destruct (dict_contains (Asset.name a) m); [exact He|].
    apply in_app_iff. left. exact He. }
  assert (Hnew : exists e, In e (track n m a) /\ fst e = Asset.name a /\
                           In n (snd (snd e))).
  { unfold track. destruct (dict_contains (Asset.name a) m) eqn:E.
    - apply dict_contains_In in E. unfold keys in E. apply in_map_iff in E.
      destruct E as (e & Hk & He).
      destruct (append_ticket_grows (Asset.name a) n m e He) as (e' & H1 & H2 & _ & H4).
      exists e'. split; [exact H1|]. split; [congruence|]. apply H4. exact Hk.
    - exists (Asset.name a, (a, [n])). split; [|simpl; auto].
      unfold append_ticket. rewrite map_app, in_app_iff. right. simpl.
      rewrite str_eqb_refl. left. reflexivity. }
  unfold index_inv. rewrite track_keys.
  unfold names_of in *. rewrite !map_app, length_app. simpl.
  destruct (dict_contains (Asset.name a) m) eqn:E.
  - pose proof (proj1 (dict_contains_In _ _) E) as Hin.
    split; [exact Hnd|]. split; [|split].
    + intros k. rewrite in_app_iff, <- Hkeys. simpl. split; [tauto|].
      intros [H|[<-|[]]]; auto.
    + unfold track. rewrite E, (append_ticket_total _ n _ Hnd Hin). lia.
    + intros n' a' Hin'. apply in_app_iff in Hin'.
      destruct Hin' as [Hin'|[Heq|[]]].
      * destruct (Hacc n' a' Hin') as (e & He & Hk & Hn).
        destruct (Hgrow e He) as (e' & H1 & H2 & H3 & _).
        exists e'. split; [exact H1|]. split; [congruence|]. apply H3, Hn.
      * inversion Heq; subst. exact Hnew.
  - assert (Hnot : ~ In (Asset.name a) (keys m)).
    { intros Hin. apply dict_contains_In in Hin. congruence. }
    split; [|split; [|split]].
    + apply NoDup_app; [exact Hnd | repeat constructor; auto |].
      intros k Hk [<-|[]]. exact (Hnot Hk).
    + intros k. rewrite !in_app_iff, <- Hkeys. simpl. tauto.
    + unfold track. rewrite E. unfold append_ticket. rewrite map_app.
      fold (append_ticket (Asset.name a) n m).
      rewrite (append_ticket_absent _ _ _ Hnot). simpl.
      rewrite str_eqb_refl. unfold references_total in *.
      rewrite map_app, list_sum_app. simpl. lia.
    + intros n' a' Hin'. apply in_app_iff in Hin'.
      destruct Hin' as [Hin'|[Heq|[]]].
      * destruct (Hacc n' a' Hin') as (e & He & Hk & Hn).
        destruct (Hgrow e He) as (e' & H1 & H2 & H3 & _).
        exists e'. split; [exact H1|]. split; [congruence|]. apply H3, Hn.
      * inversion Heq; subst. exact Hnew.
Qed.

Lemma track_all_inv (n : pystr) (assets : list Asset.t) :
  forall m seen,
    index_inv m seen ->
    index_inv (fold_left (track n) assets m) (seen ++ map (pair n) assets).
Proof.
  induction assets as [|a rest IH]; intros m seen Hinv; simpl.
  - rewrite app_nil_r. exact Hinv.
  - replace (seen ++ (n, a) :: map (pair n) rest)
      with ((seen ++ [(n, a)]) ++ map (pair n) rest)
      by (rewrite <- app_assoc; reflexivity).
    apply IH, track_inv, Hinv.
Qed.

Lemma build_loop_inv (config : Config.t) (items : list Item.t) :
  forall acc seen,
    index_inv (snd acc) seen ->
    index_inv (snd (fold_left (build_step config) items acc))
              (seen ++ tagged_references items).
Proof.
  induction items as [|item rest IH]; intros acc seen Hinv; simpl.
  - rewrite app_nil_r. exact Hinv.
  - rewrite app_assoc. apply IH.
    unfold build_step.
    destruct (scan_columns _ _ _) as [open_date close_date]. simpl.
    apply track_all_inv, Hinv.
Qed.

Lemma build_index_inv (config : Config.t) (items : list Item.t) :
  index_inv (snd (build_index config items)) (tagged_references items).
Proof.
  apply (build_loop_inv config items ([], []) []).
  repeat split; simpl; try constructor; try tauto; intros; contradiction.
Qed.

Lemma tagged_references_snd (items : list Item.t) :
  map snd (tagged_references items) = references items.
Proof.
  unfold tagged_references, references.
  induction items as [|item rest IH]; simpl; [reflexivity|].
  rewrite map_app, IH, map_map. simpl. rewrite map_id. reflexivity.
Qed.

Lemma build_rows_attachments (config : Config.t) (items : list Item.t) :
  forall acc,
    map TicketRow.attachments (fst (fold_left (build_step config) items acc)) =
    map TicketRow.attachments (fst acc)
      ++ map (fun item => dedupe_assets (Item.assets item)) items.
Proof.
  induction items as [|item rest IH]; intros acc; simpl.
  - rewrite app_nil_r. reflexivity.
  - rewrite IH. unfold build_step.
    destruct (scan_columns _ _ _) as [open_date close_date]. simpl.
    rewrite map_app, <- app_assoc. reflexivity.
Qed.

(** The total the program prints, [sum(len(t.attachments) for t in
    ticket_rows)], counts the references. *)
Lemma total_attachments_references (config : Config.t) (items : list Item.t) :
  total_attachments (fst (build_index config items)) = length (references items).
Proof.
  unfold total_attachments, build_index.
  rewrite <- (map_map TicketRow.attachments (@length Asset.t)).
  rewrite build_rows_attachments. simpl.
  unfold references. rewrite map_map.
  induction items as [|item rest IH]; simpl; [reflexivity|].
  rewrite length_app, IH. reflexivity.
Qed.

Lemma nodup_length (l : list pystr) :
  length (nodup pystr_eq_dec l) <= length l /\
  (length (nodup pystr_eq_dec l) = length l <-> NoDup l).
Proof.
  induction l as [|a l [IHle IHeq]]; simpl.
  - split; [lia|]. split; [constructor | reflexivity].
  - destruct (in_dec pystr_eq_dec a l) as [Hin|Hnin]; simpl.
    + split; [lia|]. split; [lia|].
      intros Hnd. inversion Hnd. contradiction.
    + split; [lia|]. split.
      * intros E. constructor; [exact Hnin|]. apply IHeq. lia.
      * intros Hnd. inversion Hnd; subst. f_equal. apply IHeq. assumption.
Qed.

Lemma index_size (m : AttachmentMap) (seen : list (pystr * Asset.t)) :
  index_inv m seen ->
  length m = distinct_count (names_of (map snd seen)).
Proof.
  intros (Hnd & Hkeys & _ & _).
  unfold distinct_count.
  rewrite <- (length_map fst m). fold (keys m).
  apply Permutation_length, NoDup_Permutation.
  - exact Hnd.
  - apply NoDup_nodup.
  - intros k. rewrite nodup_In. apply Hkeys.
Qed.

Lemma entry_unique (m : AttachmentMap) (e e' : pystr * (Asset.t * list pystr)) :
  NoDup (keys m) -> In e m -> In e' m -> fst e' = fst e -> e' = e.
Proof.
  induction m as [|x m IH]; simpl; intros Hnd He He' Hk; [contradiction|].
  inversion Hnd as [|y l Hx Hnd']; subst.
  destruct He as [->|He], He' as [->|He'].
  - reflexivity.
  - exfalso. apply Hx. rewrite <- Hk. apply in_map. exact He'.
  - exfalso. apply Hx. rewrite Hk. apply in_map. exact He.
  - apply IH; assumption.
Qed.

Lemma distinct_count_ext (l1 l2 : list pystr) :
  (forall x, In x l1 <-> In x l2) -> distinct_count l1 = distinct_count l2.
Proof.
  intros Hext. unfold distinct_count.
  apply Permutation_length, NoDup_Permutation; try apply NoDup_nodup.
  intros x. rewrite !nodup_In. apply Hext.
Qed.

Lemma references_names (items : list Item.t) (n : pystr) :
  In n (names_of (references items)) <-> In n (names_of (flat_map Item.assets items)).
Proof.
  unfold references.
  induction items as [|item rest IH]; simpl; [tauto|].
  unfold names_of in *. rewrite !map_app, !in_app_iff, IH.
  pose proof (dedupe_assets_names (Item.assets item) n) as Hd.
  unfold names_of in Hd. rewrite Hd. tauto.
Qed.

Lemma tagged_references_In (items : list Item.t) (item : Item.t) (a : Asset.t) :
  In item items -> In a (dedupe_assets (Item.assets item)) ->
  In (Item.name item, a) (tagged_references items).
Proof.
  intros Hitem Ha. unfold tagged_references. apply in_flat_map.
  exists item. split; [exact Hitem|]. apply in_map. exact Ha.
Qed.

(** C2: the index built from the filtered items has as many references in
    its lists as the items have attachments after the per-item
    deduplication by (id, name), has one entry per distinct attachment
    name, and files every attachment of every item under exactly one
    entry, whose list names the item. *)
Theorem attachment_index_counts_and_covers :
  forall (config : Config.t) (filtered_items : list Item.t),
    let attachment_map := snd (build_index config filtered_items) in
    references_total attachment_map = length (references filtered_items) /\
    length (references filtered_items) =
      list_sum (map (fun item => length (dedupe_assets (Item.assets item)))
                    filtered_items) /\
    Forall (fun item =>
              NoDup (map asset_key (dedupe_assets (Item.assets item))) /\
              incl (dedupe_assets (Item.assets item)) (Item.assets item) /\
              incl (map asset_key (Item.assets item))
                   (map asset_key (dedupe_assets (Item.assets item))))
           filtered_items /\
    length attachment_map =
      distinct_count (names_of (flat_map Item.assets filtered_items)) /\
    NoDup (keys attachment_map) /\
    Forall (fun item => Forall (accounted_once attachment_map item) (Item.assets item))
           filtered_items.
Proof.
  intros config items m.
  pose proof (build_index_inv config items) as Hinv. fold m in Hinv.
  pose proof (index_size _ _ Hinv) as Hsize.
  destruct Hinv as (Hnd & Hkeys & Htot & Hacc).
  rewrite tagged_references_snd in Hsize.
  split; [|split; [|split; [|split; [|split]]]].
  - rewrite Htot, <- (length_map snd), tagged_references_snd. reflexivity.
  - unfold references. clear.
    induction items as [|item rest IH]; simpl; [reflexivity|].
    rewrite length_app, IH. reflexivity.
  - apply Forall_forall. intros item _.
    split; [apply dedupe_assets_NoDup|].
    split; [apply dedupe_assets_incl|].
    intros k Hk. apply in_map_iff in Hk. destruct Hk as (a & <- & Ha).
    apply dedupe_assets_keys, Ha.
  - rewrite Hsize. apply distinct_count_ext, references_names.
  - exact Hnd.
  - apply Forall_forall. intros item Hitem.
    apply Forall_forall. intros a Ha.
    apply dedupe_assets_keys, in_map_iff in Ha.
    destruct Ha as (b & Hk & Hb).
    destruct (Hacc (Item.name item) b (tagged_references_In _ _ _ Hitem Hb))
      as (e & He & Hname & Hn).
    assert (Hab : Asset.name b = Asset.name a)
      by (unfold asset_key in Hk; congruence).
    exists e. rewrite <- Hab.
    split; [exact He|]. split; [exact Hname|]. split; [exact Hn|].
    apply Forall_forall. intros e' He' Hk'.
    apply (entry_unique m); try assumption. congruence.
Qed.

(** C6, as the code has it: the index never has more entries than the
    items have references, and has as many exactly when no name occurs
    twice among the references, be it in two items or twice in one item
    under two ids. *)
Theorem unique_le_total_eq_iff_names_distinct :
  forall (config : Config.t) (filtered_items : list Item.t),
    let ticket_rows := fst (build_index config filtered_items) in
    let attachment_map := snd (build_index config filtered_items) in
    length attachment_map <= total_attachments ticket_rows /\
    (length attachment_map = total_attachments ticket_rows <->
     NoDup (names_of (references filtered_items))).
Proof.
  intros config items rows m. unfold rows, m.
  rewrite total_attachments_references.
  pose proof (index_size _ _ (build_index_inv config items)) as Hsize.
  rewrite tagged_references_snd in Hsize. rewrite Hsize.
  unfold distinct_count.
  destruct (nodup_length (names_of (references items))) as [Hle Heq].
  unfold names_of in *. rewrite length_map in Hle, Heq.
  split; [exact Hle | exact Heq].
Qed.

(** C6 as stated fails: one ticket with two uploads of the same name has
    no name repeated across items, yet one index entry for two
    references. *)
Lemma unique_eq_total_iff_no_repeat_across_items_fails :
  let ticket_rows := fst (build_index Sample.config [Sample.item_twice]) in
  let attachment_map := snd (build_index Sample.config [Sample.item_twice]) in
  ~ (length attachment_map = total_attachments ticket_rows <->
     ~ name_repeats_across_items [Sample.item_twice]).
Proof.
  intros rows m [_ Hback].
  assert (Hno : ~ name_repeats_across_items [Sample.item_twice]).
  { intros (i & j & item_i & item_j & name & Hij & Hi & Hj & _).
    destruct i as [|i]; [|destruct i; discriminate Hi].
    destruct j as [|j]; [|destruct j; discriminate Hj].
    apply Hij. reflexivity. }
  specialize (Hback Hno). vm_compute in Hback. discriminate Hback.
Qed.

(* ------------------------------------------------------------------ *)
(** * The item filter *)

Lemma startswith_spec (p s : pystr) :
  startswith p s = true <-> exists suf, s = p ++ suf.
Proof.
  revert s. induction p as [|a p IH]; intros s; simpl.
  - split; [intros _; exists s; reflexivity | reflexivity].
  - destruct s as [|b s].
    + split; [discriminate | intros (suf & E); discriminate E].
    + rewrite andb_true_iff, N.eqb_eq, IH. split.
      * intros (-> & suf & ->). exists suf. reflexivity.
      * intros (suf & E). inversion E; subst. split; [reflexivity | exists suf; reflexivity].
Qed.

(** [sub in s] holds exactly when [sub] is a substring of [s]. *)
Lemma contains_spec (s sub : pystr) :
  contains s sub = true <-> exists pre suf, s = pre ++ sub ++ suf.
Proof.
  induction s as [|x s IH].
  - simpl. rewrite orb_false_r, startswith_spec. split.
    + intros (suf & E). exists [], suf. exact E.
    + intros (pre & suf & E). destruct pre; [exists suf; exact E | discriminate E].
  - simpl. rewrite orb_true_iff, startswith_spec, IH. split.
    + intros [(suf & E) | (pre & suf & E)].
      * exists [], suf. exact E.
      * exists (x :: pre), suf. simpl. congruence.
    + intros (pre & suf & E). destruct pre as [|y pre].
      * left. exists suf. exact E.
      * right. exists pre, suf. simpl in E. congruence.
Qed.

Lemma scan_columns_snoc (id1 id2 : pystr) (cvs : list ColumnValue.t) (cv : ColumnValue.t) :
  scan_columns id1 id2 (cvs ++ [cv]) =
  (if str_eqb (ColumnValue.id cv) id1 then ColumnValue.text cv
   else fst (scan_columns id1 id2 cvs),
   if str_eqb (ColumnValue.id cv) id2 then ColumnValue.text cv
   else snd (scan_columns id1 id2 cvs)).
Proof.
  unfold scan_columns. rewrite fold_left_app. reflexivity.
Qed.

(** The scan yields the text of the last column value with the given id. *)
Lemma scan_columns_last (id1 id2 : pystr) (cvs : list ColumnValue.t) :
  fst (scan_columns id1 id2 cvs) =
    match find (fun cv => str_eqb (ColumnValue.id cv) id1) (rev cvs) with
    | Some cv => ColumnValue.text cv
    | None => None
    end /\
  snd (scan_columns id1 id2 cvs) =
    match find (fun cv => str_eqb (ColumnValue.id cv) id2) (rev cvs) with
    | Some cv => ColumnValue.text cv
    | None => None
    end.
Proof.
  induction cvs as [|cv cvs [IH1 IH2]] using rev_ind; [split; reflexivity|].
  rewrite scan_columns_snoc, rev_app_distr. simpl.
  destruct (str_eqb (ColumnValue.id cv) id1), (str_eqb (ColumnValue.id cv) id2);
    split; auto.
Qed.

Section Filter.
Context `{PyRuntime}.

Lemma label_matches_spec (status_label : option pystr) (required : pystr) :
  label_matches status_label required = true <->
  exists label, status_label = Some label /\ label <> [] /\
                str_lower label = str_lower required.
Proof.
  unfold label_matches. destruct status_label as [[|c l]|].
  - split; [discriminate | intros (label & E & Hne & _)].
    injection E as <-. destruct (Hne eq_refl).
  - rewrite str_eqb_eq. split.
    + intros E. exists (c :: l). repeat split; [discriminate | exact E].
    + intros (label & E & _ & Hl). injection E as <-. exact Hl.
  - split; [discriminate | intros (label & E & _); discriminate E].
Qed.

Lemma date_matches_spec (open_date_str : option pystr) (month : pystr) :
  date_matches open_date_str month = true <->
  exists date, open_date_str = Some date /\ date <> [] /\
               exists pre suf, date = pre ++ month ++ suf.
Proof.
  unfold date_matches. destruct open_date_str as [[|c d]|].
  - split; [discriminate | intros (date & E & Hne & _)].
    injection E as <-. destruct (Hne eq_refl).
  - rewrite contains_spec. split.
    + intros Hc. exists (c :: d). repeat split; [discriminate | exact Hc].
    + intros (date & E & _ & Hc). injection E as <-. exact Hc.
  - split; [discriminate | intros (date & E & _); discriminate E].
Qed.

Lemma filter_loop_unfold (args : Args.t) (config : Config.t) (item : Item.t)
    (rest filtered_items : list Item.t) (printed : list Output) :
  fst (filter_loop args config (item :: rest) filtered_items printed) =
  if label_matches (fst (scan_columns (Config.status config) (Config.date_filter config)
                                      (Item.column_values item)))
                   (Config.status_label_required config)
     && date_matches (snd (scan_columns (Config.status config) (Config.date_filter config)
                                        (Item.column_values item)))
                     (Args.month args)
  then
    let filtered_items' :=
      if 0 <? length (Item.assets item) then filtered_items ++ [item]
      else filtered_items in
    if Args.dry_run args
       && limit_reached (Config.max_items config) (length filtered_items')
    then filtered_items'
    else fst (filter_loop args config rest filtered_items'
                (if 0 <? length (Item.assets item)
                 then printed ++ [DebugFound (Item.name item)
                        (or_empty (snd (scan_columns (Config.status config)
                                          (Config.date_filter config)
                                          (Item.column_values item))))
                        (Args.month args) (length (Item.assets item))]
                 else printed ++ [DebugSkipping (Item.name item)]))
  else fst (filter_loop args config rest filtered_items printed).
Proof.
  simpl.
  destruct (scan_columns _ _ _) as [status_label open_date_str]. simpl.
  destruct (label_matches _ _); simpl; [|reflexivity].
  destruct (date_matches _ _); simpl; [|reflexivity].
  destruct (0 <? length (Item.assets item)); simpl;
    destruct (Args.dry_run args && limit_reached _ _); reflexivity.
Qed.

(** In every mode the loop returns a prefix of the qualifying items. *)
Lemma filter_loop_prefix (args : Args.t) (config : Config.t) (all_items : list Item.t) :
  forall filtered_items printed,
  exists k,
    fst (filter_loop args config all_items filtered_items printed) =
    filtered_items ++ firstn k (filter (qualifies config (Args.month args)) all_items).
Proof.
  induction all_items as [|item rest IH]; intros acc printed.
  - exists 0. simpl. rewrite app_nil_r. reflexivity.
  - rewrite filter_loop_unfold. simpl filter. unfold qualifies at 1.
    destruct (label_matches _ _ && date_matches _ _); simpl.
    + destruct (0 <? length (Item.assets item)); simpl.
      * destruct (Args.dry_run args && limit_reached _ _).
        -- exists 1. reflexivity.
        -- destruct (IH (acc ++ [item])
                        (printed ++ [DebugFound (Item.name item)
                           (or_empty (snd (scan_columns (Config.status config)
                                             (Config.date_filter config)
                                             (Item.column_values item))))
                           (Args.month args) (length (Item.assets item))]))
             as (k & Hk).
           exists (S k). rewrite Hk, <- app_assoc. reflexivity.
      * destruct (Args.dry_run args && limit_reached _ _).
        -- exists 0. simpl. rewrite app_nil_r. reflexivity.
        -- apply IH.
    + apply IH.
Qed.

Lemma limit_not_in_force (args : Args.t) (config : Config.t) (n : nat) :
  limit_in_force args config = false ->
  Args.dry_run args && limit_reached (Config.max_items config) n = false.
Proof.
  unfold limit_in_force, limit_reached.
  destruct (Args.dry_run args); simpl; [|reflexivity].
  destruct (Config.max_items config) as [m|]; [|reflexivity].
  intros ->. reflexivity.
Qed.

Lemma filter_loop_unlimited (args : Args.t) (config : Config.t) (all_items : list Item.t) :
  limit_in_force args config = false ->
  forall filtered_items printed,
    fst (filter_loop args config all_items filtered_items printed) =
    filtered_items ++ filter (qualifies config (Args.month args)) all_items.
Proof.
  intros Hoff.
  induction all_items as [|item rest IH]; intros acc printed.
  - simpl. rewrite app_nil_r. reflexivity.
  - rewrite filter_loop_unfold. simpl filter. unfold qualifies at 1.
    destruct (label_matches _ _ && date_matches _ _); simpl; [|apply IH].
    rewrite (limit_not_in_force _ _ _ Hoff).
    destruct (0 <? length (Item.assets item)); simpl.
    + rewrite IH, <- app_assoc. reflexivity.
    + apply IH.
Qed.

Lemma filter_loop_limited (args : Args.t) (config : Config.t) (m : Z)
    (all_items : list Item.t) :
  Args.dry_run args = true -> Config.max_items config = Some m ->
  forall filtered_items printed,
    (Z.of_nat (length filtered_items) < m)%Z ->
    fst (filter_loop args config all_items filtered_items printed) =
    filtered_items ++
      firstn (Z.to_nat m - length filtered_items)
             (filter (qualifies config (Args.month args)) all_items).
Proof.
  intros Hdry Hmax.
  induction all_items as [|item rest IH]; intros acc printed Hlt.
  - simpl. rewrite firstn_nil, app_nil_r. reflexivity.
  - rewrite filter_loop_unfold. simpl filter. unfold qualifies at 1.
    destruct (label_matches _ _ && date_matches _ _); simpl; [|apply IH, Hlt].
    rewrite Hdry, Hmax. simpl andb. unfold limit_reached.
    destruct (0 <? length (Item.assets item)); simpl.
    + rewrite length_app. simpl length.
      replace (negb (m =? 0)%Z) with true
        by (symmetry; apply negb_true_iff, Z.eqb_neq; lia).
      simpl andb.
      destruct (m <=? Z.of_nat (length acc + 1))%Z eqn:E.
      * apply Z.leb_le in E.
        replace (Z.to_nat m - length acc) with 1 by lia. reflexivity.
      * apply Z.leb_gt in E.
        rewrite IH by (rewrite length_app; simpl; lia).
        rewrite length_app. simpl length.
        replace (Z.to_nat m - length acc) with (S (Z.to_nat m - (length acc + 1))) by lia.
        simpl. rewrite <- app_assoc. reflexivity.
    + replace (negb (m =? 0)%Z && (m <=? Z.of_nat (length acc))%Z) with false
        by (symmetry; apply andb_false_iff; right; apply Z.leb_gt; lia).
      apply IH, Hlt.
Qed.

(** C4, as the code has it: an item qualifies when its status text is
    non-empty and equals the required label up to case, its date text is
    non-empty and contains the month, and it has an attachment.  The
    filter returns the qualifying items in their input order: all of
    them, unless the run is a dry run with a [max_items] limit, where it
    returns a prefix of them (the first [max_items] for a positive
    limit). *)
Theorem filter_items_keeps_qualifying_in_order :
  forall (args : Args.t) (config : Config.t) (all_items : list Item.t),
    let keep := qualifies config (Args.month args) in
    Forall (fun item =>
              keep item = true <->
              (exists label,
                 fst (scan_columns (Config.status config) (Config.date_filter config)
                                   (Item.column_values item)) = Some label /\
                 label <> [] /\
                 str_lower label = str_lower (Config.status_label_required config)) /\
              (exists date,
                 snd (scan_columns (Config.status config) (Config.date_filter config)
                                   (Item.column_values item)) = Some date /\
                 date <> [] /\
                 exists pre suf, date = pre ++ Args.month args ++ suf) /\
              Item.assets item <> [])
           all_items /\
    (exists k, filter_items args config all_items = firstn k (filter keep all_items)) /\
    (limit_in_force args config = false ->
     filter_items args config all_items = filter keep all_items) /\
    (forall m, Args.dry_run args = true -> Config.max_items config = Some m ->
               (0 < m)%Z ->
               filter_items args config all_items =
               firstn (Z.to_nat m) (filter keep all_items)).
Proof.
  intros args config all_items keep.
  split; [|split; [|split]].
  - apply Forall_forall. intros item _. unfold keep, qualifies.
    rewrite !andb_true_iff, label_matches_spec, date_matches_spec, Nat.ltb_lt.
    assert (Hlen : 0 < length (Item.assets item) <-> Item.assets item <> []).
    { destruct (Item.assets item); simpl; split; intros; try lia; congruence. }
    rewrite Hlen. tauto.
  - apply (filter_loop_prefix args config all_items [] []).
  - intros Hoff. unfold filter_items.
    rewrite (filter_loop_unlimited _ _ _ Hoff). reflexivity.
  - intros m Hdry Hmax Hpos. unfold filter_items.
    rewrite (filter_loop_limited _ _ _ _ Hdry Hmax) by (simpl; lia).
    simpl. rewrite Nat.sub_0_r. reflexivity.
Qed.

End Filter.

(** The theorem at the sample board: a full run keeps A, B and C; a dry
    run limited to one item keeps A. *)
Lemma filter_items_sample :
  @filter_items ascii_runtime (Sample.args false) Sample.config Sample.board =
    [Sample.item_A; Sample.item_B; Sample.item_C] /\
  @filter_items ascii_runtime (Sample.args true) Sample.config_limited Sample.board =
    [Sample.item_A].
Proof.
  pose proof (@filter_items_keeps_qualifying_in_order ascii_runtime
                (Sample.args false) Sample.config Sample.board) as Hfull.
  pose proof (@filter_items_keeps_qualifying_in_order ascii_runtime
                (Sample.args true) Sample.config_limited Sample.board) as Hdry.
  split.
  - rewrite (proj1 (proj2 (proj2 Hfull)) eq_refl). reflexivity.
  - rewrite (proj2 (proj2 (proj2 Hdry)) 1%Z eq_refl eq_refl eq_refl). reflexivity.
Defined.

(** C4 as stated fails: in a dry run with [max_items: 1] the filter stops
    after the first qualifying item and leaves out B and C. *)
Lemma filter_items_is_claimed_subsequence_fails :
  @filter_items ascii_runtime (Sample.args true) Sample.config_limited Sample.board <>
  filter (@claimed_keep ascii_runtime Sample.config_limited (py "2024-06")) Sample.board.
Proof.
  intros E. vm_compute in E. discriminate E.
Qed.

(* ------------------------------------------------------------------ *)
(** * The retrying client *)

Lemma graphql_body_eq (req : Request) (env : Env) (w : World) :
  graphql_body req env w =
  (outcome_of (api env (http_posts w) req), set_http_posts (S (http_posts w)) w).
Proof.
  unfold graphql_body, bind, httpx_post, raise, ret, outcome_of.
  destruct (api env (http_posts w) req) as [| code | | [errors|] [data|]]; reflexivity.
Qed.

Lemma outcome_retry (r : HttpReply) :
  match outcome_of r with
  | Raise e => retry_if e = is_status_error r
  | _ => is_status_error r = false
  end.
Proof.
  destruct r as [| code | | [errors|] [data|]]; reflexivity.
Qed.

Lemma retrying_graphql (req : Request) (env : Env) :
  forall remaining attempt_number w,
    let r := retrying remaining attempt_number (graphql_body req) env w in
    exists n,
      1 <= n <= S remaining /\
      http_posts (snd r) = http_posts w + n /\
      sleeps (snd r) = sleeps w ++ map wait_exponential (seq attempt_number (n - 1)) /\
      (forall k, k < n - 1 -> is_status_error (api env (http_posts w + k) req) = true) /\
      (is_status_error (api env (http_posts w + (n - 1)) req) = true -> n = S remaining) /\
      fst r = (if is_status_error (api env (http_posts w + (n - 1)) req)
               then Raise RetryError
               else outcome_of (api env (http_posts w + (n - 1)) req)) /\
      same_outputs w (snd r) /\ stdout (snd r) = stdout w.
Proof.
  induction remaining as [|remaining IH]; intros a w r.
  - exists 1. unfold r. simpl. rewrite graphql_body_eq.
    replace (http_posts w + 0) with (http_posts w) by lia.
    pose proof (outcome_retry (api env (http_posts w) req)) as Hr.
    destruct (outcome_of (api env (http_posts w) req)) as [d|e|] eqn:E.
    + rewrite Hr. simpl. rewrite app_nil_r.
      repeat split; try lia; try reflexivity; try discriminate.
    + rewrite Hr. destruct (is_status_error _); simpl; rewrite app_nil_r;
        repeat split; try lia; try reflexivity; try discriminate.
    + rewrite Hr. simpl. rewrite app_nil_r.
      repeat split; try lia; try reflexivity; try discriminate.
  - unfold r. simpl. rewrite graphql_body_eq.
    pose proof (outcome_retry (api env (http_posts w) req)) as Hr.
    destruct (outcome_of (api env (http_posts w) req)) as [d|e|] eqn:E.
    + exists 1. replace (http_posts w + (1 - 1)) with (http_posts w) by lia.
      rewrite Hr, E. simpl. rewrite app_nil_r.
      repeat split; try lia; try reflexivity; try discriminate.
    + rewrite Hr. destruct (is_status_error (api env (http_posts w) req)) eqn:Es.
      * unfold bind, sleep.
        set (w2 := set_sleeps _ _).
        destruct (IH (S a) w2) as (n & Hn & Hp & Hs & Hall & Hlast & Hres & Hsame & Hout).
        exists (S n).
        replace (S n - 1) with n by lia.
        assert (Hidx : forall k, http_posts w2 + k = http_posts w + S k)
          by (intros k; unfold w2; simpl; lia).
        rewrite Hidx in Hlast, Hres.
        replace (http_posts w + n) with (http_posts w + S (n - 1)) by lia.
        split; [lia|]. split; [rewrite Hp; unfold w2; simpl; lia|].
        split.
        { rewrite Hs. unfold w2. simpl. rewrite <- app_assoc. simpl.
          destruct n as [|n']; [lia|]. simpl. rewrite Nat.sub_0_r. reflexivity. }
        split.
        { intros k Hk. destruct k as [|k].
          - replace (http_posts w + 0) with (http_posts w) by lia. exact Es.
          - rewrite <- Hidx. apply Hall. lia. }
        split; [intros Hse; f_equal; apply Hlast, Hse|].
        split; [exact Hres|].
        split; [|rewrite Hout; reflexivity].
        destruct Hsame as (H1 & H2 & H3 & H4).
        repeat split; [rewrite H1 | rewrite H2 | rewrite H3 | rewrite H4]; reflexivity.
      * exists 1. replace (http_posts w + (1 - 1)) with (http_posts w) by lia.
        rewrite Es, E. simpl. rewrite app_nil_r.
        repeat split; try lia; try reflexivity; try discriminate.
    + exists 1. replace (http_posts w + (1 - 1)) with (http_posts w) by lia.
      rewrite Hr, E. simpl. rewrite app_nil_r.
      repeat split; try lia; try reflexivity; try discriminate.
Qed.

(** C5: a query makes between one and five attempts; before each new
    attempt it sleeps 1, 2, 4, 8 seconds; every attempt but the last got an
    HTTP status error, the only condition retried; any other failure, such
    as an "errors" member in the reply, ends the query at that attempt with
    that exception; five status errors end it with tenacity's
    [RetryError]. *)
Theorem graphql_retries_status_errors_only :
  forall (env : Env) (w : World) (req : Request),
    let r := graphql req env w in
    let reply := fun k => api env (http_posts w + k) req in
    exists attempts,
      1 <= attempts <= 5 /\
      http_posts (snd r) = http_posts w + attempts /\
      sleeps (snd r) = sleeps w ++ firstn (attempts - 1) [1; 2; 4; 8]%N /\
      Forall (fun k => is_status_error (reply k) = true) (seq 0 (attempts - 1)) /\
      (is_status_error (reply (attempts - 1)) = true -> attempts = 5) /\
      fst r = (if is_status_error (reply (attempts - 1))
               then Raise RetryError
               else outcome_of (reply (attempts - 1))) /\
      (forall errors data,
         reply (attempts - 1) = ReplyJson (Some errors) data ->
         fst r = Raise (GenericException errors)) /\
      (forall errors data,
         reply 0 = ReplyJson (Some errors) data ->
         attempts = 1 /\ sleeps (snd r) = sleeps w).
Proof.
  intros env w req r reply.
  destruct (retrying_graphql req env (stop_after_attempt - 1) 1 w)
    as (n & Hn & Hp & Hs & Hall & Hlast & Hres & _ & _).
  fold (graphql req) in Hp, Hs, Hres. fold r in Hp, Hs, Hres.
  change (S (stop_after_attempt - 1)) with 5 in *.
  exists n. split; [exact Hn|]. split; [exact Hp|].
  assert (Hsleep : sleeps (snd r) = sleeps w ++ firstn (n - 1) [1; 2; 4; 8]%N).
  { rewrite Hs. f_equal.
    assert (Hc : n = 1 \/ n = 2 \/ n = 3 \/ n = 4 \/ n = 5) by lia.
    destruct Hc as [->|[->|[->|[->| ->]]]]; reflexivity. }
  split; [exact Hsleep|].
  split; [apply Forall_forall; intros k Hk; apply in_seq in Hk; apply Hall; lia|].
  split; [exact Hlast|]. split; [exact Hres|]. split.
  - intros errors data E. rewrite Hres. unfold reply in E. rewrite E. reflexivity.
  - intros errors data E.
    assert (n = 1).
    { destruct (Nat.eq_dec n 1) as [|Hne]; [assumption|].
      assert (H0 : is_status_error (api env (http_posts w + 0) req) = true)
        by (apply Hall; lia).
      unfold reply in E. rewrite E in H0. discriminate H0. }
    subst n. split; [reflexivity|]. rewrite Hsleep. simpl. apply app_nil_r.
Qed.

(* ------------------------------------------------------------------ *)
(** * download_asset *)

Section Download.
Context `{PyRuntime}.

Lemma exists_in_written (p : pystr) (c : FileContent) (w : World) :
  exists_in (set_files ((p, c) :: files w) w) p = true.
Proof.
  unfold exists_in. simpl. rewrite str_eqb_refl. reflexivity.
Qed.

(** What [download_asset] does, case by case. *)
Lemma download_asset_eq (asset : Asset.t) (out_dir : pystr) (env : Env) (w : World) :
  download_asset asset out_dir env w =
  let path := download_path asset out_dir in
  let fail e w' :=
    (Ok None, logged (LogEvent None (Some (Asset.id asset)) (py "download")
                               (py "fail") (Some (WarnExn e))) w') in
  if exists_in w path then (Ok (Some path), w)
  else
    match Asset.public_url asset with
    | None => fail TypeError w
    | Some u =>
        let w1 := set_http_gets (http_gets w ++ [u]) w in
        match url_content env u with
        | GetNoResponse => fail TransportError w1
        | GetStatusError code => fail (HTTPStatusError code) w1
        | GetOk content =>
            if can_write env path
            then (Ok (Some path),
                  logged (LogEvent None (Some (Asset.id asset)) (py "download")
                                   (py "success") None)
                         (set_files ((path, RawBytes content) :: files w1) w1))
            else fail OSError w1
        end
    end.
Proof.
  unfold download_asset, bind, path_exists, try_except, httpx_get, write_file,
    log_event, print, ret, logged.
  cbv zeta.
  destruct (exists_in w (download_path asset out_dir)); [reflexivity|].
  destruct (Asset.public_url asset) as [u|]; [|reflexivity].
  destruct (url_content env u) as [| code | content]; try reflexivity.
  simpl. destruct (can_write env (download_path asset out_dir)); reflexivity.
Qed.

(** A successful download leaves its destination behind. *)
Lemma download_asset_leaves_file (asset : Asset.t) (out_dir : pystr)
    (env : Env) (w w' : World) (p : pystr) :
  download_asset asset out_dir env w = (Ok (Some p), w') ->
  p = download_path asset out_dir /\ exists_in w' p = true.
Proof.
  rewrite download_asset_eq. cbv zeta.
  destruct (exists_in w (download_path asset out_dir)) eqn:E.
  - intros H0. inversion H0; subst. auto.
  - destruct (Asset.public_url asset) as [u|]; [|discriminate].
    destruct (url_content env u) as [| code | content]; try discriminate.
    destruct (can_write env (download_path asset out_dir)); [|discriminate].
    intros H0. inversion H0; subst. split; [reflexivity|].
    unfold exists_in, logged. simpl. rewrite str_eqb_refl. reflexivity.
Qed.

(** C7: when the destination [<out_dir>/<id>-<sanitizedName>.<ext>]
    exists, [download_asset] returns it and changes nothing: no request,
    no write, not even a log line.  So a download that returned a path is
    not repeated by a second call, whatever the network does then. *)
Theorem download_asset_existing_is_noop :
  forall (asset : Asset.t) (out_dir : pystr) (env : Env) (w : World),
    download_path asset out_dir = pathlib_join out_dir (download_filename asset) /\
    (exists_in w (download_path asset out_dir) = true ->
     download_asset asset out_dir env w =
     (Ok (Some (download_path asset out_dir)), w)) /\
    (forall p w1,
       download_asset asset out_dir env w = (Ok (Some p), w1) ->
       forall env', download_asset asset out_dir env' w1 = (Ok (Some p), w1)).
Proof.
  intros asset out_dir env w.
  assert (Hnoop : forall env0 w0,
            exists_in w0 (download_path asset out_dir) = true ->
            download_asset asset out_dir env0 w0 =
            (Ok (Some (download_path asset out_dir)), w0)).
  { intros env0 w0 Hthere. rewrite download_asset_eq. cbv zeta.
    rewrite Hthere. reflexivity. }
  split; [reflexivity|]. split; [apply Hnoop|].
  intros p w1 Hrun env'.
  destruct (download_asset_leaves_file _ _ _ _ _ _ Hrun) as [-> Hthere].
  apply Hnoop, Hthere.
Qed.

End Download.

(** The theorem at the sample: the report of ticket A is there, the file
    server is down, and the download returns the path without a request. *)
Lemma download_asset_existing_sample :
  @download_asset ascii_runtime Sample.report_pdf (py "dl/2024-06/100")
                  Sample.env_offline Sample.world_with_report =
  (Ok (Some (py "dl/2024-06/100/1-report_pdf.pdf")), Sample.world_with_report).
Proof.
  exact (proj1 (proj2 (@download_asset_existing_is_noop ascii_runtime
                         Sample.report_pdf (py "dl/2024-06/100")
                         Sample.env_offline Sample.world_with_report))
               eq_refl).
Defined.

(* ------------------------------------------------------------------ *)
(** * download failures and the conversion loop *)

Section DownloadFailure.
Context `{PyRuntime}.



End DownloadFailure.


(* ------------------------------------------------------------------ *)
(** * to_pdf *)

Section Convert.
Context `{PyRuntime}.

Lemma subprocess_no_fuel (tool : Tool) (path_in out : pystr) (env : Env) (w : World) :
  fst (subprocess tool path_in out env w) <> OutOfFuel.
Proof.
  unfold subprocess.
  destruct (subprocess_run env tool path_in) as [[|] | | |]; discriminate.
Qed.

Lemma convert_strategy_no_fuel (path_in ext out_dir path_pdf : pystr)
    (prefer_libreoffice html_enabled : bool) (env : Env) (w : World) :
  fst (convert_strategy path_in ext out_dir path_pdf prefer_libreoffice
                        html_enabled env w) <> OutOfFuel.
Proof.
  unfold convert_strategy.
  destruct (str_eqb ext (py "pdf")).
  { unfold shutil_copy, bind, raise, read_file, write_file.
    destruct (str_eqb path_in path_pdf); [discriminate|].
    destruct (lookup path_in (files w)); [|discriminate].
    destruct (can_write env path_pdf); discriminate. }
  destruct (mem ext _ && prefer_libreoffice); [apply subprocess_no_fuel|].
  destruct (mem ext _).
  { unfold bind, write_file, img2pdf.
    destruct (can_write env path_pdf); [|discriminate]. simpl.
    match goal with
    | |- context [match ?x with Some _ => _ | None => _ end] => destruct x
    end; [|discriminate].
    destruct (img2pdf_convert env path_in); discriminate. }
  destruct (str_eqb ext (py "html") && html_enabled); [apply subprocess_no_fuel|].
  unfold placeholder, write_file.
  destruct (can_write env path_pdf); discriminate.
Qed.

(** What [to_pdf] does once the input is there. *)
Lemma to_pdf_present (c : N) (p' ext out_dir : pystr) (env : Env) (w : World) :
  let p := c :: p' in
  let path_pdf := pdf_path_for p out_dir in
  exists_in w p = true ->
  to_pdf (Some p) ext out_dir env w =
  match convert_strategy p (lstrip DOT (str_lower ext)) out_dir path_pdf
                         true false env w with
  | (Ok _, w1) =>
      (Ok (Some path_pdf),
       logged (LogEvent None (Some (os_path_basename p)) (py "convert")
                        (py "success") None) w1)
  | (Raise e, w1) =>
      let w2 := logged (LogEvent None (Some (os_path_basename p)) (py "convert")
                                 (py "fail") (Some (WarnExn e))) w1 in
      if can_write env path_pdf
      then (Ok (Some path_pdf),
            set_files ((path_pdf, PlaceholderPdf (os_path_basename p) ConversionFailed)
                         :: files w2) w2)
      else (Raise OSError, w2)
  | (OutOfFuel, w1) => (OutOfFuel, w1)
  end.
Proof.
  intros p path_pdf Hthere. subst p path_pdf.
  unfold to_pdf, to_pdf_with.
  unfold bind at 1. unfold path_exists. rewrite Hthere.
  change (negb true) with false. cbv beta iota.
  unfold try_except, bind.
  destruct (convert_strategy (c :: p') _ out_dir _ true false env w)
    as [[u|e|] w1]; try reflexivity.
  unfold log_event, print, placeholder, write_file, logged, ret. simpl.
  destruct (can_write env _); reflexivity.
Qed.

Lemma to_pdf_absent (path_in : option pystr) (ext out_dir : pystr)
    (env : Env) (w : World) :
  input_present w path_in = false ->
  fst (to_pdf path_in ext out_dir env w) = Ok None.
Proof.
  unfold to_pdf, to_pdf_with, input_present.
  destruct path_in as [[|c p]|]; try reflexivity.
  intros Hmissing. unfold bind at 1. unfold path_exists. rewrite Hmissing.
  reflexivity.
Qed.

(** With the defaults, a strategy that returns normally has left a file at
    the output path, unless the office converter exited with status 0
    without writing it. *)
Lemma convert_strategy_leaves_document (path_in ext out_dir path_pdf : pystr)
    (env : Env) (w w1 : World) (u : unit) :
  subprocess_run env Soffice path_in <> Exited0 false ->
  convert_strategy path_in ext out_dir path_pdf true false env w = (Ok u, w1) ->
  exists c, lookup path_pdf (files w1) = Some c.
Proof.
  intros Hsilent. unfold convert_strategy.
  rewrite andb_true_r, andb_false_r.
  destruct (str_eqb ext (py "pdf")).
  { unfold shutil_copy, bind, raise, read_file, write_file.
    destruct (str_eqb path_in path_pdf); [discriminate|].
    destruct (lookup path_in (files w)) as [c|]; [|discriminate].
    destruct (can_write env path_pdf); [|discriminate].
    intros E. inversion E; subst. exists c. simpl.
    rewrite str_eqb_refl. reflexivity. }
  destruct (mem ext [py "docx"; py "xlsx"; py "pptx"; py "csv"; py "txt"]).
  { unfold subprocess.
    destruct (subprocess_run env Soffice path_in) as [[|] | | |];
      try discriminate; [|congruence].
    intros E. inversion E; subst. eexists. simpl.
    rewrite str_eqb_refl. reflexivity. }
  destruct (mem ext [py "png"; py "jpg"; py "jpeg"; py "webp"]).
  { unfold bind, write_file, img2pdf.
    destruct (can_write env path_pdf); [|discriminate]. simpl.
    match goal with
    | |- context [match ?x with Some _ => _ | None => _ end] => destruct x
    end; [|discriminate].
    destruct (img2pdf_convert env path_in); [|discriminate].
    intros E. inversion E; subst. eexists. simpl.
    rewrite str_eqb_refl. reflexivity. }
  unfold placeholder, write_file.
  destruct (can_write env path_pdf); [|discriminate].
  intros E. inversion E; subst. eexists. simpl.
  rewrite str_eqb_refl. reflexivity.
Qed.

(** The office converter exits with status 0 and writes nothing: the
    strategy returns normally, and only the run of the tool is recorded. *)
Lemma convert_strategy_silent_exit (path_in ext out_dir path_pdf : pystr)
    (env : Env) (w : World) :
  str_eqb ext (py "pdf") = false ->
  mem ext [py "docx"; py "xlsx"; py "pptx"; py "csv"; py "txt"] = true ->
  subprocess_run env Soffice path_in = Exited0 false ->
  convert_strategy path_in ext out_dir path_pdf true false env w =
  (Ok tt, set_tool_runs (tool_runs w ++ [(Soffice, path_in)]) w).
Proof.
  intros Hpdf Hoffice Hexit. unfold convert_strategy.
  rewrite Hpdf, Hoffice. simpl. unfold subprocess. rewrite Hexit. reflexivity.
Qed.

(** C3, as the code has it: [to_pdf] returns [None] exactly when the input
    path is missing or does not exist.  Otherwise it returns the output
    path or raises [OSError]; it returns the output path whenever that path
    can be written.  A document lies at the returned path unless the
    office converter exited with status 0 without writing its output: then
    [to_pdf] still returns the path, and has written no file.  When the
    chosen strategy fails, by a timeout or otherwise, and the output path
    can be written, the document at the returned path is the placeholder
    that names the file and says that the conversion failed; when the
    output path cannot be written, writing the placeholder fails too and
    [to_pdf] raises. *)
Theorem to_pdf_none_iff_missing_else_path_or_oserror :
  forall (path_in : option pystr) (ext out_dir : pystr) (env : Env) (w : World),
    let r := to_pdf path_in ext out_dir env w in
    (fst r = Ok None <-> input_present w path_in = false) /\
    (forall p, path_in = Some p -> input_present w path_in = true ->
       let path_pdf := pdf_path_for p out_dir in
       let ext' := lstrip DOT (str_lower ext) in
       (fst r = Ok (Some path_pdf) \/ fst r = Raise OSError) /\
       (can_write env path_pdf = true -> fst r = Ok (Some path_pdf)) /\
       (forall e w1,
          convert_strategy p ext' out_dir path_pdf true false env w = (Raise e, w1) ->
          if can_write env path_pdf
          then fst r = Ok (Some path_pdf) /\
               lookup path_pdf (files (snd r)) =
                 Some (PlaceholderPdf (os_path_basename p) ConversionFailed)
          else fst r = Raise OSError) /\
       (can_write env path_pdf = true ->
        subprocess_run env Soffice p <> Exited0 false ->
        exists c, lookup path_pdf (files (snd r)) = Some c) /\
       (str_eqb ext' (py "pdf") = false ->
        mem ext' [py "docx"; py "xlsx"; py "pptx"; py "csv"; py "txt"] = true ->
        subprocess_run env Soffice p = Exited0 false ->
        fst r = Ok (Some path_pdf) /\ files (snd r) = files w)).
Proof.
  intros path_in ext out_dir env w r.
  assert (Hpresent : forall p, path_in = Some p -> input_present w path_in = true ->
            let path_pdf := pdf_path_for p out_dir in
            let ext' := lstrip DOT (str_lower ext) in
            (fst r = Ok (Some path_pdf) \/ fst r = Raise OSError) /\
            (can_write env path_pdf = true -> fst r = Ok (Some path_pdf)) /\
            (forall e w1,
               convert_strategy p ext' out_dir path_pdf true false env w
                 = (Raise e, w1) ->
               if can_write env path_pdf
               then fst r = Ok (Some path_pdf) /\
                    lookup path_pdf (files (snd r)) =
                      Some (PlaceholderPdf (os_path_basename p) ConversionFailed)
               else fst r = Raise OSError) /\
            (can_write env path_pdf = true ->
             subprocess_run env Soffice p <> Exited0 false ->
             exists c, lookup path_pdf (files (snd r)) = Some c) /\
            (str_eqb ext' (py "pdf") = false ->
             mem ext' [py "docx"; py "xlsx"; py "pptx"; py "csv"; py "txt"] = true ->
             subprocess_run env Soffice p = Exited0 false ->
             fst r = Ok (Some path_pdf) /\ files (snd r) = files w)).
  { intros p -> Hin path_pdf ext'.
    destruct p as [|c p']; [discriminate Hin|]. simpl in Hin.
    pose proof (to_pdf_present c p' ext out_dir env w Hin) as Hrun.
    cbv zeta in Hrun. fold path_pdf ext' in Hrun.
    match type of Hrun with
    | _ = ?rhs => assert (Hr : r = rhs) by exact Hrun
    end.
    clearbody r. rewrite Hr. clear Hrun Hr.
    pose proof (convert_strategy_no_fuel (c :: p') ext'
                  out_dir path_pdf true false env w) as Hfuel.
    pose proof (convert_strategy_leaves_document (c :: p') ext' out_dir path_pdf
                  env w) as Hdoc.
    pose proof (convert_strategy_silent_exit (c :: p') ext' out_dir path_pdf
                  env w) as Hquiet.
    destruct (convert_strategy (c :: p') ext' out_dir path_pdf true false env w)
      as [[u|e|] w1]; simpl in Hfuel; [| |congruence].
    - split; [left; reflexivity|]. split; [reflexivity|].
      split; [discriminate|]. split.
      + intros _ Hsilent. destruct (Hdoc w1 u Hsilent eq_refl) as [d Hd].
        exists d. simpl. exact Hd.
      + intros Hpdf Hoffice Hexit. split; [reflexivity|].
        specialize (Hquiet Hpdf Hoffice Hexit). inversion Hquiet. reflexivity.
    - cbv zeta. destruct (can_write env path_pdf) eqn:Ewrite.
      + split; [left; reflexivity|]. split; [reflexivity|]. split.
        * intros e' w1' Heq. inversion Heq; subst. split; [reflexivity|].
          simpl. rewrite str_eqb_refl. reflexivity.
        * split.
          -- intros _ _. eexists. simpl. rewrite str_eqb_refl. reflexivity.
          -- intros Hpdf Hoffice Hexit.
             specialize (Hquiet Hpdf Hoffice Hexit). discriminate Hquiet.
      + split; [right; reflexivity|]. split; [discriminate|]. split.
        * intros e' w1' Heq. reflexivity.
        * split; [discriminate|].
          intros Hpdf Hoffice Hexit.
          specialize (Hquiet Hpdf Hoffice Hexit). discriminate Hquiet. }
  split; [|exact Hpresent].
  split; [|apply to_pdf_absent].
  intros Hnone. destruct (input_present w path_in) eqn:Hin; [|reflexivity].
  destruct path_in as [p|]; [|discriminate Hin].
  destruct (Hpresent p eq_refl eq_refl) as ([Hr|Hr] & _); rewrite Hr in Hnone;
    discriminate Hnone.
Qed.

End Convert.

(** The theorem at the sample: the office converter times out on the Word
    document, and [to_pdf] returns the path of a placeholder. *)
Lemma to_pdf_timeout_sample :
  let r := @to_pdf ascii_runtime (Some Sample.notes_docx) (py "docx")
                   (py "dl/2024-06/100/converted")
                   Sample.env_timeout Sample.world_with_notes in
  fst r = Ok (Some (py "dl/2024-06/100/converted/9-notes_docx.pdf")) /\
  lookup (py "dl/2024-06/100/converted/9-notes_docx.pdf") (files (snd r)) =
    Some (PlaceholderPdf (py "9-notes_docx.docx") ConversionFailed).
Proof.
  exact (proj1 (proj2 (proj2 (proj2 (@to_pdf_none_iff_missing_else_path_or_oserror
                                ascii_runtime (Some Sample.notes_docx) (py "docx")
                                (py "dl/2024-06/100/converted")
                                Sample.env_timeout Sample.world_with_notes)
                             Sample.notes_docx eq_refl eq_refl)))
               TimeoutExpired
               (set_tool_runs [(Soffice, Sample.notes_docx)] Sample.world_with_notes)
               eq_refl).
Defined.

(** C3 as stated fails: where the output cannot be written, copying the
    PDF fails, writing the placeholder fails too, and [to_pdf] raises
    instead of returning a path. *)
Lemma to_pdf_never_raises_fails :
  let r := @to_pdf ascii_runtime (Some (py "dl/2024-06/100/1-report_pdf.pdf"))
                   (py "pdf") (py "dl/2024-06/100/converted")
                   Sample.env_readonly Sample.world_with_report in
  fst r = Raise OSError /\ ~ (exists path, fst r = Ok path).
Proof.
  split; [reflexivity|]. intros (path & Hp). discriminate Hp.
Qed.

(* ------------------------------------------------------------------ *)
(** * Frame rules *)

Section Preserves.
Variable R : World -> World -> Prop.
Hypothesis R_refl : forall w, R w w.
Hypothesis R_trans : forall a b c, R a b -> R b c -> R a c.

Lemma preserves_ret {A} (a : A) : preserves R (ret a).
Proof. intros env w. apply R_refl. Qed.

Lemma preserves_raise {A} (e : exn) : preserves R (@raise A e).
Proof. intros env w. apply R_refl. Qed.

Lemma preserves_lift {A} (r : result A) : preserves R (lift r).
Proof. intros env w. apply R_refl. Qed.

Lemma preserves_out_of_fuel {A} :
  preserves R (fun (_ : Env) (w : World) => (@OutOfFuel A, w)).
Proof. intros env w. apply R_refl. Qed.

Lemma preserves_path_exists (p : pystr) : preserves R (path_exists p).
Proof. intros env w. apply R_refl. Qed.

Lemma preserves_bind {A B} (m : M A) (k : A -> M B) :
  preserves R m -> (forall a, preserves R (k a)) -> preserves R (bind m k).
Proof.
  intros Hm Hk env w. unfold bind.
  specialize (Hm env w).
  destruct (m env w) as [[a|e|] w1]; simpl in *; try exact Hm.
  eapply R_trans; [exact Hm | apply Hk].
Qed.

Lemma preserves_try_except {A} (body : M A) (handler : exn -> M A) :
  preserves R body -> (forall e, preserves R (handler e)) ->
  preserves R (try_except body handler).
Proof.
  intros Hm Hh env w. unfold try_except.
  specialize (Hm env w).
  destruct (body env w) as [[a|e|] w1]; simpl in *; try exact Hm.
  eapply R_trans; [exact Hm | apply Hh].
Qed.

Lemma preserves_for_each {A S} (body : S -> A -> M S) (l : list A) :
  (forall s a, preserves R (body s a)) ->
  forall s, preserves R (for_each body l s).
Proof.
  intros Hbody. induction l as [|a l IH]; intros s; simpl.
  - apply preserves_ret.
  - apply preserves_bind; [apply Hbody | exact IH].
Qed.

Lemma preserves_retrying {A} (call : M A) :
  preserves R call -> (forall n, preserves R (sleep n)) ->
  forall remaining attempt_number,
    preserves R (retrying remaining attempt_number call).
Proof.
  intros Hcall Hsleep.
  induction remaining as [|remaining IH]; intros a env w; simpl;
    specialize (Hcall env w);
    destruct (call env w) as [[x|e|] w1]; simpl in *; try exact Hcall;
    destruct (retry_if e); simpl; try exact Hcall.
  eapply R_trans; [exact Hcall|].
  apply (preserves_bind (sleep (wait_exponential a))
                        (fun _ => retrying remaining (S a) call));
    [apply Hsleep | intros _; apply IH].
Qed.

End Preserves.

Lemma same_outputs_refl (w : World) : same_outputs w w.
Proof. repeat split. Qed.

Lemma same_outputs_trans (a b c : World) :
  same_outputs a b -> same_outputs b c -> same_outputs a c.
Proof.
  intros (H1 & H2 & H3 & H4) (G1 & G2 & G3 & G4).
  repeat split; congruence.
Qed.

Lemma quiet_print (o : Output) : quiet (print o).
Proof. intros env w. repeat split. Qed.

Lemma quiet_sleep (n : N) : quiet (sleep n).
Proof. intros env w. repeat split. Qed.

Lemma quiet_httpx_post (req : Request) : quiet (httpx_post req).
Proof. intros env w. repeat split. Qed.

(** One step of a frame proof for [quiet]. *)
Ltac quiet_step :=
  first
    [ apply (preserves_ret same_outputs same_outputs_refl)
    | apply (preserves_raise same_outputs same_outputs_refl)
    | apply (preserves_lift same_outputs same_outputs_refl)
    | apply (preserves_out_of_fuel same_outputs same_outputs_refl)
    | apply quiet_print
    | apply quiet_sleep
    | apply quiet_httpx_post
    | apply (preserves_for_each same_outputs same_outputs_refl same_outputs_trans);
      intros ? ?
    | apply (preserves_bind same_outputs same_outputs_trans); [|intros ?]
    | match goal with
      | |- preserves _ (match ?x with _ => _ end) => destruct x
      end ].

Lemma quiet_graphql (req : Request) : quiet (graphql req).
Proof.
  unfold quiet, graphql.
  apply (preserves_retrying same_outputs same_outputs_trans);
    [|apply quiet_sleep].
  unfold graphql_body. repeat quiet_step.
Qed.

Lemma quiet_fetch_rest (fuel : nat) :
  forall cursor all_items, quiet (fetch_rest fuel cursor all_items).
Proof.
  unfold quiet.
  induction fuel as [|fuel IH]; intros cursor all_items; simpl;
    destruct cursor as [[|c cur]|]; try solve [repeat quiet_step].
  apply (preserves_bind same_outputs same_outputs_trans);
    [apply quiet_graphql | intros next_page].
  apply (preserves_bind same_outputs same_outputs_trans);
    [quiet_step | intros fields]. apply IH.
Qed.

Lemma quiet_fetch_all (fuel : nat) (board_id : pystr) :
  quiet (fetch_all fuel board_id).
Proof.
  unfold quiet, fetch_all.
  apply (preserves_bind same_outputs same_outputs_trans);
    [apply quiet_graphql | intros items_data].
  apply (preserves_bind same_outputs same_outputs_trans);
    [quiet_step | intros fields]. apply quiet_fetch_rest.
Qed.

Lemma quiet_print_all (l : list Output) : quiet (print_all l).
Proof. unfold quiet, print_all. repeat quiet_step. Qed.

Section DryRun.
Context `{PyRuntime}.

Lemma quiet_verify (fuel : nat) (config : Config.t) (month : pystr)
    (found : FoundTickets_t) :
  quiet (verify_all_tickets_found fuel config month found).
Proof.
  unfold quiet, verify_all_tickets_found.
  quiet_step; [quiet_step|].
  quiet_step; [apply quiet_fetch_all|].
  quiet_step; [quiet_step|].
  cbv zeta.
  quiet_step; [quiet_step|].
  quiet_step; [quiet_step|].
  quiet_step; [quiet_step|].
  quiet_step; [|quiet_step].
  destruct (filter _ _); [quiet_step|].
  quiet_step; [quiet_step | apply quiet_print_all].
Qed.

Lemma quiet_dry_run_report (fuel : nat) (args : Args.t) (config : Config.t)
    (ticket_rows : list TicketRow.t) (attachment_map : AttachmentMap) :
  quiet (dry_run_report fuel args config ticket_rows attachment_map).
Proof.
  unfold quiet, dry_run_report.
  quiet_step; [quiet_step|].
  quiet_step; [quiet_step|].
  quiet_step.
  { destruct (shared_attachments attachment_map); [quiet_step|].
    quiet_step; [quiet_step | apply quiet_print_all]. }
  quiet_step; [apply quiet_print_all|].
  quiet_step; [apply quiet_verify | quiet_step].
Qed.

(** A dry run leaves files, directories, downloads and converter runs as
    they were, however it ends. *)
Lemma dry_run_writes_nothing (fuel : nat) (args : Args.t) (config : Config.t)
    (env : Env) (w : World) :
  Args.dry_run args = true ->
  same_outputs w (snd (main fuel args config env w)).
Proof.
  intros Hdry. revert env w. change (quiet (main fuel args config)).
  unfold quiet, main. rewrite Hdry.
  quiet_step; [quiet_step|].
  quiet_step; [apply quiet_graphql|].
  quiet_step; [quiet_step|].
  quiet_step; [quiet_step|].
  quiet_step; [apply quiet_fetch_all|].
  cbv zeta.
  quiet_step; [apply quiet_print_all|].
  apply quiet_dry_run_report.
Qed.

(** With at least one ticket row, the verification of a dry run never
    returns: subscripting the first [TicketRow] raises [TypeError], unless
    the retrieval before it already failed. *)
Lemma verify_rows_never_returns (fuel : nat) (config : Config.t) (month : pystr)
    (t : TicketRow.t) (rows : list TicketRow.t) (env : Env) (w : World) :
  forall b, fst (verify_all_tickets_found fuel config month (FoundRows (t :: rows))
                   env w) <> Ok b.
Proof.
  intros b. unfold verify_all_tickets_found, bind, print, lift. simpl.
  destruct (fetch_all fuel (Config.board_id config) env _) as [[items|e|] w1];
    simpl; discriminate.
Qed.

End DryRun.

(** C8: every dry run leaves files, directories, downloads and converter
    runs as they were.  Its verification pass, however, never returns when
    there is a ticket to report: on the sample board, which has three, the
    dry run prints its decisions, fetches the items again and ends in
    [TypeError] without a verdict.  The same pass given the filtered
    items themselves, as line 250 of a full run gives them, returns
    [True] and prints its verdict. *)
Theorem dry_run_writes_nothing_verification_raises :
  (forall (rt : PyRuntime) fuel args config env w,
     Args.dry_run args = true ->
     same_outputs w (snd (@main rt fuel args config env w))) /\
  (forall (rt : PyRuntime) fuel config month t rows env w b,
     fst (@verify_all_tickets_found rt fuel config month (FoundRows (t :: rows))
            env w) <> Ok b) /\
  (let r := @main ascii_runtime 1 (Sample.args true) Sample.config
                  Sample.env empty_world in
   fst r = Raise TypeError /\
   files (snd r) = [] /\ dirs (snd r) = [] /\
   http_gets (snd r) = [] /\ tool_runs (snd r) = [] /\
   last (stdout (snd r)) VerifyAllFound = VerifyTotal 6 /\
   existsb is_verdict (stdout (snd r)) = false) /\
  (let v := @verify_all_tickets_found ascii_runtime 1 Sample.config (py "2024-06")
              (FoundDicts (@filter_items ascii_runtime (Sample.args true)
                                         Sample.config Sample.board))
              Sample.env empty_world in
   fst v = Ok true /\
   last (stdout (snd v)) SharedHeader = VerifyAllFound).
Proof.
  split; [intros; apply dry_run_writes_nothing; assumption|].
  split; [intros; apply verify_rows_never_returns|].
  vm_compute. repeat split.
Qed.

(* ------------------------------------------------------------------ *)
(** * The conversion loop *)

Lemma pathlib_join_nonempty (out_dir filename : pystr) :
  exists c p, pathlib_join out_dir filename = c :: p.
Proof.
  unfold pathlib_join.
  destruct (match os_path_join out_dir filename with
            | 47%N :: 47%N :: 47%N :: _ => ([SEP], tl (os_path_join out_dir filename))
            | 47%N :: 47%N :: rest => ([SEP; SEP], rest)
            | 47%N :: rest => ([SEP], rest)
            | _ => ([], os_path_join out_dir filename)
            end) as [root rel].
  destruct (root ++ join_with [SEP] _) as [|c p]; eauto.
Qed.

Lemma os_path_join_nonempty (a b : pystr) :
  b <> [] -> exists c p, os_path_join a b = c :: p.
Proof.
  intros Hb. unfold os_path_join.
  destruct b as [|x b]; [congruence|].
  destruct (starts_with_sep (x :: b)); [eauto|].
  destruct (negb (truthy a) || ends_with_sep a); destruct a; simpl; eauto.
Qed.

Lemma pdf_path_for_nonempty (path_in out_dir : pystr) :
  exists c p, pdf_path_for path_in out_dir = c :: p.
Proof.
  unfold pdf_path_for. apply os_path_join_nonempty.
  intros E. apply app_eq_nil in E. destruct E as [_ E]. discriminate E.
Qed.

Lemma canonical_names_track (n : pystr) (m : AttachmentMap) (a : Asset.t) :
  Forall (fun e => Asset.name (fst (snd e)) = fst e) m ->
  Forall (fun e => Asset.name (fst (snd e)) = fst e) (track n m a).
Proof.
  intros Hm. unfold track, append_ticket.
  apply Forall_map.
  assert (Hm' : Forall (fun e => Asset.name (fst (snd e)) = fst e)
                       (if dict_contains (Asset.name a) m then m
                        else m ++ [(Asset.name a, (a, []))])).
  { destruct (dict_contains (Asset.name a) m); [exact Hm|].
    apply Forall_app. split; [exact Hm|]. repeat constructor. }
  eapply Forall_impl; [|exact Hm'].
  intros e He. destruct (str_eqb (Asset.name a) (fst e)); exact He.
Qed.

Lemma canonical_names_track_all (n : pystr) (assets : list Asset.t) :
  forall m,
    Forall (fun e => Asset.name (fst (snd e)) = fst e) m ->
    Forall (fun e => Asset.name (fst (snd e)) = fst e) (fold_left (track n) assets m).
Proof.
  induction assets as [|a assets IH]; intros m Hm; simpl; [exact Hm|].
  apply IH, canonical_names_track, Hm.
Qed.

Lemma canonical_names_loop (config : Config.t) (items : list Item.t) :
  forall acc,
    Forall (fun e => Asset.name (fst (snd e)) = fst e) (snd acc) ->
    Forall (fun e => Asset.name (fst (snd e)) = fst e)
           (snd (fold_left (build_step config) items acc)).
Proof.
  induction items as [|item rest IH]; intros acc Hacc; simpl; [exact Hacc|].
  apply IH. unfold build_step.
  destruct (scan_columns _ _ _) as [open_date close_date]. simpl.
  apply canonical_names_track_all, Hacc.
Qed.

Lemma canonical_names_build (config : Config.t) (items : list Item.t) :
  Forall (fun e => Asset.name (fst (snd e)) = fst e) (snd (build_index config items)).
Proof.
  apply canonical_names_loop. constructor.
Qed.

(** Every canonical asset of the index has a ticket row to take its
    directory from: line 181 never raises [IndexError]. *)
Lemma first_ticket_exists (config : Config.t) (items : list Item.t) (a : Asset.t) :
  In a (unique_attachments_of (snd (build_index config items))) ->
  exists t, first_ticket_for (fst (build_index config items)) a = Ok t.
Proof.
  intros Ha. unfold unique_attachments_of in Ha. apply in_map_iff in Ha.
  destruct Ha as (e & <- & He).
  pose proof (canonical_names_build config items) as Hcanon.
  rewrite Forall_forall in Hcanon. specialize (Hcanon e He).
  destruct (build_index_inv config items) as (_ & Hkeys & _ & _).
  assert (Hk : In (fst e) (names_of (references items))).
  { rewrite <- tagged_references_snd. apply Hkeys. apply in_map. exact He. }
  unfold names_of in Hk. apply in_map_iff in Hk. destruct Hk as (b & Hb & Hin).
  unfold references in Hin. apply in_flat_map in Hin.
  destruct Hin as (item & Hitem & Hbin).
  assert (Hrow : In (dedupe_assets (Item.assets item))
                    (map TicketRow.attachments (fst (build_index config items)))).
  { unfold build_index. rewrite build_rows_attachments. simpl.
    apply in_map_iff. exists item. auto. }
  apply in_map_iff in Hrow. destruct Hrow as (t & Ht & Htin).
  unfold first_ticket_for.
  set (keep := fun t0 : TicketRow.t => existsb _ (TicketRow.attachments t0)).
  assert (Hkeep : In t (filter keep (fst (build_index config items)))).
  { apply filter_In. split; [exact Htin|]. unfold keep.
    apply existsb_exists. exists b. rewrite Ht. split; [exact Hbin|].
    apply str_eqb_eq. congruence. }
  destruct (filter keep (fst (build_index config items))) as [|t0 l];
    [contradiction | eauto].
Qed.

Section ConversionLoop.
Context `{PyRuntime}.

(** One turn of the loop adds at most one path. *)
Lemma convert_one_adds_at_most_one (args : Args.t) (ticket_rows : list TicketRow.t)
    (item_pdfs item_pdfs' : list pystr) (asset : Asset.t) (env : Env) (w w' : World) :
  convert_one args ticket_rows item_pdfs asset env w = (Ok item_pdfs', w') ->
  item_pdfs' = item_pdfs \/ exists p, item_pdfs' = item_pdfs ++ [p].
Proof.
  unfold convert_one, bind.
  destruct (prepare_dirs args ticket_rows asset env w) as [[t|e|] w2];
    [|discriminate|discriminate].
  destruct (download_asset asset (item_dir_of args t) env w2) as [[fp|e|] w3];
    [|discriminate|discriminate].
  unfold convert_downloaded, bind.
  destruct (truthy_opt fp); [|unfold ret; intros E; inversion E; auto].
  destruct (to_pdf fp _ _ env w3) as [[[[|c p]|]|e|] w4];
    try discriminate;
    unfold log_event, print, path_exists, ret; simpl;
    try (intros E; inversion E; auto; fail).
  destruct (exists_in w4 (c :: p)); intros E; inversion E; eauto.
Qed.

Lemma convert_loop_bound (args : Args.t) (ticket_rows : list TicketRow.t)
    (assets : list Asset.t) (env : Env) :
  forall item_pdfs w item_pdfs' w',
    for_each (convert_one args ticket_rows) assets item_pdfs env w
      = (Ok item_pdfs', w') ->
    length item_pdfs' <= length item_pdfs + length assets.
Proof.
  induction assets as [|a assets IH]; intros pdfs w pdfs' w' Hrun; simpl in *.
  - unfold ret in Hrun. inversion Hrun; subst. lia.
  - unfold bind in Hrun.
    destruct (convert_one args ticket_rows pdfs a env w) as [[pdfs1|e|] w1] eqn:E1;
      try discriminate Hrun.
    apply IH in Hrun.
    destruct (convert_one_adds_at_most_one _ _ _ _ _ _ _ _ E1) as [->|(p & ->)];
      [lia|]. rewrite length_app in Hrun. simpl in Hrun. lia.
Qed.

Lemma prepare_dirs_ok (args : Args.t) (ticket_rows : list TicketRow.t)
    (asset : Asset.t) (t : TicketRow.t) (env : Env) (w : World) :
  permissive env ->
  first_ticket_for ticket_rows asset = Ok t ->
  exists w2, prepare_dirs args ticket_rows asset env w = (Ok t, w2).
Proof.
  intros [_ Hmk] Ht. unfold prepare_dirs, bind, lift, makedirs, ret.
  rewrite Ht.
  destruct (mem (item_dir_of args t) (dirs w)).
  - destruct (mem _ (dirs w)); [eauto|]. rewrite Hmk. eauto.
  - rewrite Hmk. simpl.
    destruct (str_eqb _ _ || mem _ (dirs w)); [eauto|]. rewrite Hmk. eauto.
Qed.

Lemma download_asset_ok (asset : Asset.t) (out_dir : pystr) (env : Env) (w : World) :
  permissive env -> served env asset ->
  exists c p w3,
    download_asset asset out_dir env w = (Ok (Some (c :: p)), w3) /\
    exists_in w3 (c :: p) = true.
Proof.
  intros [Hwr _] (u & content & Hu & Hc).
  destruct (pathlib_join_nonempty out_dir (download_filename asset)) as (c & p & Hp).
  fold (download_path asset out_dir) in Hp.
  rewrite download_asset_eq. cbv zeta. rewrite Hu, Hc, Hwr, Hp.
  destruct (exists_in w (c :: p)) eqn:E.
  - exists c, p, w. auto.
  - eexists c, p, _. split; [reflexivity|].
    unfold exists_in, logged. simpl. rewrite str_eqb_refl. reflexivity.
Qed.

(** A strategy that reports success has written the output, unless a
    converter process exited silently. *)
Lemma convert_strategy_ok_writes (path_in ext out_dir path_pdf : pystr)
    (prefer_libreoffice html_enabled : bool) (env : Env) (w w1 : World) (u : unit) :
  no_silent_exit env ->
  convert_strategy path_in ext out_dir path_pdf prefer_libreoffice html_enabled
                   env w = (Ok u, w1) ->
  exists_in w1 path_pdf = true.
Proof.
  intros Hsilent.
  assert (Hsub : forall tool,
            subprocess tool path_in path_pdf env w = (Ok u, w1) ->
            exists_in w1 path_pdf = true).
  { intros tool. unfold subprocess.
    pose proof (Hsilent tool path_in) as Hs.
    destruct (subprocess_run env tool path_in) as [[|] | | |];
      try discriminate; [|congruence].
    intros E. inversion E; subst.
    unfold exists_in. simpl. rewrite str_eqb_refl. reflexivity. }
  unfold convert_strategy.
  destruct (str_eqb ext (py "pdf")).
  { unfold shutil_copy, bind, raise, read_file, write_file.
    destruct (str_eqb path_in path_pdf); [discriminate|].
    destruct (lookup path_in (files w)); [|discriminate].
    destruct (can_write env path_pdf); [|discriminate].
    intros E. inversion E; subst. apply exists_in_written. }
  destruct (mem ext _ && prefer_libreoffice); [apply Hsub|].
  destruct (mem ext _).
  { unfold bind, write_file, img2pdf.
    destruct (can_write env path_pdf); [|discriminate]. simpl.
    match goal with
    | |- context [match ?x with Some _ => _ | None => _ end] => destruct x
    end; [|discriminate].
    destruct (img2pdf_convert env path_in); [|discriminate].
    intros E. inversion E; subst.
    unfold exists_in. simpl. rewrite str_eqb_refl. reflexivity. }
  destruct (str_eqb ext (py "html") && html_enabled); [apply Hsub|].
  unfold placeholder, write_file.
  destruct (can_write env path_pdf); [|discriminate].
  intros E. inversion E; subst. apply exists_in_written.
Qed.

Lemma to_pdf_ok (c : N) (p ext out_dir : pystr) (env : Env) (w : World) :
  permissive env -> no_silent_exit env ->
  exists_in w (c :: p) = true ->
  exists c' p' w4,
    to_pdf (Some (c :: p)) ext out_dir env w = (Ok (Some (c' :: p')), w4) /\
    exists_in w4 (c' :: p') = true.
Proof.
  intros [Hwr _] Hsilent Hthere.
  pose proof (to_pdf_present c p ext out_dir env w Hthere) as Hrun.
  cbv zeta in Hrun. rewrite Hrun. clear Hrun.
  destruct (pdf_path_for_nonempty (c :: p) out_dir) as (c' & p' & Hp).
  pose proof (convert_strategy_no_fuel (c :: p) (lstrip DOT (str_lower ext))
                out_dir (pdf_path_for (c :: p) out_dir) true false env w) as Hfuel.
  destruct (convert_strategy (c :: p) _ out_dir _ true false env w)
    as [[u|e|] w1] eqn:Es; simpl in Hfuel; [| |congruence].
  - exists c', p'. eexists. rewrite Hp. split; [reflexivity|].
    rewrite <- Hp.
    apply (convert_strategy_ok_writes _ _ _ _ _ _ _ _ _ _ Hsilent) in Es.
    unfold exists_in, logged in *. simpl. exact Es.
  - rewrite Hwr. exists c', p'. eexists. rewrite Hp. split; [reflexivity|].
    unfold exists_in. simpl. rewrite str_eqb_refl. reflexivity.
Qed.

Lemma convert_one_ok (args : Args.t) (ticket_rows : list TicketRow.t)
    (item_pdfs : list pystr) (asset : Asset.t) (t : TicketRow.t)
    (env : Env) (w : World) :
  permissive env -> no_silent_exit env -> served env asset ->
  first_ticket_for ticket_rows asset = Ok t ->
  exists p w',
    convert_one args ticket_rows item_pdfs asset env w = (Ok (item_pdfs ++ [p]), w') /\
    exists_in w' p = true.
Proof.
  intros Hperm Hsilent Hserved Ht.
  destruct (prepare_dirs_ok args ticket_rows asset t env w Hperm Ht) as (w2 & Hprep).
  destruct (download_asset_ok asset (item_dir_of args t) env w2 Hperm Hserved)
    as (c & p & w3 & Hdl & Hthere).
  destruct (to_pdf_ok c p (Asset.file_extension asset)
                      (os_path_join (item_dir_of args t) (py "converted"))
                      env w3 Hperm Hsilent Hthere)
    as (c' & p' & w4 & Hpdf & Hthere').
  exists (c' :: p'). eexists.
  unfold convert_one, bind. rewrite Hprep, Hdl.
  unfold convert_downloaded, bind.
  change (truthy_opt (Some (c :: p))) with true. cbv beta iota.
  rewrite Hpdf. unfold path_exists. rewrite Hthere'.
  unfold log_event, print, ret. simpl. split; [reflexivity|].
  unfold exists_in in *. simpl. exact Hthere'.
Qed.

Lemma convert_loop_ok (args : Args.t) (ticket_rows : list TicketRow.t)
    (assets : list Asset.t) (env : Env) :
  permissive env -> no_silent_exit env ->
  Forall (served env) assets ->
  Forall (fun a => exists t, first_ticket_for ticket_rows a = Ok t) assets ->
  forall item_pdfs w,
  exists item_pdfs' w',
    for_each (convert_one args ticket_rows) assets item_pdfs env w
      = (Ok item_pdfs', w') /\
    length item_pdfs' = length item_pdfs + length assets.
Proof.
  intros Hperm Hsilent Hserved Hticket.
  induction assets as [|a assets IH]; intros pdfs w; simpl.
  - exists pdfs, w. split; [reflexivity | lia].
  - inversion Hserved as [|? ? Ha Hrest]; subst.
    inversion Hticket as [|? ? [t Ht] Htrest]; subst.
    destruct (convert_one_ok args ticket_rows pdfs a t env w Hperm Hsilent Ha Ht)
      as (p & w1 & Hone & _).
    destruct (IH Hrest Htrest (pdfs ++ [p]) w1) as (pdfs' & w' & Hloop & Hlen).
    exists pdfs', w'. unfold bind. rewrite Hone. split; [exact Hloop|].
    rewrite Hlen, length_app. simpl. lia.
Qed.

(** Lines 188-195 when the office converter exits with status 0 without
    writing its output and no file lay at the output path before:
    [to_pdf] returns the path, line 191 finds nothing there, and the list
    of PDF paths stays as it was. *)
Lemma convert_downloaded_silent_exit (args : Args.t) (first_ticket : TicketRow.t)
    (item_pdfs : list pystr) (asset : Asset.t) (c : N) (p : pystr)
    (env : Env) (w : World) :
  let converted_dir := os_path_join (item_dir_of args first_ticket) (py "converted") in
  let ext' := lstrip DOT (str_lower (Asset.file_extension asset)) in
  exists_in w (c :: p) = true ->
  str_eqb ext' (py "pdf") = false ->
  mem ext' [py "docx"; py "xlsx"; py "pptx"; py "csv"; py "txt"] = true ->
  subprocess_run env Soffice (c :: p) = Exited0 false ->
  exists_in w (pdf_path_for (c :: p) converted_dir) = false ->
  exists w',
    convert_downloaded args first_ticket item_pdfs asset (Some (c :: p)) env w
      = (Ok item_pdfs, w') /\
    files w' = files w.
Proof.
  intros converted_dir ext' Hthere Hpdf Hoffice Hexit Hnone.
  unfold convert_downloaded.
  change (truthy_opt (Some (c :: p))) with true. cbv beta iota.
  fold converted_dir. unfold bind at 1.
  pose proof (to_pdf_present c p (Asset.file_extension asset) converted_dir env w
                Hthere) as Hrun.
  cbv zeta in Hrun. fold ext' in Hrun.
  rewrite (convert_strategy_silent_exit (c :: p) ext' converted_dir
             (pdf_path_for (c :: p) converted_dir) env w Hpdf Hoffice Hexit) in Hrun.
  rewrite Hrun. clear Hrun.
  destruct (pdf_path_for_nonempty (c :: p) converted_dir) as (c' & p' & Hp).
  rewrite Hp in *.
  unfold bind, path_exists.
  replace (exists_in (logged _ _) (c' :: p')) with false
    by (symmetry; exact Hnone).
  eexists. split; reflexivity.
Qed.

(** C1, as the code has it: the conversion loop runs once per entry of the
    index, not once per reference, so it yields at most one PDF path per
    unique attachment name.  It yields exactly one per entry when every
    download is served, the directories and files can be written and no
    converter process exits with status 0 without writing its output, also
    when conversions fail or time out (the placeholder stands in).  An
    entry whose download fails is skipped and gets no PDF; so is a
    downloaded office document whose converter exits with status 0 without
    writing its output, when no file lay at the output path before. *)
Theorem one_pdf_per_downloaded_unique_attachment :
  forall (args : Args.t) (config : Config.t) (filtered_items : list Item.t)
         (env : Env) (w : World),
    let ticket_rows := fst (build_index config filtered_items) in
    let attachment_map := snd (build_index config filtered_items) in
    length (unique_attachments_of attachment_map) =
      distinct_count (names_of (flat_map Item.assets filtered_items)) /\
    (forall item_pdfs w',
       convert_all args ticket_rows attachment_map env w = (Ok item_pdfs, w') ->
       length item_pdfs <= length attachment_map) /\
    (permissive env -> no_silent_exit env ->
     Forall (served env) (unique_attachments_of attachment_map) ->
     exists item_pdfs w',
       convert_all args ticket_rows attachment_map env w = (Ok item_pdfs, w') /\
       length item_pdfs = length attachment_map) /\
    (forall first_ticket item_pdfs asset,
       convert_downloaded args first_ticket item_pdfs asset None env w
         = (Ok item_pdfs, w)) /\
    (forall first_ticket item_pdfs asset c p,
       let converted_dir :=
         os_path_join (item_dir_of args first_ticket) (py "converted") in
       let ext' := lstrip DOT (str_lower (Asset.file_extension asset)) in
       exists_in w (c :: p) = true ->
       str_eqb ext' (py "pdf") = false ->
       mem ext' [py "docx"; py "xlsx"; py "pptx"; py "csv"; py "txt"] = true ->
       subprocess_run env Soffice (c :: p) = Exited0 false ->
       exists_in w (pdf_path_for (c :: p) converted_dir) = false ->
       exists w',
         convert_downloaded args first_ticket item_pdfs asset (Some (c :: p)) env w
           = (Ok item_pdfs, w') /\
         files w' = files w).
Proof.
  intros args config items env w rows amap.
  split; [|split; [|split; [|split]]]; cycle 3.
  { intros first_ticket item_pdfs asset. reflexivity. }
  { intros first_ticket item_pdfs asset c p.
    apply convert_downloaded_silent_exit. }
  - unfold unique_attachments_of. rewrite length_map.
    apply (attachment_index_counts_and_covers config items).
  - intros pdfs w' Hrun. unfold convert_all in Hrun.
    apply convert_loop_bound in Hrun.
    unfold unique_attachments_of in Hrun. rewrite length_map in Hrun.
    simpl in Hrun. exact Hrun.
  - intros Hperm Hsilent Hserved.
    destruct (convert_loop_ok args rows (unique_attachments_of amap) env
                Hperm Hsilent Hserved) with (item_pdfs := @nil pystr) (w := w)
      as (pdfs & w' & Hrun & Hlen).
    { apply Forall_forall. intros a Ha. apply first_ticket_exists, Ha. }
    exists pdfs, w'. split; [exact Hrun|].
    rewrite Hlen. unfold unique_attachments_of. rewrite length_map. reflexivity.
Qed.

End ConversionLoop.

(** The theorem at the sample: tickets A, B and C share two file names;
    every converter fails, and still the loop returns two PDF paths. *)
Lemma one_pdf_each_sample :
  exists item_pdfs w',
    @convert_all ascii_runtime (Sample.args false)
       (fst (build_index Sample.config [Sample.item_A; Sample.item_B; Sample.item_C]))
       (snd (build_index Sample.config [Sample.item_A; Sample.item_B; Sample.item_C]))
       Sample.env_timeout empty_world = (Ok item_pdfs, w') /\
    length item_pdfs =
    length (snd (build_index Sample.config
                   [Sample.item_A; Sample.item_B; Sample.item_C])).
Proof.
  apply (proj1 (proj2 (proj2 (@one_pdf_per_downloaded_unique_attachment
                                ascii_runtime
                                (Sample.args false) Sample.config
                                [Sample.item_A; Sample.item_B; Sample.item_C]
                                Sample.env_timeout empty_world)))).
  - split; intros p; reflexivity.
  - intros tool p. discriminate.
  - repeat constructor; eexists _, _; split; reflexivity.
Defined.

(** C1 as stated fails: with the file server down the one unique
    attachment of ticket A is skipped, and the loop ends with no PDF for
    it. *)
Lemma one_pdf_per_unique_attachment_fails :
  let index := build_index Sample.config [Sample.item_A] in
  fst (@convert_all ascii_runtime (Sample.args false) (fst index) (snd index)
                    Sample.env_offline empty_world) = Ok [] /\
  length (snd index) = 1.
Proof.
  vm_compute. split; reflexivity.
Qed.

(* ------------------------------------------------------------------ *)
(** * More on dedupe_assets and the index *)

Lemma filter_filter {A} (f g : A -> bool) (l : list A) :
  filter f (filter g l) = filter (fun x => f x && g x) l.
Proof.
  induction l as [|x l IH]; simpl; [reflexivity|].
  destruct (g x); simpl; rewrite ?andb_true_r, ?andb_false_r;
    [destruct (f x); simpl; rewrite IH; reflexivity | exact IH].
Qed.

Lemma filter_all {A} (f : A -> bool) (l : list A) :
  Forall (fun x => f x = true) l -> filter f l = l.
Proof.
  induction 1 as [|x l Hx _ IH]; simpl; [reflexivity|].
  rewrite Hx, IH. reflexivity.
Qed.

(** The loop of [dedupe_assets] computes the first assets by key. *)
Lemma dedupe_loop_first_by_key (assets : list Asset.t) :
  forall seen unique,
    dedupe_loop assets seen unique =
    unique ++ filter (fun b => negb (existsb (key_eqb (asset_key b)) seen))
                     (first_by_key assets).
Proof.
  induction assets as [|a rest IH]; intros seen unique; simpl.
  - rewrite app_nil_r. reflexivity.
  - destruct (existsb (key_eqb (asset_key a)) seen) eqn:E; simpl.
    + rewrite IH, filter_filter. f_equal. apply filter_ext_in.
      intros b _.
      destruct (existsb (key_eqb (asset_key b)) seen) eqn:Eb; simpl; [reflexivity|].
      destruct (key_eqb (asset_key b) (asset_key a)) eqn:Ek; [|reflexivity].
      apply key_eqb_eq in Ek. rewrite Ek in Eb. congruence.
    + rewrite IH, <- app_assoc, filter_filter. simpl. f_equal. f_equal.
      apply filter_ext. intros b.
      rewrite negb_orb. apply andb_comm.
Qed.

Lemma dedupe_assets_first_by_key (assets : list Asset.t) :
  dedupe_assets assets = first_by_key assets.
Proof.
  unfold dedupe_assets. rewrite dedupe_loop_first_by_key. simpl.
  apply filter_all, Forall_forall. reflexivity.
Qed.

Lemma first_by_key_fixed (assets : list Asset.t) :
  NoDup (map asset_key assets) -> first_by_key assets = assets.
Proof.
  induction assets as [|a rest IH]; simpl; intros Hnd; [reflexivity|].
  inversion Hnd as [|k l Hnot Hrest]; subst.
  rewrite (IH Hrest). f_equal. apply filter_all, Forall_forall.
  intros b Hb. apply negb_true_iff.
  destruct (key_eqb (asset_key b) (asset_key a)) eqn:E; [|reflexivity].
  apply key_eqb_eq in E. exfalso. apply Hnot. rewrite <- E. apply in_map, Hb.
Qed.

(** X1: [dedupe_assets] keeps the first asset of every (id, name) pair in
    the order of the input: the head of the list always stays, later
    assets with the head's key go.  Running it twice changes nothing
    more, and a list without repeated keys comes back unchanged. *)
Theorem dedupe_assets_keeps_first_of_each_key :
  forall (a : Asset.t) (assets : list Asset.t),
    dedupe_assets [] = [] /\
    dedupe_assets (a :: assets) =
      a :: filter (fun b => negb (key_eqb (asset_key b) (asset_key a)))
                  (dedupe_assets assets) /\
    dedupe_assets (dedupe_assets assets) = dedupe_assets assets /\
    (NoDup (map asset_key assets) -> dedupe_assets assets = assets).
Proof.
  intros a assets. split; [reflexivity|]. split; [|split].
  - rewrite !dedupe_assets_first_by_key. reflexivity.
  - rewrite (dedupe_assets_first_by_key (dedupe_assets assets)).
    apply first_by_key_fixed, dedupe_assets_NoDup.
  - intros Hnd. rewrite dedupe_assets_first_by_key. apply first_by_key_fixed, Hnd.
Qed.

(** The index loop is one pass of [track] over the tagged references. *)
Lemma build_loop_as_fold (config : Config.t) (items : list Item.t) :
  forall acc,
    snd (fold_left (build_step config) items acc) =
    fold_left track_pair (tagged_references items) (snd acc).
Proof.
  induction items as [|item rest IH]; intros acc; simpl; [reflexivity|].
  rewrite IH, fold_left_app. f_equal.
  unfold build_step.
  destruct (scan_columns _ _ _) as [open_date close_date]. simpl.
  generalize (snd acc) as m.
  induction (dedupe_assets (Item.assets item)) as [|a assets IHa]; intros m; simpl;
    [reflexivity | apply IHa].
Qed.

Lemma build_index_as_fold (config : Config.t) (items : list Item.t) :
  snd (build_index config items) = fold_left track_pair (tagged_references items) [].
Proof. apply (build_loop_as_fold config items ([], [])). Qed.

(** The keys of the index after a pass of [track], in first-occurrence
    order. *)
Lemma track_pairs_keys (seen : list (pystr * Asset.t)) :
  forall m,
    keys (fold_left track_pair seen m) =
    keys m ++ filter (fun k => negb (mem k (keys m)))
                     (first_occurrences (names_of (map snd seen))).
Proof.
  induction seen as [|[n a] rest IH]; intros m; simpl.
  - rewrite app_nil_r. reflexivity.
  - rewrite IH. change (track_pair m (n, a)) with (track n m a). rewrite track_keys.
    destruct (dict_contains (Asset.name a) m) eqn:E.
    + apply dict_contains_In, mem_In in E. rewrite E. simpl.
      rewrite filter_filter. f_equal. apply filter_ext. intros k.
      destruct (mem k (keys m)) eqn:Ek; simpl; [reflexivity|].
      destruct (str_eqb k (Asset.name a)) eqn:Ea; [|reflexivity].
      apply str_eqb_eq in Ea. congruence.
    + assert (Em : mem (Asset.name a) (keys m) = false).
      { destruct (mem (Asset.name a) (keys m)) eqn:Em; [|reflexivity].
        apply mem_In, dict_contains_In in Em. congruence. }
      rewrite Em. simpl. rewrite <- app_assoc, filter_filter. simpl.
      f_equal. f_equal. apply filter_ext. intros k.
      unfold mem. rewrite existsb_app. simpl.
      rewrite orb_false_r, negb_orb. reflexivity.
Qed.

Lemma find_app_first {A} (f : A -> bool) (l1 l2 : list A) :
  find f (l1 ++ l2) =
  match find f l1 with
  | Some x => Some x
  | None => find f l2
  end.
Proof.
  induction l1 as [|x l1 IH]; simpl; [reflexivity|].
  destruct (f x); [reflexivity | exact IH].
Qed.

Lemma references_named_absent (k : pystr) (seen : list (pystr * Asset.t)) :
  ~ In k (names_of (map snd seen)) ->
  references_named k seen = [] /\
  find (fun a => str_eqb (Asset.name a) k) (map snd seen) = None.
Proof.
  induction seen as [|[n a] seen IH]; simpl; intros Hk; [auto|].
  destruct (str_eqb (Asset.name a) k) eqn:E.
  - apply str_eqb_eq in E. exfalso. apply Hk. left. exact E.
  - apply IH. intros Hin. apply Hk. right. exact Hin.
Qed.

Lemma track_entries_inv (n : pystr) (m : AttachmentMap) (a : Asset.t)
    (seen : list (pystr * Asset.t)) :
  index_inv m seen -> entries_inv m seen ->
  entries_inv (track n m a) (seen ++ [(n, a)]).
Proof.
  intros (_ & Hkeys & _ & _) Hm.
  assert (Hold : forall e,
            find (fun b => str_eqb (Asset.name b) (fst e)) (map snd seen)
              = Some (fst (snd e)) /\
            snd (snd e) = map fst (references_named (fst e) seen) ->
            let e' := if str_eqb (Asset.name a) (fst e)
                      then (fst e, (fst (snd e), snd (snd e) ++ [n])) else e in
            find (fun b => str_eqb (Asset.name b) (fst e')) (map snd (seen ++ [(n, a)]))
              = Some (fst (snd e')) /\
            snd (snd e') = map fst (references_named (fst e') (seen ++ [(n, a)]))).
  { intros e [Hfind Hrefs]. cbv zeta.
    assert (Hfst : fst (if str_eqb (Asset.name a) (fst e)
                        then (fst e, (fst (snd e), snd (snd e) ++ [n])) else e)
                   = fst e) by (destruct (str_eqb _ _); reflexivity).
    rewrite Hfst. unfold references_named.
    rewrite map_app, find_app_first, Hfind, filter_app, map_app. simpl.
    destruct (str_eqb (Asset.name a) (fst e)); simpl.
    - split; [reflexivity | rewrite Hrefs; reflexivity].
    - split; [reflexivity | rewrite app_nil_r; exact Hrefs]. }
  unfold entries_inv, track, append_ticket. apply Forall_map.
  destruct (dict_contains (Asset.name a) m) eqn:E.
  - eapply Forall_impl; [|exact Hm]. intros e He. apply (Hold e He).
  - apply Forall_app. split.
    + eapply Forall_impl; [|exact Hm]. intros e He. apply (Hold e He).
    + constructor; [|constructor]. simpl. rewrite str_eqb_refl. simpl.
      assert (Hnot : ~ In (Asset.name a) (names_of (map snd seen))).
      { intros Hin. apply Hkeys, dict_contains_In in Hin. congruence. }
      destruct (references_named_absent _ _ Hnot) as [Hrefs Hfind].
      unfold references_named in *.
      rewrite map_app, find_app_first, Hfind, filter_app, Hrefs. simpl.
      rewrite str_eqb_refl. split; reflexivity.
Qed.

Lemma track_pairs_inv (rest : list (pystr * Asset.t)) :
  forall m seen,
    index_inv m seen -> entries_inv m seen ->
    index_inv (fold_left track_pair rest m) (seen ++ rest) /\
    entries_inv (fold_left track_pair rest m) (seen ++ rest).
Proof.
  induction rest as [|[n a] rest IH]; intros m seen Hi He; simpl.
  - rewrite app_nil_r. auto.
  - replace (seen ++ (n, a) :: rest) with ((seen ++ [(n, a)]) ++ rest)
      by (rewrite <- app_assoc; reflexivity).
    apply IH; [apply track_inv, Hi | apply track_entries_inv; assumption].
Qed.

Lemma build_index_entries (config : Config.t) (items : list Item.t) :
  entries_inv (snd (build_index config items)) (tagged_references items).
Proof.
  rewrite build_index_as_fold.
  apply (track_pairs_inv (tagged_references items) [] []).
  - repeat split; simpl; try constructor; try tauto; intros; contradiction.
  - constructor.
Qed.

Lemma build_index_keys (config : Config.t) (items : list Item.t) :
  keys (snd (build_index config items)) =
  first_occurrences (names_of (references items)).
Proof.
  rewrite build_index_as_fold, track_pairs_keys, tagged_references_snd. simpl.
  apply filter_all, Forall_forall. reflexivity.
Qed.

(** X2: the index keeps its entries in the order in which the names first
    occur among the references (items in order, each item's attachments
    in order).  The asset stored with a name is the first reference of
    that name, and the ticket list of the entry names the items of all
    references of that name, in order. *)
Theorem attachment_index_in_first_occurrence_order :
  forall (config : Config.t) (filtered_items : list Item.t),
    let attachment_map := snd (build_index config filtered_items) in
    keys attachment_map = first_occurrences (names_of (references filtered_items)) /\
    Forall (fun e =>
              find (fun a => str_eqb (Asset.name a) (fst e)) (references filtered_items)
                = Some (fst (snd e)) /\
              snd (snd e) =
                map fst (filter (fun na => str_eqb (Asset.name (snd na)) (fst e))
                                (tagged_references filtered_items)))
           attachment_map.
Proof.
  intros config items amap. split; [apply build_index_keys|].
  pose proof (build_index_entries config items) as He.
  unfold entries_inv in He. rewrite tagged_references_snd in He. exact He.
Qed.

Lemma references_named_count (k : pystr) (seen : list (pystr * Asset.t)) :
  length (references_named k seen) =
  count_occ pystr_eq_dec (names_of (map snd seen)) k.
Proof.
  induction seen as [|[n a] seen IH]; simpl; [reflexivity|].
  destruct (pystr_eq_dec (Asset.name a) k) as [Heq|Hne].
  - rewrite (proj2 (str_eqb_eq _ _) Heq). simpl. rewrite IH. reflexivity.
  - rewrite (proj2 (str_eqb_neq _ _) Hne). exact IH.
Qed.

(** X3: the attachments a dry run lists as shared are the names that occur
    at least twice among the references, each with the number of its
    references, in the order of their first occurrence.  Two uploads of
    one name in a single ticket count as two. *)
Theorem shared_attachments_are_names_referenced_twice :
  forall (config : Config.t) (filtered_items : list Item.t),
    let names := names_of (references filtered_items) in
    shared_attachments (snd (build_index config filtered_items)) =
    flat_map (fun k =>
                if 1 <? count_occ pystr_eq_dec names k
                then [(k, count_occ pystr_eq_dec names k)] else [])
             (first_occurrences names).
Proof.
  intros config items names.
  replace (first_occurrences names)
    with (keys (snd (build_index config items)))
    by apply build_index_keys.
  pose proof (build_index_entries config items) as He.
  pose proof (canonical_names_build config items) as Hc.
  unfold entries_inv in He. unfold shared_attachments, keys.
  induction (snd (build_index config items)) as [|e m IH]; simpl; [reflexivity|].
  inversion He as [|? ? [_ Hrefs] He']; subst.
  inversion Hc as [|? ? Hname Hc']; subst.
  rewrite (IH He' Hc'). f_equal.
  destruct e as [k [asset tickets]]. simpl in *.
  assert (Hlen : length tickets = count_occ pystr_eq_dec names k).
  { rewrite Hrefs, length_map, references_named_count, tagged_references_snd.
    reflexivity. }
  rewrite Hlen, Hname. reflexivity.
Qed.

Lemma build_rows (config : Config.t) (items : list Item.t) :
  forall acc,
    fst (fold_left (build_step config) items acc) =
    fst acc ++ map (row_of config) items.
Proof.
  induction items as [|item rest IH]; intros acc; simpl.
  - rewrite app_nil_r. reflexivity.
  - rewrite IH. unfold build_step, row_of.
    destruct (scan_columns _ _ _) as [open_date close_date]. simpl.
    rewrite <- app_assoc. reflexivity.
Qed.

Section Rows.
Context `{PyRuntime}.

Lemma filter_items_qualify (args : Args.t) (config : Config.t)
    (all_items : list Item.t) :
  Forall (fun item => In item all_items /\
                      qualifies config (Args.month args) item = true)
         (filter_items args config all_items).
Proof.
  destruct (filter_loop_prefix args config all_items [] []) as (k & Hk).
  unfold filter_items. rewrite Hk. simpl.
  apply Forall_forall. intros item Hin.
  apply filter_In. rewrite <- (firstn_skipn k). apply in_or_app. left. exact Hin.
Qed.

(** X4: the ticket rows of a run are the filtered items, one row per item
    in the same order, with the item's id and name and its attachments
    after [dedupe_assets]; every one of them has at least one attachment
    and comes from an item that passed the filter. *)
Theorem ticket_rows_mirror_filtered_items :
  forall (args : Args.t) (config : Config.t) (all_items : list Item.t),
    let filtered_items := filter_items args config all_items in
    let ticket_rows := fst (build_index config filtered_items) in
    map TicketRow.item_id ticket_rows = map Item.id filtered_items /\
    map TicketRow.item_name ticket_rows = map Item.name filtered_items /\
    map TicketRow.attachments ticket_rows =
      map (fun item => dedupe_assets (Item.assets item)) filtered_items /\
    Forall (fun t => TicketRow.attachments t <> []) ticket_rows /\
    Forall (fun item => In item all_items /\
                        qualifies config (Args.month args) item = true)
           filtered_items.
Proof.
  intros args config all_items items rows.
  assert (Hrows : rows = map (row_of config) items).
  { unfold rows, build_index. rewrite build_rows. reflexivity. }
  pose proof (filter_items_qualify args config all_items) as Hq. fold items in Hq.
  rewrite Hrows, !map_map. simpl.
  repeat split; try reflexivity; [|exact Hq].
  apply Forall_map. eapply Forall_impl; [|exact Hq].
  intros item [_ Hitem]. simpl.
  unfold qualifies in Hitem. apply andb_true_iff in Hitem.
  destruct Hitem as [_ Hlen]. apply Nat.ltb_lt in Hlen.
  destruct (Item.assets item) as [|a assets] eqn:Ea; [simpl in Hlen; lia|].
  intros Hempty.
  pose proof (dedupe_assets_keys (a :: assets) a (or_introl eq_refl)) as Hin.
  rewrite Hempty in Hin. exact Hin.
Qed.

(** X5: [sanitize_filename] changes nothing in a name that holds only
    alphanumeric characters, '-' and '_'; so sanitizing twice is the same
    as sanitizing once. *)
Theorem sanitize_filename_idempotent :
  forall name : pystr,
    sanitize_filename (sanitize_filename name) = sanitize_filename name /\
    (forallb safe_char name = true -> sanitize_filename name = name).
Proof.
  assert (Hfix : forall s, forallb safe_char s = true -> sanitize_filename s = s).
  { induction s as [|c s IH]; simpl; [reflexivity|].
    intros Hs. apply andb_true_iff in Hs. destruct Hs as [Hc Hs].
    unfold sanitize_char. unfold safe_char in Hc. rewrite Hc.
    f_equal. apply IH, Hs. }
  intros name. split; [|apply Hfix].
  apply Hfix. unfold sanitize_filename. apply forallb_forall.
  intros c Hc. apply in_map_iff in Hc. destruct Hc as (c0 & <- & _).
  apply sanitize_char_safe.
Qed.

End Rows.

(* ------------------------------------------------------------------ *)
(** * More on to_pdf *)

Section ConvertMore.
Context `{PyRuntime}.

(** X6: when a PDF already lies at the path its conversion is written to,
    the copy fails (source and destination are the same file), the
    failure is caught, and the placeholder is written over the input:
    [to_pdf] returns the path, which then holds the "conversion failed"
    page instead of the document. *)
Theorem to_pdf_overwrites_pdf_at_output_path :
  forall (c : N) (p ext out_dir : pystr) (env : Env) (w : World)
         (content : FileContent),
    lstrip DOT (str_lower ext) = py "pdf" ->
    pdf_path_for (c :: p) out_dir = c :: p ->
    lookup (c :: p) (files w) = Some content ->
    can_write env (c :: p) = true ->
    let r := to_pdf (Some (c :: p)) ext out_dir env w in
    fst r = Ok (Some (c :: p)) /\
    lookup (c :: p) (files (snd r)) =
      Some (PlaceholderPdf (os_path_basename (c :: p)) ConversionFailed) /\
    tool_runs (snd r) = tool_runs w.
Proof.
  intros c p ext out_dir env w content Hext Hsame Hfile Hwrite r.
  assert (Hthere : exists_in w (c :: p) = true)
    by (unfold exists_in; rewrite Hfile; reflexivity).
  pose proof (to_pdf_present c p ext out_dir env w Hthere) as Hrun.
  cbv zeta in Hrun. fold r in Hrun. rewrite Hext, Hsame in Hrun.
  assert (Hcopy : convert_strategy (c :: p) (py "pdf") out_dir (c :: p) true false
                    env w = (Raise OSError, w)).
  { unfold convert_strategy. rewrite str_eqb_refl.
    unfold shutil_copy. rewrite str_eqb_refl. reflexivity. }
  rewrite Hcopy, Hwrite in Hrun. rewrite Hrun. simpl.
  rewrite str_eqb_refl. repeat split.
Qed.

(** X7: an input whose extension, lowered and without leading dots, is
    none of pdf, docx, xlsx, pptx, csv, txt, png, jpg, jpeg, webp (so also
    html, which is off by default) is not converted: no converter runs,
    and when the output path can be written it receives the placeholder
    that says the type is unsupported, logged as a success. *)
Theorem to_pdf_unsupported_type_gets_placeholder :
  forall (c : N) (p ext out_dir : pystr) (env : Env) (w : World),
    let ext' := lstrip DOT (str_lower ext) in
    let path_pdf := pdf_path_for (c :: p) out_dir in
    exists_in w (c :: p) = true ->
    str_eqb ext' (py "pdf") = false ->
    mem ext' [py "docx"; py "xlsx"; py "pptx"; py "csv"; py "txt"] = false ->
    mem ext' [py "png"; py "jpg"; py "jpeg"; py "webp"] = false ->
    can_write env path_pdf = true ->
    let r := to_pdf (Some (c :: p)) ext out_dir env w in
    fst r = Ok (Some path_pdf) /\
    files (snd r) =
      (path_pdf, PlaceholderPdf (os_path_basename (c :: p)) UnsupportedType) :: files w /\
    tool_runs (snd r) = tool_runs w /\
    stdout (snd r) =
      stdout w ++ [LogEvent None (Some (os_path_basename (c :: p))) (py "convert")
                            (py "success") None].
Proof.
  intros c p ext out_dir env w ext' path_pdf Hthere Hpdf Hoffice Himg Hwrite r.
  pose proof (to_pdf_present c p ext out_dir env w Hthere) as Hrun.
  cbv zeta in Hrun. fold r ext' path_pdf in Hrun.
  assert (Hs : convert_strategy (c :: p) ext' out_dir path_pdf true false env w =
               (Ok tt, set_files ((path_pdf,
                  PlaceholderPdf (os_path_basename (c :: p)) UnsupportedType)
                  :: files w) w)).
  { unfold convert_strategy. rewrite Hpdf, Hoffice, Himg. simpl.
    rewrite andb_false_r. unfold placeholder, write_file. rewrite Hwrite.
    reflexivity. }
  rewrite Hs in Hrun. rewrite Hrun. repeat split.
Qed.

(** What the strategy of a default call may touch. *)
Lemma convert_strategy_frame (path_in ext out_dir path_pdf : pystr)
    (prefer_libreoffice : bool) (env : Env) (w : World) :
  let r := convert_strategy path_in ext out_dir path_pdf prefer_libreoffice false
                            env w in
  exists runs written,
    tool_runs (snd r) = tool_runs w ++ runs /\
    length runs <= 1 /\
    Forall (fun t => fst t <> Wkhtmltopdf) runs /\
    files (snd r) = written ++ files w /\
    Forall (fun e => fst e = path_pdf) written /\
    dirs (snd r) = dirs w /\ http_gets (snd r) = http_gets w /\
    http_posts (snd r) = http_posts w /\ stdout (snd r) = stdout w.
Proof.
  assert (Hdone : forall (r : result unit * World) runs written,
            tool_runs (snd r) = tool_runs w ++ runs ->
            length runs <= 1 ->
            Forall (fun t => fst t <> Wkhtmltopdf) runs ->
            files (snd r) = written ++ files w ->
            Forall (fun e => fst e = path_pdf) written ->
            dirs (snd r) = dirs w -> http_gets (snd r) = http_gets w ->
            http_posts (snd r) = http_posts w -> stdout (snd r) = stdout w ->
            exists runs written,
              tool_runs (snd r) = tool_runs w ++ runs /\
              length runs <= 1 /\
              Forall (fun t => fst t <> Wkhtmltopdf) runs /\
              files (snd r) = written ++ files w /\
              Forall (fun e => fst e = path_pdf) written /\
              dirs (snd r) = dirs w /\ http_gets (snd r) = http_gets w /\
              http_posts (snd r) = http_posts w /\ stdout (snd r) = stdout w).
  { intros r runs written. intros. exists runs, written. tauto. }
  assert (Hnil : tool_runs w = tool_runs w ++ []) by (rewrite app_nil_r; reflexivity).
  cbv zeta. unfold convert_strategy.
  destruct (str_eqb ext (py "pdf")).
  { unfold shutil_copy, bind, raise, read_file, write_file.
    destruct (str_eqb path_in path_pdf);
      [apply (Hdone _ [] []); simpl; auto|].
    destruct (lookup path_in (files w)) as [content|];
      [|apply (Hdone _ [] []); simpl; auto].
    destruct (can_write env path_pdf);
      [apply (Hdone _ [] [(path_pdf, content)]) | apply (Hdone _ [] [])];
      simpl; auto. }
  destruct (mem ext _ && prefer_libreoffice).
  { unfold subprocess.
    destruct (subprocess_run env Soffice path_in) as [[|] | | |];
      [apply (Hdone _ [(Soffice, path_in)] [(path_pdf, ConvertedPdf Soffice path_in)])
      |apply (Hdone _ [(Soffice, path_in)] [])
      |apply (Hdone _ [(Soffice, path_in)] [])
      |apply (Hdone _ [(Soffice, path_in)] [])
      |apply (Hdone _ [(Soffice, path_in)] [])];
      simpl; auto; repeat constructor; discriminate. }
  destruct (mem ext _).
  { unfold bind, write_file, img2pdf.
    destruct (can_write env path_pdf); [|apply (Hdone _ [] []); simpl; auto].
    simpl.
    match goal with
    | |- context [match ?x with Some _ => _ | None => _ end] => destruct x
    end.
    - destruct (img2pdf_convert env path_in);
        [apply (Hdone _ [(Img2pdf, path_in)]
                  [(path_pdf, ConvertedPdf Img2pdf path_in); (path_pdf, RawBytes [])])
        |apply (Hdone _ [(Img2pdf, path_in)] [(path_pdf, RawBytes [])])];
        simpl; auto; repeat constructor; discriminate.
    - apply (Hdone _ [(Img2pdf, path_in)] [(path_pdf, RawBytes [])]);
        simpl; auto; repeat constructor; discriminate. }
  rewrite andb_false_r.
  unfold placeholder, write_file.
  destruct (can_write env path_pdf);
    [apply (Hdone _ [] [(path_pdf, PlaceholderPdf (os_path_basename path_in) UnsupportedType)])
    |apply (Hdone _ [] [])];
    simpl; auto.
Qed.

(** X8: a call of [to_pdf] runs at most one converter, and never
    wkhtmltopdf (the markup converter is off by default); it writes to no
    path but its output path, makes no directory and no request. *)
Theorem to_pdf_touches_only_its_output :
  forall (path_in : option pystr) (ext out_dir : pystr) (env : Env) (w : World),
    let r := to_pdf path_in ext out_dir env w in
    exists runs written,
      tool_runs (snd r) = tool_runs w ++ runs /\
      length runs <= 1 /\
      Forall (fun t => fst t <> Wkhtmltopdf) runs /\
      files (snd r) = written ++ files w /\
      Forall (fun e => exists p, path_in = Some p /\ fst e = pdf_path_for p out_dir)
             written /\
      dirs (snd r) = dirs w /\ http_gets (snd r) = http_gets w /\
      http_posts (snd r) = http_posts w.
Proof.
  intros path_in ext out_dir env w r.
  assert (Hquiet : input_present w path_in = false ->
            tool_runs (snd r) = tool_runs w /\ files (snd r) = files w /\
            dirs (snd r) = dirs w /\ http_gets (snd r) = http_gets w /\
            http_posts (snd r) = http_posts w).
  { unfold r, to_pdf, to_pdf_with, input_present.
    destruct path_in as [[|c p]|]; try solve [intros _; repeat split].
    intros Hmissing. unfold bind, path_exists. rewrite Hmissing.
    repeat split. }
  destruct (input_present w path_in) eqn:Hin.
  2:{ destruct (Hquiet eq_refl) as (H1 & H2 & H3 & H4 & H5).
      exists [], []. rewrite app_nil_r. simpl. repeat split; auto. }
  clear Hquiet. destruct path_in as [[|c p]|]; try discriminate Hin.
  simpl in Hin.
  pose proof (to_pdf_present c p ext out_dir env w Hin) as Hrun.
  cbv zeta in Hrun.
  match type of Hrun with
  | _ = ?rhs => assert (Hr : r = rhs) by exact Hrun
  end.
  clear Hrun. clearbody r. rewrite Hr. clear Hr.
  pose proof (convert_strategy_frame (c :: p) (lstrip DOT (str_lower ext)) out_dir
                (pdf_path_for (c :: p) out_dir) true env w) as Hframe.
  cbv zeta in Hframe. revert Hframe.
  assert (Hw' : forall l,
            Forall (fun e : pystr * FileContent => fst e = pdf_path_for (c :: p) out_dir) l ->
            Forall (fun e => exists q, Some (c :: p) = Some q /\
                                       fst e = pdf_path_for q out_dir) l).
  { intros l Hl. eapply Forall_impl; [|exact Hl]. intros e He. eauto. }
  destruct (convert_strategy (c :: p) _ out_dir _ true false env w)
    as [[u|e|] w1]; simpl;
    intros (runs & written & Ht & Hlen & Hno & Hf & Hw & Hd & Hg & Hp & _).
  - exists runs, written. repeat split; auto.
  - destruct (can_write env (pdf_path_for (c :: p) out_dir)).
    + exists runs,
        ((pdf_path_for (c :: p) out_dir,
          PlaceholderPdf (os_path_basename (c :: p)) ConversionFailed) :: written).
      simpl. rewrite Hf. repeat split; auto.
    + exists runs, written. simpl. repeat split; auto.
  - exists runs, written. repeat split; auto.
Qed.

End ConvertMore.

(** X6 at a sample: the converted report is given to [to_pdf] again with
    its own directory as output, and is replaced by the placeholder. *)
Lemma to_pdf_overwrite_sample :
  let r := @to_pdf ascii_runtime (Some Cases.converted_pdf) (py ".PDF")
                   (py "dl/2024-06/100/converted")
                   Sample.env Cases.world_converted in
  fst r = Ok (Some Cases.converted_pdf) /\
  lookup Cases.converted_pdf (files (snd r)) =
    Some (PlaceholderPdf (py "1-report_pdf.pdf") ConversionFailed) /\
  tool_runs (snd r) = [].
Proof.
  exact (@to_pdf_overwrites_pdf_at_output_path ascii_runtime
           100%N (py "l/2024-06/100/converted/1-report_pdf.pdf") (py ".PDF")
           (py "dl/2024-06/100/converted") Sample.env Cases.world_converted
           (RawBytes [37; 80; 68; 70]%N) eq_refl eq_refl eq_refl eq_refl).
Defined.

(** X7 at a sample: a downloaded web page gets the unsupported-type
    placeholder. *)
Lemma to_pdf_html_sample :
  let r := @to_pdf ascii_runtime (Some Cases.page_html) (py "HTML")
                   (py "dl/2024-06/100/converted") Sample.env Cases.world_page in
  fst r = Ok (Some (py "dl/2024-06/100/converted/5-page_html.pdf")) /\
  files (snd r) =
    (py "dl/2024-06/100/converted/5-page_html.pdf",
     PlaceholderPdf (py "5-page_html.HTML") UnsupportedType) :: files Cases.world_page /\
  tool_runs (snd r) = [] /\
  stdout (snd r) =
    [LogEvent None (Some (py "5-page_html.HTML")) (py "convert") (py "success") None].
Proof.
  exact (@to_pdf_unsupported_type_gets_placeholder ascii_runtime
           100%N (py "l/2024-06/100/5-page_html.HTML") (py "HTML")
           (py "dl/2024-06/100/converted") Sample.env Cases.world_page
           eq_refl eq_refl eq_refl eq_refl eq_refl).
Defined.

(* ------------------------------------------------------------------ *)
(** * The month, the status label and how a run can end early *)

Lemma split_length (c : N) (s : pystr) :
  length (split c s) = S (count_occ N.eq_dec s c).
Proof.
  induction s as [|x t IH]; simpl; [reflexivity|].
  destruct (N.eq_dec x c) as [->|Hne].
  - rewrite N.eqb_refl. simpl. rewrite IH. reflexivity.
  - rewrite (proj2 (N.eqb_neq x c) Hne).
    destruct (split c t) as [|p ps]; [discriminate IH|]. simpl in *. exact IH.
Qed.

Section Early.
Context `{PyRuntime}.

Lemma get_month_range_cases :
  forall month : pystr,
    match get_month_range month with
    | Ok ((y1, m1, d1), (y2, m2, d2)) =>
        count_occ N.eq_dec month DASH = 1 /\
        map py_int (split DASH month) = [Some y1; Some m1] /\
        y2 = y1 /\ m2 = m1 /\ (1 <= m1 <= 12)%Z /\ d1 = 1%Z /\
        (28 <= d2 <= 31)%Z /\
        (d2 = 29%Z <->
         m1 = 2%Z /\ (y1 mod 4 = 0)%Z /\ ((y1 mod 100 <> 0)%Z \/ (y1 mod 400 = 0)%Z))
    | Raise e => e = ValueError
    | OutOfFuel => False
    end.
Proof.
  intros month. unfold get_month_range.
  pose proof (split_length DASH month) as Hlen.
  rewrite <- (length_map py_int) in Hlen.
  destruct (map py_int (split DASH month)) as [|[y|] [|[m|] [|x l]]];
    try reflexivity.
  destruct ((1 <=? m) && (m <=? 12))%Z eqn:Em; [|reflexivity].
  apply andb_true_iff in Em. destruct Em as [E1 E2].
  apply Z.leb_le in E1. apply Z.leb_le in E2.
  simpl in Hlen.
  split; [lia|]. split; [reflexivity|]. split; [reflexivity|].
  split; [reflexivity|]. split; [lia|]. split; [reflexivity|].
  unfold mdays, isleap.
  assert (Hcase : forall d : Z,
            (28 <= d <= 31)%Z ->
            (d = 29%Z <->
             m = 2%Z /\ (y mod 4 = 0)%Z /\
             ((y mod 100 <> 0)%Z \/ (y mod 400 = 0)%Z)) ->
            (28 <= d <= 31)%Z /\
            (d = 29%Z <->
             m = 2%Z /\ (y mod 4 = 0)%Z /\
             ((y mod 100 <> 0)%Z \/ (y mod 400 = 0)%Z))) by auto.
  destruct (m =? 2)%Z eqn:E2m.
  - apply Z.eqb_eq in E2m. subst m. simpl.
    destruct (y mod 4 =? 0)%Z eqn:E4; simpl.
    + apply Z.eqb_eq in E4.
      destruct (y mod 100 =? 0)%Z eqn:E100; simpl.
      * apply Z.eqb_eq in E100.
        destruct (y mod 400 =? 0)%Z eqn:E400.
        -- apply Z.eqb_eq in E400. apply Hcase; [lia|]. tauto.
        -- apply Z.eqb_neq in E400. apply Hcase; [lia|].
           split; [lia | intros (_ & _ & [Hc|Hc]); contradiction].
      * apply Z.eqb_neq in E100. apply Hcase; [lia|]. tauto.
    + apply Z.eqb_neq in E4. apply Hcase; [lia|].
      split; [lia | intros (_ & Hc & _); contradiction].
  - apply Z.eqb_neq in E2m. simpl. rewrite Z.add_0_r.
    destruct ((m =? 4) || (m =? 6) || (m =? 9) || (m =? 11))%Z;
      (apply Hcase; [lia|]); (split; [lia | intros (Hc & _); contradiction]).
Qed.

(** X9: [get_month_range] accepts only a month with exactly one '-' whose
    two parts [int] accepts and whose second part is between 1 and 12;
    everything else raises [ValueError].  On success both dates have the
    parsed year and month, the first is day 1, and the last is day 28 to
    31, day 29 exactly for February of a leap year. *)
Theorem get_month_range_one_dash_valid_month :
  forall month : pystr,
    match get_month_range month with
    | Ok ((y1, m1, d1), (y2, m2, d2)) =>
        count_occ N.eq_dec month DASH = 1 /\
        map py_int (split DASH month) = [Some y1; Some m1] /\
        y2 = y1 /\ m2 = m1 /\ (1 <= m1 <= 12)%Z /\ d1 = 1%Z /\
        (28 <= d2 <= 31)%Z /\
        (d2 = 29%Z <->
         m1 = 2%Z /\ (y1 mod 4 = 0)%Z /\ ((y1 mod 100 <> 0)%Z \/ (y1 mod 400 = 0)%Z))
    | Raise e => e = ValueError
    | OutOfFuel => False
    end.
Proof. exact get_month_range_cases. Qed.

(** X10: [get_status_index] returns the index of the first label that
    equals the required one up to case.  It raises [ValueError] when no
    label does, and also when the key of the first such label is not an
    integer, even if a later label would do. *)
Theorem get_status_index_first_matching_label :
  forall (labels : list (pystr * pystr)) (required_label : pystr),
    let matches := fun il : pystr * pystr =>
                     str_lower (snd il) = str_lower required_label in
    match get_status_index (Some labels) required_label with
    | Ok i =>
        exists before idx label after,
          labels = before ++ (idx, label) :: after /\
          Forall (fun il => ~ matches il) before /\
          matches (idx, label) /\ py_int idx = Some i
    | Raise e =>
        e = ValueError /\
        (Forall (fun il => ~ matches il) labels \/
         exists before idx label after,
           labels = before ++ (idx, label) :: after /\
           Forall (fun il => ~ matches il) before /\
           matches (idx, label) /\ py_int idx = None)
    | OutOfFuel => False
    end.
Proof.
  intros labels required matches. simpl.
  induction labels as [|[idx label] rest IH]; simpl.
  - split; [reflexivity|]. left. constructor.
  - destruct (str_eqb (str_lower label) (str_lower required)) eqn:E.
    + apply str_eqb_eq in E.
      destruct (py_int idx) as [i|] eqn:Ei.
      * exists [], idx, label, rest. repeat split; auto.
      * split; [reflexivity|]. right.
        exists [], idx, label, rest. repeat split; auto.
    + apply str_eqb_neq in E.
      destruct (get_status_index_loop rest required) as [i|e|].
      * destruct IH as (before & idx' & label' & after & -> & Hb & Hm & Hi).
        exists ((idx, label) :: before), idx', label', after.
        repeat split; auto.
      * destruct IH as [-> [Hnone | (before & idx' & label' & after & -> & Hb & Hm & Hi)]].
        -- split; [reflexivity|]. left. constructor; assumption.
        -- split; [reflexivity|]. right.
           exists ((idx, label) :: before), idx', label', after.
           repeat split; auto.
      * exact IH.
Qed.

Lemma get_status_index_no_match (labels : list (pystr * pystr)) (required : pystr) :
  Forall (fun il => str_lower (snd il) <> str_lower required) labels ->
  get_status_index_loop labels required = Raise ValueError.
Proof.
  induction 1 as [|[idx label] rest Hne _ IH]; simpl; [reflexivity|].
  simpl in Hne. rewrite (proj2 (str_eqb_neq _ _) Hne). exact IH.
Qed.

(** X11: a run ends in [ValueError] before any request and any output
    when the month has no or several '-', or is otherwise refused by
    [get_month_range]. *)
Theorem main_rejects_bad_month_before_any_request :
  forall (fuel : nat) (args : Args.t) (config : Config.t) (env : Env) (w : World),
    (count_occ N.eq_dec (Args.month args) DASH <> 1 ->
     main fuel args config env w = (Raise ValueError, w)) /\
    (forall e, get_month_range (Args.month args) = Raise e ->
               main fuel args config env w = (Raise ValueError, w)).
Proof.
  intros fuel args config env w.
  pose proof (get_month_range_cases (Args.month args)) as Hm.
  assert (Hraise : forall e, get_month_range (Args.month args) = Raise e ->
                             main fuel args config env w = (Raise ValueError, w)).
  { intros e He. rewrite He in Hm. subst e.
    unfold main. unfold bind at 1. unfold lift. rewrite He. reflexivity. }
  split; [|exact Hraise].
  intros Hdash.
  destruct (get_month_range (Args.month args)) as [[[[y1 m1] d1] [[y2 m2] d2]]|e|] eqn:E.
  - destruct Hm as [Hone _]. contradiction.
  - apply (Hraise e). reflexivity.
  - contradiction.
Qed.

(** X12: when the board's status column has no label equal to the
    required one up to case, the run ends in [ValueError] after the one
    query for the column: no item is fetched and nothing is printed or
    written. *)
Theorem main_stops_when_status_label_is_missing :
  forall (fuel : nat) (args : Args.t) (config : Config.t) (env : Env) (w : World)
         (labels : list (pystr * pystr)) dates,
    get_month_range (Args.month args) = Ok dates ->
    api env (http_posts w) (GET_STATUS_COLUMN (Config.board_id config)) =
      ReplyJson None (Some (StatusColumnData (Some labels))) ->
    Forall (fun il => str_lower (snd il) <>
                      str_lower (Config.status_label_required config)) labels ->
    main fuel args config env w =
      (Raise ValueError, set_http_posts (S (http_posts w)) w).
Proof.
  intros fuel args config env w labels dates Hmonth Hreply Hnone.
  unfold main. unfold bind at 1. unfold lift at 1. rewrite Hmonth.
  unfold bind at 1. unfold get_status_column, graphql. simpl retrying.
  rewrite graphql_body_eq, Hreply. simpl.
  unfold bind at 1. unfold lift at 1. simpl.
  unfold bind at 1. unfold lift at 1.
  rewrite (get_status_index_no_match _ _ Hnone). reflexivity.
Qed.

End Early.

(** X11 at a sample: the month "2024/06" is refused at once. *)
Lemma main_bad_month_sample :
  @main ascii_runtime 1 Cases.args_slash Sample.config Sample.env empty_world =
  (Raise ValueError, empty_world).
Proof.
  apply (proj1 (@main_rejects_bad_month_before_any_request ascii_runtime
                  1 Cases.args_slash Sample.config Sample.env empty_world)).
  vm_compute. discriminate.
Defined.

(** X12 at a sample: the board has no label "Closed". *)
Lemma main_missing_label_sample :
  @main ascii_runtime 1 (Sample.args false) Cases.config_closed Sample.env
        empty_world =
  (Raise ValueError, set_http_posts 1 empty_world).
Proof.
  apply (@main_stops_when_status_label_is_missing ascii_runtime
           1 (Sample.args false) Cases.config_closed Sample.env empty_world
           [(py "0", py "Working on it"); (py "1", py "Resolved")]
           ((2024, 6, 1), (2024, 6, 30))%Z eq_refl eq_refl).
  repeat constructor; vm_compute; discriminate.
Defined.

(* ------------------------------------------------------------------ *)
(** * Retrieval and verification *)

Lemma graphql_first_reply (req : Request) (env : Env) (w : World) (data : ApiData) :
  api env (http_posts w) req = ReplyJson None (Some data) ->
  graphql req env w = (Ok data, set_http_posts (S (http_posts w)) w).
Proof.
  intros Hreply. unfold graphql. simpl retrying.
  rewrite graphql_body_eq, Hreply. reflexivity.
Qed.

Lemma fetch_rest_pages (env : Env) (pages : list (list Item.t * option pystr)) :
  forall fuel cursor all_items w,
    pages_served env (http_posts w) cursor pages ->
    length pages <= fuel ->
    fetch_rest fuel cursor all_items env w =
    (Ok (all_items ++ concat (map fst pages)),
     set_http_posts (http_posts w + length pages) w).
Proof.
  induction pages as [|[items next] rest IH]; intros fuel cursor acc w Hserved Hfuel.
  - simpl in Hserved. rewrite app_nil_r. simpl. rewrite Nat.add_0_r.
    destruct w. destruct fuel, cursor as [[|c cur]|]; try discriminate Hserved;
      reflexivity.
  - simpl in Hserved. destruct Hserved as (c & -> & Hc & Hreply & Hrest).
    destruct c as [|c0 c]; [congruence|].
    destruct fuel as [|fuel]; [simpl in Hfuel; lia|].
    simpl fetch_rest. unfold bind at 1. unfold next_items_page.
    rewrite (graphql_first_reply _ _ _ _ Hreply).
    unfold bind at 1. unfold lift at 1. simpl next_page_fields. cbv iota. simpl fst. simpl snd.
    rewrite IH; [|exact Hrest | simpl in Hfuel; lia].
    rewrite <- app_assoc. simpl. f_equal.
    destruct w. unfold set_http_posts. simpl. f_equal. lia.
Qed.

(** X13: when the service answers the first query with a page and a
    cursor and every following query with the next page, the retrieval
    returns the items of all pages in page order and has made one request
    per page; it stops at the first cursor that is null or empty. *)
Theorem fetch_all_concatenates_pages :
  forall (fuel : nat) (board_id : pystr) (env : Env) (w : World)
         (items : list Item.t) (cursor : option pystr)
         (pages : list (list Item.t * option pystr)),
    api env (http_posts w) (GET_ITEMS_PAGE board_id 500) =
      ReplyJson None (Some (ItemsPageData items cursor)) ->
    pages_served env (S (http_posts w)) cursor pages ->
    length pages <= fuel ->
    fetch_all fuel board_id env w =
    (Ok (items ++ concat (map fst pages)),
     set_http_posts (http_posts w + S (length pages)) w).
Proof.
  intros fuel board_id env w items cursor pages Hfirst Hserved Hfuel.
  unfold fetch_all. unfold bind at 1. unfold get_items_page.
  rewrite (graphql_first_reply _ _ _ _ Hfirst).
  unfold bind at 1. unfold lift at 1. simpl first_page_fields. cbv iota.
  simpl fst. simpl snd.
  rewrite (fetch_rest_pages env pages fuel cursor items
             (set_http_posts (S (http_posts w)) w) Hserved Hfuel).
  f_equal. destruct w. unfold set_http_posts. simpl. f_equal. lia.
Qed.

Lemma print_all_ok (l : list Output) (env : Env) (w : World) :
  print_all l env w = (Ok tt, set_stdout (stdout w ++ l) w).
Proof.
  unfold print_all. revert w.
  induction l as [|o l IH]; intros w; simpl.
  - rewrite app_nil_r. destruct w. reflexivity.
  - unfold bind, print. rewrite IH. simpl. rewrite <- app_assoc.
    destruct w. reflexivity.
Qed.

Lemma dedup_In (x : pystr) (l : list pystr) : In x (dedup l) <-> In x l.
Proof.
  induction l as [|y l IH]; simpl; [tauto|].
  destruct (mem y l) eqn:E; simpl; rewrite IH; [|tauto].
  apply mem_In in E. split; [tauto|]. intros [<-|Hx]; assumption.
Qed.

Lemma nothing_missing (resolved found : list pystr) :
  filter (fun i => negb (mem i found)) (dedup resolved) = [] <-> incl resolved found.
Proof.
  split.
  - intros Hnone x Hx.
    destruct (mem x found) eqn:E; [apply mem_In, E|].
    assert (Hin : In x (filter (fun i => negb (mem i found)) (dedup resolved))).
    { apply filter_In. split; [apply dedup_In, Hx | rewrite E; reflexivity]. }
    rewrite Hnone in Hin. contradiction.
  - intros Hincl.
    destruct (filter (fun i => negb (mem i found)) (dedup resolved)) as [|x l] eqn:E;
      [reflexivity|].
    assert (Hin : In x (filter (fun i => negb (mem i found)) (dedup resolved)))
      by (rewrite E; left; reflexivity).
    apply filter_In in Hin. destruct Hin as [Hx Hmem].
    apply dedup_In, Hincl, mem_In in Hx. rewrite Hx in Hmem. discriminate Hmem.
Qed.

Section Verify.
Context `{PyRuntime}.

Lemma resolved_ids (config : Config.t) (month : pystr) (all_items : list Item.t) :
  map Resolved.id (resolved_for_month config month all_items) =
  map Item.id (filter (qualifies config month) all_items).
Proof.
  unfold resolved_for_month, qualifies.
  induction all_items as [|item rest IH]; simpl; [reflexivity|].
  destruct (scan_columns _ _ _) as [status_label open_date_str]. simpl.
  destruct (label_matches _ _ && date_matches _ _ && (0 <? length (Item.assets item)));
    simpl; rewrite IH; reflexivity.
Qed.

Lemma verify_dicts_result (fuel : nat) (config : Config.t) (month : pystr)
    (found all_items : list Item.t) (env : Env) (w w1 : World) :
  fetch_all fuel (Config.board_id config) env (logged (VerifyHeader month) w)
    = (Ok all_items, w1) ->
  fst (verify_all_tickets_found fuel config month (FoundDicts found) env w) =
  Ok (match filter (fun i => negb (mem i (map Item.id found)))
                   (dedup (map Resolved.id (resolved_for_month config month all_items)))
      with [] => true | _ => false end).
Proof.
  intros Hfetch. unfold verify_all_tickets_found.
  unfold bind at 1. unfold print at 1. fold (logged (VerifyHeader month) w).
  unfold bind at 1. rewrite Hfetch.
  unfold bind, print, lift, ret. simpl.
  destruct (filter _ _) as [|i missing]; [reflexivity|].
  rewrite print_all_ok. reflexivity.
Qed.

(** X14: given the item dictionaries that were processed, the
    verification pass returns [True] exactly when every item of the
    re-fetched board that passes the filter's own test (status, month and
    at least one attachment) has its id among the processed ones.  So it
    returns [True] when it is given the filter's result on the same
    items. *)
Theorem verify_true_iff_no_qualifying_item_is_missing :
  forall (fuel : nat) (config : Config.t) (month : pystr)
         (found all_items : list Item.t) (env : Env) (w w1 : World),
    fetch_all fuel (Config.board_id config) env (logged (VerifyHeader month) w)
      = (Ok all_items, w1) ->
    let r := verify_all_tickets_found fuel config month (FoundDicts found) env w in
    (exists b, fst r = Ok b) /\
    (fst r = Ok true <->
     incl (map Item.id (filter (qualifies config month) all_items))
          (map Item.id found)) /\
    (found = filter (qualifies config month) all_items -> fst r = Ok true).
Proof.
  intros fuel config month found all_items env w w1 Hfetch r.
  pose proof (verify_dicts_result fuel config month found all_items env w w1 Hfetch)
    as Hr.
  fold r in Hr. rewrite resolved_ids in Hr.
  pose proof (nothing_missing
                (map Item.id (filter (qualifies config month) all_items))
                (map Item.id found)) as Hmiss.
  assert (Hiff : fst r = Ok true <->
                 incl (map Item.id (filter (qualifies config month) all_items))
                      (map Item.id found)).
  { rewrite Hr, <- Hmiss.
    destruct (filter _ (dedup _)); split; intros E; try reflexivity; discriminate E. }
  split; [rewrite Hr; eauto|]. split; [exact Hiff|].
  intros ->. apply Hiff, incl_refl.
Qed.

End Verify.

(** X13 at a sample: a board served in two pages, the second with an
    empty cursor. *)
Lemma fetch_all_paged_sample :
  fetch_all 1 (py "42") Cases.env_paged empty_world =
  (Ok [Sample.item_A; Sample.item_open; Sample.item_B; Sample.item_C],
   set_http_posts 2 empty_world).
Proof.
  apply (fetch_all_concatenates_pages 1 (py "42") Cases.env_paged empty_world
           [Sample.item_A; Sample.item_open] (Some (py "c1"))
           [([Sample.item_B; Sample.item_C], Some [])] eq_refl).
  - exists (py "c1"). repeat split. discriminate.
  - simpl. lia.
Defined.

(** X14 at a sample: the filtered items of the sample board pass their
    verification. *)
Lemma verify_sample :
  fst (@verify_all_tickets_found ascii_runtime 1 Sample.config (py "2024-06")
         (FoundDicts (filter (@qualifies ascii_runtime Sample.config (py "2024-06"))
                             Sample.board))
         Sample.env empty_world) = Ok true.
Proof.
  refine (proj2 (proj2 (@verify_true_iff_no_qualifying_item_is_missing ascii_runtime
            1 Sample.config (py "2024-06") _ Sample.board Sample.env empty_world
            _ _)) eq_refl).
  vm_compute. reflexivity.
Defined.

(* ------------------------------------------------------------------ *)
(** * The layout of the summary *)

Lemma table_rows_within (tickets : list TicketRow.t) :
  forall idx y,
    (50 <= y <= 760)%Z -> Forall within_margins (table_rows tickets idx y).
Proof.
  induction tickets as [|t rest IH]; intros idx y Hy; simpl; [constructor|].
  repeat (constructor; [simpl; lia|]).
  destruct (y - 18 <? 50)%Z eqn:E.
  - simpl. repeat (constructor; [simpl; try lia; exact I|]).
    apply IH. lia.
  - apply Z.ltb_ge in E. apply IH. lia.
Qed.

Lemma ticket_bullets_within (ticket_list : list pystr) :
  forall y,
    (y <= 800)%Z ->
    Forall within_margins (fst (ticket_bullets ticket_list y)) /\
    (snd (ticket_bullets ticket_list y) <= y)%Z.
Proof.
  induction ticket_list as [|ticket rest IH]; intros y Hy; simpl.
  - split; [constructor | lia].
  - destruct (IH (y - 12)%Z) as [Hops Hend]; [lia|].
    split; [constructor; [exact Hy | exact Hops] | lia].
Qed.

Lemma shared_files_within (shared : list (pystr * list pystr)) :
  forall y,
    (80 <= y <= 780)%Z -> Forall within_margins (shared_files shared y).
Proof.
  induction shared as [|[filename ticket_list] rest IH]; intros y Hy; simpl;
    [constructor|].
  destruct (ticket_bullets_within ticket_list (y - 15)%Z) as [Hops Hend]; [lia|].
  constructor; [simpl; lia|].
  apply Forall_app. split; [exact Hops|].
  destruct (snd (ticket_bullets ticket_list (y - 15)) - 5 <? 80)%Z eqn:E.
  - constructor; [exact I|]. apply IH. lia.
  - apply Z.ltb_ge in E. apply IH. lia.
Qed.

(** X15: on the summary no table row is drawn below the bottom margin:
    every cell of the ticket table lies at a height between 50 and 760,
    every file name of the list of shared attachments between 80 and 780,
    and nothing above 800.  (The tickets under a shared file name have
    no lower bound: the page is only broken between files.) *)
Theorem summary_rows_stay_within_the_page :
  forall (tickets : list TicketRow.t) (month board_id output_path : pystr)
         (attachment_map : AttachmentMap),
    Forall within_margins
           (summary_canvas tickets month board_id output_path attachment_map).
Proof.
  intros tickets month board_id output_path amap. unfold summary_canvas.
  repeat (apply Forall_app; split).
  - repeat (constructor; [simpl; try lia; exact I|]). constructor.
  - destruct (has_entries amap); repeat constructor. simpl. lia.
  - repeat constructor.
  - destruct (has_entries amap); unfold header_cells;
      repeat (constructor; [simpl; lia|]); constructor.
  - repeat constructor.
  - apply table_rows_within. destruct (has_entries amap); lia.
  - destruct (has_entries amap); [|constructor].
    destruct (shared_with_tickets amap) as [|s shared]; [constructor|].
    apply Forall_app. split.
    + repeat (constructor; [simpl; try lia; exact I|]). constructor.
    + apply shared_files_within. lia.
  - repeat constructor.
Qed.

Lemma div40_step (n : nat) : 40 <= n -> n / 40 = 1 + (n - 40) / 40.
Proof.
  intros Hn. replace n with ((n - 40) + 1 * 40) at 1 by lia.
  rewrite Nat.div_add by lia. lia.
Qed.

(** The page breaks of the table, with [r] rows left on the page. *)
Lemma table_rows_breaks (tickets : list TicketRow.t) :
  forall idx y r b,
    (y = b + 18 * (Z.of_nat r - 1))%Z -> (50 <= b < 68)%Z -> 1 <= r ->
    length (filter is_show_page (table_rows tickets idx y)) =
    if length tickets <? r then 0 else 1 + (length tickets - r) / 40.
Proof.
  induction tickets as [|t rest IH]; intros idx y r b Hy Hb Hr.
  - simpl. destruct r; [lia | reflexivity].
  - cbn -[Nat.div Nat.ltb Z.ltb Z.sub Nat.sub Nat.add].
    destruct (y - 18 <? 50)%Z eqn:E.
    + apply Z.ltb_lt in E. assert (r = 1) by lia. subst r.
      cbn -[Nat.div Nat.ltb Z.ltb Z.sub Nat.sub Nat.add].
      rewrite (IH (S idx) 760%Z 40 58%Z) by lia.
      destruct (Nat.ltb_spec (S (length rest)) 1) as [Hlt'|_]; [lia|].
      replace (S (length rest) - 1) with (length rest) by lia.
      destruct (Nat.ltb_spec (length rest) 40) as [Hlt|Hge].
      * rewrite Nat.div_small by lia. lia.
      * rewrite (div40_step (length rest)) by lia. lia.
    + apply Z.ltb_ge in E. assert (2 <= r) by lia.
      rewrite (IH (S idx) (y - 18)%Z (r - 1) b) by lia.
      destruct (Nat.ltb_spec (length rest) (r - 1)) as [Hlt|Hge];
        destruct (Nat.ltb_spec (S (length rest)) r) as [Hlt'|Hge']; try lia.
      replace (S (length rest) - r) with (length rest - (r - 1)) by lia.
      reflexivity.
Qed.

(** X16: without shared attachments the summary of [n] tickets has one
    page while the table fits the first page (36 rows when the line with
    the unique attachments is there, 37 otherwise), and from then on one
    more page for every 40 rows begun; a table that ends exactly at the
    foot of a page is followed by a page that holds only the column
    headers. *)
Theorem summary_page_count :
  forall (tickets : list TicketRow.t) (month board_id output_path : pystr)
         (attachment_map : AttachmentMap),
    shared_with_tickets attachment_map = [] ->
    page_count (summary_canvas tickets month board_id output_path attachment_map) =
    if length tickets <? first_page_rows attachment_map then 1
    else 2 + (length tickets - first_page_rows attachment_map) / 40.
Proof.
  intros tickets month board_id output_path amap Hshared.
  unfold page_count, summary_canvas, first_page_rows. rewrite Hshared.
  rewrite !filter_app, !length_app.
  destruct (has_entries amap); cbn -[Nat.div Nat.ltb table_rows].
  - rewrite (table_rows_breaks tickets 1 690%Z 36 60%Z) by lia.
    destruct (length tickets <? 36); lia.
  - rewrite (table_rows_breaks tickets 1 700%Z 37 52%Z) by lia.
    destruct (length tickets <? 37); lia.
Qed.

(** X16 at a sample: 36 tickets fill the first page, and a second page
    with the headers alone follows. *)
Lemma summary_page_count_sample :
  page_count (summary_canvas (repeat Cases.row_A 36) (py "2024-06") (py "42")
                             (py "out/2024-06-summary.pdf") Cases.index_A) = 2.
Proof.
  exact (summary_page_count (repeat Cases.row_A 36) (py "2024-06") (py "42")
           (py "out/2024-06-summary.pdf") Cases.index_A eq_refl).
Defined.

(* ------------------------------------------------------------------ *)
(** * The figures of the workbook, and the merge *)

Lemma excel_total_of_rows (ticket_rows : list TicketRow.t) :
  excel_total_attachments (excel_tickets_of ticket_rows) =
  Z.of_nat (total_attachments ticket_rows).
Proof.
  unfold excel_total_attachments, excel_tickets_of, total_attachments.
  rewrite map_map. simpl. f_equal. f_equal. apply map_ext.
  intros t. apply length_map.
Qed.

Lemma excel_with_attachments (ticket_rows : list TicketRow.t) :
  Forall (fun t => TicketRow.attachments t <> []) ticket_rows ->
  length (filter (fun t => match ExcelTicket.attachments t with
                           | [] => false
                           | _ => true
                           end) (excel_tickets_of ticket_rows)) =
  length ticket_rows.
Proof.
  intros Hrows. rewrite filter_all; [apply length_map|].
  unfold excel_tickets_of. apply Forall_map.
  eapply Forall_impl; [|exact Hrows]. intros t Ht. simpl.
  destruct (TicketRow.attachments t) eqn:E;
    [exfalso; apply Ht; first [exact E | reflexivity] | reflexivity].
Qed.

Lemma index_size_le_total (config : Config.t) (items : list Item.t) :
  length (snd (build_index config items)) <=
  total_attachments (fst (build_index config items)).
Proof.
  rewrite total_attachments_references.
  pose proof (index_size _ _ (build_index_inv config items)) as Hsize.
  rewrite tagged_references_snd in Hsize. rewrite Hsize.
  unfold distinct_count.
  destruct (nodup_length (names_of (references items))) as [Hle _].
  unfold names_of in Hle. rewrite length_map in Hle. exact Hle.
Qed.

Section Figures.
Context `{PyRuntime}.

Lemma filtered_rows_have_attachments (args : Args.t) (config : Config.t)
    (all_items : list Item.t) :
  Forall (fun t => TicketRow.attachments t <> [])
         (fst (build_index config (filter_items args config all_items))).
Proof.
  unfold build_index. rewrite build_rows. simpl.
  apply Forall_map.
  eapply Forall_impl; [|apply (filter_items_qualify args config all_items)].
  intros item [_ Hitem]. simpl.
  unfold qualifies in Hitem. apply andb_true_iff in Hitem.
  destruct Hitem as [_ Hlen]. apply Nat.ltb_lt in Hlen.
  destruct (Item.assets item) as [|a assets] eqn:Ea; [simpl in Hlen; lia|].
  intros Hempty.
  pose proof (dedupe_assets_keys (a :: assets) a (or_introl eq_refl)) as Hin.
  rewrite Hempty in Hin. exact Hin.
Qed.

(** X17: the summary sheet of a run shows the number of tickets, the
    number of attachment references, the number of index entries and
    their difference as the duplicates removed, which is never negative
    and is the number the PDF summary prints as saved; every ticket counts
    as a ticket with attachments, none as one without. *)
Theorem workbook_figures_agree_with_the_summary :
  forall (args : Args.t) (config : Config.t) (all_items : list Item.t)
         (month board_id output_path : pystr),
    let filtered_items := filter_items args config all_items in
    let ticket_rows := fst (build_index config filtered_items) in
    let attachment_map := snd (build_index config filtered_items) in
    let total := Z.of_nat (total_attachments ticket_rows) in
    let unique := Z.of_nat (length attachment_map) in
    run_stats ticket_rows attachment_map =
      [(py "Total Resolved Tickets", Z.of_nat (length ticket_rows));
       (py "Total Attachments", total);
       (py "Unique Attachments (After Deduplication)", unique);
       (py "Duplicate Attachments Removed", (total - unique)%Z)]
      ++ match excel_shared_of attachment_map with
         | [] => []
         | shared => [(py "Shared Attachment Files", Z.of_nat (length shared))]
         end
      ++ [(py "Tickets with Attachments", Z.of_nat (length ticket_rows));
          (py "Tickets without Attachments", 0%Z)] /\
    (0 <= total - unique)%Z /\
    (filtered_items <> [] ->
     In (DrawString 50 735 (UniqueLine (length attachment_map) (total - unique)))
        (summary_canvas ticket_rows month board_id output_path attachment_map)).
Proof.
  intros args config all_items month board_id output_path items rows amap total unique.
  pose proof (filtered_rows_have_attachments args config all_items) as Hrows.
  fold items rows in Hrows.
  split; [|split].
  - unfold run_stats, summary_stats.
    rewrite excel_total_of_rows, (excel_with_attachments rows Hrows).
    unfold excel_tickets_of, unique_attachments_of. rewrite !length_map.
    fold total unique. rewrite Z.sub_diag.
    destruct (excel_shared_of amap); reflexivity.
  - pose proof (index_size_le_total config items). unfold total, unique, rows, amap. lia.
  - intros Hne.
    assert (Hamap : has_entries amap = true).
    { destruct items as [|item rest] eqn:Eitems; [congruence|].
      assert (Hrow : rows = map (row_of config) (item :: rest))
        by (unfold rows, build_index; rewrite build_rows; reflexivity).
      rewrite Hrow in Hrows. inversion Hrows as [|? ? Hatt _]; subst.
      simpl in Hatt.
      destruct (dedupe_assets (Item.assets item)) as [|a assets] eqn:Ed;
        [congruence|].
      destruct (build_index_inv config (item :: rest)) as (_ & Hkeys & _ & _).
      assert (Hk : In (Asset.name a) (keys amap)).
      { apply Hkeys. rewrite tagged_references_snd. unfold references. simpl.
        rewrite Ed. simpl. left. reflexivity. }
      destruct amap; [contradiction | reflexivity]. }
    unfold summary_canvas. rewrite Hamap.
    apply in_or_app. right. apply in_or_app. left. left. reflexivity.
Qed.

End Figures.

(** X18: the summary cell of the ticket sheet never holds more than 100
    characters: a summary of up to 100 characters is kept, a longer one is
    cut to its first 97 characters followed by three dots. *)
Theorem truncate_summary_at_most_100 :
  forall summary : pystr,
    length (truncate_summary summary) <= 100 /\
    (length summary <= 100 -> truncate_summary summary = summary) /\
    (100 < length summary ->
     truncate_summary summary = firstn 97 summary ++ py "..." /\
     length (truncate_summary summary) = 100).
Proof.
  intros summary. unfold truncate_summary.
  destruct (Nat.ltb_spec 100 (length summary)) as [Hlong|Hshort].
  - assert (Hlen : length (firstn 97 summary ++ py "...") = 100).
    { rewrite length_app, length_firstn. change (length (py "...")) with 3. lia. }
    split; [lia|]. split; [lia | auto].
  - split; [exact Hshort|]. split; [reflexivity | lia].
Qed.

Lemma PdfReader_eq (pdf : pystr) (env : Env) (w : World) :
  PdfReader pdf env w =
  if is_readable_pdf env w pdf
  then (match lookup pdf (files w) with
        | Some c => Ok c
        | None => Raise FileNotFoundError
        end, w)
  else (Raise (reader_error w pdf), w).
Proof.
  unfold PdfReader, is_readable_pdf, reader_error, is_file.
  destruct (lookup pdf (files w)) as [c|].
  - destruct (pdf_readable env c); reflexivity.
  - destruct (mem pdf (dirs w)); reflexivity.
Qed.

Lemma read_all (pdfs : list pystr) (env : Env) (w : World) :
  for_each (fun (_ : unit) pdf => PdfReader pdf ;; ret tt) pdfs tt env w =
  match reading_error env w pdfs with
  | None => (Ok tt, w)
  | Some e => (Raise e, w)
  end.
Proof.
  induction pdfs as [|pdf rest IH]; simpl; [reflexivity|].
  unfold bind at 1. unfold bind at 1. rewrite PdfReader_eq.
  destruct (is_readable_pdf env w pdf) eqn:E; [|reflexivity].
  unfold is_readable_pdf in E.
  destruct (lookup pdf (files w)); [exact IH | discriminate E].
Qed.

Lemma merge_pdfs_eq (summary_pdf : pystr) (item_pdfs : list pystr)
    (output_path : pystr) (env : Env) (w : World) :
  merge_pdfs summary_pdf item_pdfs output_path env w =
  match reading_error env w (summary_pdf :: item_pdfs) with
  | Some e => (Raise e, w)
  | None =>
      if can_write env output_path
      then (Ok output_path,
            logged (LogEvent None None (py "merge") (py "success") None)
                   (set_files ((output_path, MergedPdf (summary_pdf :: item_pdfs))
                                 :: files w) w))
      else (Raise OSError, w)
  end.
Proof.
  unfold merge_pdfs. unfold bind at 1. rewrite PdfReader_eq.
  simpl reading_error.
  destruct (is_readable_pdf env w summary_pdf) eqn:E; [|reflexivity].
  unfold is_readable_pdf in E.
  destruct (lookup summary_pdf (files w)) as [c|]; [|discriminate E].
  unfold bind at 1. rewrite read_all.
  destruct (reading_error env w item_pdfs); [reflexivity|].
  unfold bind, write_file. simpl.
  destruct (can_write env output_path); reflexivity.
Qed.

Lemma reading_error_none (env : Env) (w : World) (pdfs : list pystr) :
  reading_error env w pdfs = None <-> forallb (is_readable_pdf env w) pdfs = true.
Proof.
  induction pdfs as [|pdf rest IH]; simpl; [tauto|].
  destruct (is_readable_pdf env w pdf); simpl; [exact IH|].
  split; discriminate.
Qed.

Lemma reading_error_first (env : Env) (w : World)
    (before : list pystr) (bad : pystr) (after : list pystr) :
  forallb (is_readable_pdf env w) before = true ->
  is_readable_pdf env w bad = false ->
  reading_error env w (before ++ bad :: after) = Some (reader_error w bad).
Proof.
  intros Hbefore Hbad.
  induction before as [|pdf rest IH]; simpl.
  - rewrite Hbad. reflexivity.
  - simpl in Hbefore. apply andb_true_iff in Hbefore.
    destruct Hbefore as [Hpdf Hrest]. rewrite Hpdf. apply IH, Hrest.
Qed.

(** X19: [merge_pdfs] opens and parses the summary and every item PDF, in
    order, before it opens its output.  When all of them are files that
    pypdf reads and the output can be written, the output holds the
    summary followed by the item PDFs in their order, and the success is
    logged.  Otherwise it raises and leaves every file, and the log, as
    they were: the error is that of the first input that fails,
    [PdfReadError] when it is a file that does not parse,
    [IsADirectoryError] when it is a directory and [FileNotFoundError]
    when it is missing.  It returns nothing but its output path. *)
Theorem merge_pdfs_all_or_nothing :
  forall (summary_pdf : pystr) (item_pdfs : list pystr) (output_path : pystr)
         (env : Env) (w : World),
    let r := merge_pdfs summary_pdf item_pdfs output_path env w in
    let inputs := summary_pdf :: item_pdfs in
    (forallb (is_readable_pdf env w) inputs = true ->
     can_write env output_path = true ->
     fst r = Ok output_path /\
     files (snd r) = (output_path, MergedPdf inputs) :: files w /\
     stdout (snd r) =
       stdout w ++ [LogEvent None None (py "merge") (py "success") None]) /\
    (forall before bad after,
        inputs = before ++ bad :: after ->
        forallb (is_readable_pdf env w) before = true ->
        is_readable_pdf env w bad = false ->
        r = (Raise (reader_error w bad), w)) /\
    (can_write env output_path = false ->
     (exists e, fst r = Raise e) /\ snd r = w) /\
    (forall p, fst r = Ok p ->
               p = output_path /\
               forallb (is_readable_pdf env w) inputs = true /\
               can_write env output_path = true).
Proof.
  intros summary_pdf item_pdfs output_path env w r inputs.
  unfold r. rewrite merge_pdfs_eq. fold inputs.
  pose proof (reading_error_none env w inputs) as Hnone.
  split; [|split; [|split]].
  - intros Hpdfs Hwrite.
    rewrite (proj2 Hnone Hpdfs), Hwrite. simpl. repeat split.
  - intros before bad after Hsplit Hbefore Hbad.
    rewrite Hsplit, (reading_error_first env w before bad after Hbefore Hbad).
    reflexivity.
  - intros Hwrite. rewrite Hwrite.
    destruct (reading_error env w inputs); simpl; eauto.
  - intros p.
    destruct (reading_error env w inputs) as [e|]; [intros E; discriminate E|].
    destruct (can_write env output_path); simpl; intros E; [|discriminate E].
    injection E as <-. split; [reflexivity|]. split; [|reflexivity].
    apply Hnone. reflexivity.
Qed.

(** X19 at a sample: the summary is a PDF, the first item PDF holds four
    downloaded bytes that do not parse, and the second is missing; the
    merge raises for the first of the two and writes nothing. *)
Lemma merge_pdfs_unreadable_first_sample :
  let w := set_files [(py "out/2024-06-summary.pdf", SummaryPdf []);
                      (Cases.converted_pdf, RawBytes [37; 80; 68; 70]%N)]
                     empty_world in
  merge_pdfs (py "out/2024-06-summary.pdf")
             [Cases.converted_pdf; py "dl/2024-06/100/converted/missing.pdf"]
             (py "out/2024-06-Resolved-Tickets.pdf") Sample.env w
  = (Raise PdfReadError, w).
Proof.
  intros w.
  exact (proj1 (proj2 (merge_pdfs_all_or_nothing (py "out/2024-06-summary.pdf")
                         [Cases.converted_pdf;
                          py "dl/2024-06/100/converted/missing.pdf"]
                         (py "out/2024-06-Resolved-Tickets.pdf")
                         Sample.env w))
               [py "out/2024-06-summary.pdf"] Cases.converted_pdf
               [py "dl/2024-06/100/converted/missing.pdf"]
               eq_refl eq_refl eq_refl).
Defined.

(* ------------------------------------------------------------------ *)
(** * The status breakdown of the workbook *)

Lemma first_occurrences_In (x : pystr) (l : list pystr) :
  In x (first_occurrences l) <-> In x l.
Proof.
  induction l as [|n l IH]; simpl; [tauto|].
  rewrite filter_In, IH, negb_true_iff, str_eqb_neq.
  destruct (pystr_eq_dec x n) as [->|Hne]; [tauto|].
  split.
  - intros [E|[Hx _]]; [left; exact E | right; exact Hx].
  - intros [E|Hx]; [left; exact E | right; split; assumption].
Qed.

Lemma first_occurrences_snoc (l : list pystr) (s : pystr) :
  first_occurrences (l ++ [s]) =
  if mem s l then first_occurrences l else first_occurrences l ++ [s].
Proof.
  induction l as [|n l IH]; [reflexivity|].
  simpl. rewrite IH.
  destruct (str_eqb s n) eqn:Es; simpl.
  - destruct (mem s l); [reflexivity|].
    rewrite filter_app. simpl. rewrite Es. simpl.
    rewrite app_nil_r. reflexivity.
  - destruct (mem s l); [reflexivity|].
    rewrite filter_app. simpl. rewrite Es. reflexivity.
Qed.

Lemma count_occ_snoc (l : list pystr) (s k : pystr) :
  count_occ pystr_eq_dec (l ++ [s]) k =
  count_occ pystr_eq_dec l k + (if str_eqb s k then 1 else 0).
Proof.
  rewrite count_occ_app. simpl. unfold str_eqb.
  destruct (pystr_eq_dec s k); reflexivity.
Qed.

Lemma existsb_on_map {A B} (f : A -> B) (p : B -> bool) (l : list A) :
  existsb p (map f l) = existsb (fun x => p (f x)) l.
Proof.
  induction l as [|x l IH]; simpl; [reflexivity|]. rewrite IH. reflexivity.
Qed.

Lemma status_counts_fold (statuses : list pystr) :
  fold_left count_status statuses [] =
  map (fun k => (k, count_occ pystr_eq_dec statuses k))
      (first_occurrences statuses).
Proof.
  induction statuses as [|s l IH] using rev_ind; [reflexivity|].
  rewrite fold_left_app, IH, first_occurrences_snoc. simpl.
  unfold count_status.
  rewrite existsb_on_map. simpl.
  assert (Hmem : existsb (fun k => str_eqb s k) (first_occurrences l) = mem s l).
  { change (existsb (fun k => str_eqb s k) (first_occurrences l))
      with (mem s (first_occurrences l)).
    apply eq_true_iff_eq. rewrite !mem_In. apply first_occurrences_In. }
  rewrite Hmem. destruct (mem s l) eqn:E.
  - rewrite map_map. apply map_ext. intros k. simpl.
    rewrite count_occ_snoc. destruct (str_eqb s k); [reflexivity|].
    rewrite Nat.add_0_r. reflexivity.
  - rewrite map_app. simpl. f_equal.
    + apply map_ext_in. intros k Hk.
      rewrite count_occ_snoc.
      destruct (str_eqb s k) eqn:Es; [|rewrite Nat.add_0_r; reflexivity].
      apply str_eqb_eq in Es. subst k.
      apply (proj1 (first_occurrences_In _ _)) in Hk.
      apply (proj2 (mem_In _ _)) in Hk.
      rewrite E in Hk. discriminate.
    + rewrite count_occ_snoc, str_eqb_refl.
      assert (Hnot : ~ In s l) by (rewrite <- mem_In, E; discriminate).
      rewrite (proj1 (count_occ_not_In pystr_eq_dec l s) Hnot). reflexivity.
Qed.

Lemma count_occ_repeat (s k : pystr) (n : nat) :
  count_occ pystr_eq_dec (repeat s n) k = if str_eqb s k then n else 0.
Proof.
  induction n as [|n IH]; simpl.
  - destruct (str_eqb s k); reflexivity.
  - rewrite IH. unfold str_eqb. destruct (pystr_eq_dec s k); reflexivity.
Qed.

(** X20: the status breakdown of the summary sheet lists every status once,
    in the order in which the statuses are first met among the tickets, each
    with the number of tickets that have it; the counts add up to the number
    of tickets.  For the tickets of a run, which all carry the status
    "Resolved", the breakdown is the single line "Resolved" with the number
    of tickets, and it is empty when there is no ticket. *)
Theorem status_counts_per_status_in_first_seen_order :
  (forall tickets : list ExcelTicket.t,
      let statuses := map ExcelTicket.status tickets in
      status_counts tickets =
        map (fun k => (k, count_occ pystr_eq_dec statuses k))
            (first_occurrences statuses) /\
      list_sum (map snd (status_counts tickets)) = length tickets) /\
  (forall ticket_rows : list TicketRow.t,
      status_counts (excel_tickets_of ticket_rows) =
        match ticket_rows with
        | [] => []
        | _ => [(py "Resolved", length ticket_rows)]
        end).
Proof.
  assert (Heq : forall tickets, status_counts tickets =
                map (fun k => (k, count_occ pystr_eq_dec
                                            (map ExcelTicket.status tickets) k))
                    (first_occurrences (map ExcelTicket.status tickets)))
    by (intros tickets; apply status_counts_fold).
  split; [intros tickets statuses; split; [apply Heq|] |].
  - rewrite Heq, map_map. simpl.
    replace (length tickets) with (length statuses)
      by (unfold statuses; apply length_map).
    fold statuses. clear Heq. generalize statuses. clear.
    intros statuses.
    induction statuses as [|s l IH] using rev_ind; [reflexivity|].
    rewrite first_occurrences_snoc, length_app. simpl.
    destruct (mem s l) eqn:E.
    + rewrite (map_ext _ (fun k => count_occ pystr_eq_dec l k +
                                   (if str_eqb s k then 1 else 0)))
        by (intros k; apply count_occ_snoc).
      assert (Hsum : forall ks,
                 NoDup ks -> In s ks ->
                 list_sum (map (fun k => count_occ pystr_eq_dec l k +
                                         (if str_eqb s k then 1 else 0)) ks) =
                 list_sum (map (count_occ pystr_eq_dec l) ks) + 1).
      { induction ks as [|k ks IHks]; intros Hnd Hin; [destruct Hin|].
        inversion Hnd as [|? ? Hk Hnd']; subst. simpl.
        destruct (str_eqb s k) eqn:Es.
        - apply str_eqb_eq in Es. subst k.
          rewrite (map_ext_in _ (count_occ pystr_eq_dec l)); [lia|].
          intros k Hk'. destruct (str_eqb s k) eqn:Es; [|lia].
          apply str_eqb_eq in Es. subst k. contradiction.
        - destruct Hin as [->|Hin]; [rewrite str_eqb_refl in Es; discriminate|].
          rewrite (IHks Hnd' Hin). lia. }
      rewrite Hsum; [f_equal; exact IH | | ].
      * clear. induction l as [|n l IHl]; simpl; constructor.
        -- rewrite filter_In, str_eqb_refl. intros [_ H]. discriminate.
        -- apply NoDup_filter. exact IHl.
      * apply (proj2 (first_occurrences_In _ _)), (proj1 (mem_In _ _)). exact E.
    + rewrite map_app, list_sum_app. simpl.
      rewrite count_occ_snoc, str_eqb_refl.
      assert (Hnot : ~ In s l) by (rewrite <- mem_In, E; discriminate).
      rewrite (proj1 (count_occ_not_In pystr_eq_dec l s) Hnot).
      rewrite (map_ext_in _ (fun x => count_occ pystr_eq_dec l x));
        [rewrite IH; lia|].
      intros k Hk. rewrite count_occ_snoc.
      destruct (str_eqb s k) eqn:Es; [|lia].
      apply str_eqb_eq in Es. subst k.
      apply (proj1 (first_occurrences_In _ _)) in Hk. contradiction.
  - intros ticket_rows.
    assert (Hst : map ExcelTicket.status (excel_tickets_of ticket_rows) =
                  repeat (py "Resolved") (length ticket_rows)).
    { unfold excel_tickets_of. rewrite map_map.
      simpl. clear. induction ticket_rows as [|r rs IH]; simpl; [reflexivity|].
      rewrite IH. reflexivity. }
    rewrite Heq, Hst. clear.
    destruct ticket_rows as [|r rs]; [reflexivity|].
    simpl length. simpl repeat. simpl first_occurrences.
    assert (Hfo : forall n,
               filter (fun m => negb (str_eqb m (py "Resolved")))
                      (first_occurrences (repeat (py "Resolved") n)) = []).
    { intros n.
      assert (Hall : forall k, In k (first_occurrences (repeat (py "Resolved") n)) ->
                               k = py "Resolved").
      { intros k Hk. apply (proj1 (first_occurrences_In _ _)) in Hk.
        apply repeat_spec in Hk. exact Hk. }
      induction (first_occurrences (repeat (py "Resolved") n)) as [|k ks IHks];
        [reflexivity|].
      simpl. rewrite (proj2 (str_eqb_eq _ _) (Hall k (or_introl eq_refl))).
      simpl. apply IHks. intros k' Hk'. apply Hall. right. exact Hk'. }
    rewrite Hfo. simpl map.
    change (py "Resolved" :: repeat (py "Resolved") (length rs))
      with (repeat (py "Resolved") (S (length rs))).
    rewrite count_occ_repeat, str_eqb_refl. reflexivity.
Qed.

(* ------------------------------------------------------------------ *)
(** * The ticket whose directory an attachment is downloaded to *)

Lemma existsb_as_filter {A} (f : A -> bool) (l : list A) :
  existsb f l = match filter f l with [] => false | _ => true end.
Proof.
  induction l as [|x l IH]; simpl; [reflexivity|].
  destruct (f x); [reflexivity | exact IH].
Qed.

Lemma references_named_tagged (k n : pystr) (assets : list Asset.t) :
  references_named k (map (pair n) assets) =
  map (pair n) (filter (fun a => str_eqb (Asset.name a) k) assets).
Proof.
  unfold references_named.
  induction assets as [|a assets IH]; simpl; [reflexivity|].
  destruct (str_eqb (Asset.name a) k); simpl; rewrite IH; reflexivity.
Qed.

(** The first row that holds an attachment named [k] belongs to the item
    of the first reference named [k]. *)
Lemma first_row_is_first_reference (config : Config.t) (k : pystr)
    (items : list Item.t) :
  hd_error (map TicketRow.item_name
              (filter (fun t => existsb (fun a => str_eqb (Asset.name a) k)
                                        (TicketRow.attachments t))
                      (map (row_of config) items))) =
  hd_error (map fst (references_named k (tagged_references items))).
Proof.
  induction items as [|item rest IH]; [reflexivity|].
  unfold tagged_references. simpl flat_map. fold (tagged_references rest).
  unfold references_named at 1. rewrite filter_app.
  fold (references_named k (map (pair (Item.name item))
                                (dedupe_assets (Item.assets item)))).
  fold (references_named k (tagged_references rest)).
  rewrite references_named_tagged, map_app. simpl map at 1. simpl filter.
  change (TicketRow.attachments (row_of config item))
    with (dedupe_assets (Item.assets item)).
  rewrite existsb_as_filter.
  destruct (filter (fun a => str_eqb (Asset.name a) k)
                   (dedupe_assets (Item.assets item))) as [|a l].
  - exact IH.
  - reflexivity.
Qed.

(** X21: for every entry of the index, line 181 finds a ticket (it never
    raises [IndexError]): the first ticket row that holds an attachment of
    the entry's name.  That row belongs to the ticket named first in the
    entry's ticket list, so a shared attachment is downloaded to the
    directory of the first ticket that refers to it. *)
Theorem first_ticket_is_head_of_ticket_list :
  forall (config : Config.t) (filtered_items : list Item.t),
    let ticket_rows := fst (build_index config filtered_items) in
    let attachment_map := snd (build_index config filtered_items) in
    Forall (fun e =>
              exists first_ticket,
                first_ticket_for ticket_rows (fst (snd e)) = Ok first_ticket /\
                In first_ticket ticket_rows /\
                existsb (fun a => str_eqb (Asset.name a) (fst e))
                        (TicketRow.attachments first_ticket) = true /\
                hd_error (snd (snd e)) = Some (TicketRow.item_name first_ticket))
           attachment_map.
Proof.
  intros config items rows amap.
  pose proof (canonical_names_build config items) as Hcanon.
  pose proof (build_index_entries config items) as Hentries.
  unfold entries_inv in Hentries. fold amap in Hcanon, Hentries.
  assert (Hrows : rows = map (row_of config) items).
  { unfold rows, build_index. rewrite build_rows. reflexivity. }
  apply Forall_forall. intros e He.
  rewrite Forall_forall in Hcanon, Hentries.
  specialize (Hcanon e He). destruct (Hentries e He) as [_ Htickets].
  destruct (first_ticket_exists config items (fst (snd e))) as [t Ht].
  { unfold unique_attachments_of. apply in_map_iff. exists e. split; [reflexivity|].
    exact He. }
  fold rows in Ht. exists t. split; [exact Ht|].
  unfold first_ticket_for in Ht. rewrite Hcanon in Ht.
  pose proof (first_row_is_first_reference config (fst e) items) as Hhead.
  rewrite <- Hrows, <- Htickets in Hhead.
  destruct (filter (fun t0 => existsb (fun a => str_eqb (Asset.name a) (fst e))
                                      (TicketRow.attachments t0)) rows)
    as [|t0 l] eqn:Ef; [discriminate Ht|].
  injection Ht as <-.
  assert (Hin : In t0 (filter (fun t1 => existsb (fun a => str_eqb (Asset.name a) (fst e))
                                                 (TicketRow.attachments t1)) rows))
    by (rewrite Ef; left; reflexivity).
  apply filter_In in Hin. destruct Hin as [Hin Hhas].
  repeat split; [exact Hin | exact Hhas | symmetry; exact Hhead].
Qed.
